(** * IPAM: the allocation and data-management engine of ipam_database.py

    A shallow embedding of [IPAMDatabase] (src/ipam_database.py): the three
    SQLite relations as lists of rows in rowid order, every method as a
    function on the committed database, and the properties of the
    specification proved (or refuted) on these functions.

    Conventions.
    - Python [str] values are [string]s of UTF-8 bytes.  The helpers below
      ([strip], [lower], [int]) follow CPython on ASCII input; whitespace and
      digits outside ASCII are not recognised, and [LIKE] matches bytes.
    - [ipaddress] is modelled for IPv4 only (CPython 3.10 and later: leading
      zeros in an octet are rejected).  IPv6 text is outside the model: a
      text that [IPv4Network] rejects counts as rejected.
    - A NULL column is [None].
    - A call reads its clocks once: every row it writes carries the same
      [CURRENT_TIMESTAMP].
    - AUTOINCREMENT ids come from the counters kept in [sqlite_sequence];
      a SELECT without ORDER BY yields rows in rowid order.
    - The only exceptions modelled are [ValueError] from [ip_network] and
      [sqlite3.IntegrityError] from a UNIQUE constraint; a database file
      that cannot be opened or written is outside the model.
    - Counts are converted to floats exactly (they are below 2^53). *)

From Stdlib Require Import ZArith List String Ascii Bool Lia.
From Stdlib Require Import Permutation Sorted DecimalString.
From Stdlib Require Import PrimFloat Uint63.
Import ListNotations.

Local Open Scope string_scope.
Local Open Scope list_scope.
Local Open Scope Z_scope.

(** ** Python built-ins used by the module *)

Module Py.

(** [str.isspace] on an ASCII character: tab, LF, VT, FF, CR, the four
    separators 0x1c-0x1f and the space. *)
Definition isspace (c : ascii) : bool :=
  let n := nat_of_ascii c in
  ((9 <=? n) && (n <=? 13))%nat || ((28 <=? n) && (n <=? 32))%nat.

Definition isdigit_char (c : ascii) : bool :=
  let n := nat_of_ascii c in ((48 <=? n) && (n <=? 57))%nat.

Definition isascii_char (c : ascii) : bool := (nat_of_ascii c <? 128)%nat.

Fixpoint lstrip (s : string) : string :=
  match s with
  | EmptyString => EmptyString
  | String c s' => if isspace c then lstrip s' else s
  end.

(** [rstrip]: a trailing character is dropped when everything after it
    is already gone and it is whitespace. *)
Fixpoint rstrip (s : string) : string :=
  match s with
  | EmptyString => EmptyString
  | String c s' =>
      match rstrip s' with
      | EmptyString => if isspace c then EmptyString else String c EmptyString
      | r => String c r
      end
  end.

(** [s.strip()] *)
Definition strip (s : string) : string := rstrip (lstrip s).

Definition lower_char (c : ascii) : ascii :=
  let n := nat_of_ascii c in
  if ((65 <=? n) && (n <=? 90))%nat then ascii_of_nat (n + 32) else c.

(** [s.lower()] *)
Fixpoint lower (s : string) : string :=
  match s with
  | EmptyString => EmptyString
  | String c s' => String (lower_char c) (lower s')
  end.

(** [s.split(sep)] for a one-character separator: always at least one
    piece, empty pieces kept. *)
Fixpoint split (sep : ascii) (s : string) : list string :=
  match s with
  | EmptyString => [EmptyString]
  | String c s' =>
      if Ascii.eqb c sep then EmptyString :: split sep s'
      else match split sep s' with
           | [] => [String c EmptyString]
           | p :: ps => String c p :: ps
           end
  end.

(** [s.isascii() and s.isdigit()]: non-empty, ASCII digits only. *)
Fixpoint all_digits (s : string) : bool :=
  match s with
  | EmptyString => true
  | String c s' => isdigit_char c && all_digits s'
  end.

Definition isascii_isdigit (s : string) : bool :=
  match s with
  | EmptyString => false
  | _ => all_digits s
  end.

Definition digit_value (c : ascii) : Z := Z.of_nat (nat_of_ascii c) - 48.

(** Value of a digit string read left to right from accumulator [acc]. *)
Fixpoint digits_value (acc : Z) (s : string) : Z :=
  match s with
  | EmptyString => acc
  | String c s' => digits_value (10 * acc + digit_value c) s'
  end.

(** The digit part of an integer literal: digits, with single underscores
    allowed between digits ([prev_digit] tells whether the previous
    character was a digit). *)
Fixpoint int_digits (prev_digit : bool) (acc : Z) (s : string) : option Z :=
  match s with
  | EmptyString => if prev_digit then Some acc else None
  | String c s' =>
      if isdigit_char c then int_digits true (10 * acc + digit_value c) s'
      else if Ascii.eqb c "_"%char
           then if prev_digit then int_digits false acc s' else None
           else None
  end.

(** [int(s)]: surrounding whitespace, an optional sign, decimal digits.
    [None] stands for the [ValueError]. *)
Definition int (s : string) : option Z :=
  match strip s with
  | String "-"%char d => option_map Z.opp (int_digits false 0 d)
  | String "+"%char d => int_digits false 0 d
  | d => int_digits false 0 d
  end.

(** Comparison of tuples of integers: lexicographic, a proper prefix is
    smaller. *)
Fixpoint tuple_leb (a b : list Z) : bool :=
  match a, b with
  | [], _ => true
  | _ :: _, [] => false
  | x :: a', y :: b' =>
      if x <? y then true else if y <? x then false else tuple_leb a' b'
  end.

(** Comparison of [str] values (code point order, which on UTF-8 bytes is
    byte order). *)
Fixpoint str_leb (a b : string) : bool :=
  match a, b with
  | EmptyString, _ => true
  | String _ _, EmptyString => false
  | String x a', String y b' =>
      let nx := nat_of_ascii x in
      let ny := nat_of_ascii y in
      if (nx <? ny)%nat then true
      else if (ny <? nx)%nat then false else str_leb a' b'
  end.

(** [list.sort(key=...)]: a stable sort, given here as insertion from the
    right, which places equal keys in their original order. *)
Section Sort.
Context {A K : Type} (leb : K -> K -> bool) (key : A -> K).

Fixpoint insert (x : A) (l : list A) : list A :=
    match l with
    | [] => [x]
    | y :: l' =>
        if leb (key x) (key y) then x :: l else y :: insert x l'
    end.

Fixpoint sort (l : list A) : list A :=
    match l with
    | [] => []
    | x :: l' => insert x (sort l')
    end.
End Sort.

(** [x or 0] on a value that may be [None]. *)
Definition or_zero (x : option Z) : Z :=
  match x with
  | Some z => z
  | None => 0
  end.

(** Python numbers as the statistics use them: [int] or [float]. *)
Inductive number : Type :=
| Int (z : Z)
| Float (f : float).

Definition float_of_int (z : Z) : float := PrimFloat.of_uint63 (Uint63.of_Z z).

(** [a / b] on two ints (true division); exact conversion below 2^53. *)
Definition truediv (a b : Z) : float :=
  PrimFloat.div (float_of_int a) (float_of_int b).

(** [x >= k] for an int constant [k]. *)
Definition ge_const (x : number) (k : Z) : bool :=
  match x with
  | Int z => k <=? z
  | Float f => PrimFloat.leb (float_of_int k) f
  end.

End Py.

(** ** The part of Python's [ipaddress] that [create_subnet] calls (IPv4) *)

Module ipaddress.

Definition max_prefixlen : Z := 32.

Definition ALL_ONES : Z := 2 ^ 32 - 1.

(** An [IPv4Address] is its 32-bit integer. *)
Definition IPv4Address : Type := Z.

Record IPv4Network : Type := mkNetwork {
  network_address : IPv4Address;
  prefixlen : Z
}.

(** [_parse_octet]: non-empty, ASCII digits, at most three of them, no
    leading zero unless the octet is "0", value at most 255. *)
Definition parse_octet (octet_str : string) : option Z :=
  if negb (Py.isascii_isdigit octet_str) then None
  else if (3 <? String.length octet_str)%nat then None
  else if negb (String.eqb octet_str "0") && String.prefix "0" octet_str then None
  else
    let octet_int := Py.digits_value 0 octet_str in
    if 255 <? octet_int then None else Some octet_int.

(** [int.from_bytes(octets, 'big')] *)
Definition from_bytes (octets : list Z) : Z :=
  fold_left (fun acc o => acc * 256 + o) octets 0.

Fixpoint parse_octets (octets : list string) : option (list Z) :=
  match octets with
  | [] => Some []
  | o :: rest =>
      match parse_octet o, parse_octets rest with
      | Some v, Some vs => Some (v :: vs)
      | _, _ => None
      end
  end.

(** [_ip_int_from_string]; [None] is the [AddressValueError]. *)
Definition ip_int_from_string (ip_str : string) : option Z :=
  if String.eqb ip_str "" then None
  else
    let octets := Py.split "."%char ip_str in
    if negb (List.length octets =? 4)%nat then None
    else option_map from_bytes (parse_octets octets).

(** [_prefix_from_prefix_string] *)
Definition prefix_from_prefix_string (prefixlen_str : string) : option Z :=
  if negb (Py.isascii_isdigit prefixlen_str) then None
  else
    let p := Py.digits_value 0 prefixlen_str in
    if (0 <=? p) && (p <=? max_prefixlen) then Some p else None.

(** [int.bit_length] on a non-negative integer. *)
Definition bit_length (x : Z) : Z := if x =? 0 then 0 else Z.log2 x + 1.

(** [_count_righthand_zero_bits] *)
Definition count_righthand_zero_bits (number bits : Z) : Z :=
  if number =? 0 then bits
  else Z.min bits (bit_length (Z.land (Z.lnot number) (number - 1))).

(** [_prefix_from_ip_int]; [None] is the [ValueError] for a pattern that
    mixes zeroes and ones. *)
Definition prefix_from_ip_int (ip_int : Z) : option Z :=
  let trailing_zeroes := count_righthand_zero_bits ip_int max_prefixlen in
  let p := max_prefixlen - trailing_zeroes in
  let leading_ones := Z.shiftr ip_int trailing_zeroes in
  let all_ones := Z.shiftl 1 p - 1 in
  if leading_ones =? all_ones then Some p else None.

(** [_prefix_from_ip_string]: a dotted netmask, else a dotted hostmask. *)
Definition prefix_from_ip_string (ip_str : string) : option Z :=
  match ip_int_from_string ip_str with
  | None => None
  | Some ip_int =>
      match prefix_from_ip_int ip_int with
      | Some p => Some p
      | None => prefix_from_ip_int (Z.lxor ip_int ALL_ONES)
      end
  end.

(** [_make_netmask] on a string argument, returning the prefix length. *)
Definition make_netmask (arg : string) : option Z :=
  match prefix_from_prefix_string arg with
  | Some p => Some p
  | None => prefix_from_ip_string arg
  end.

(** [_ip_int_from_prefix] *)
Definition ip_int_from_prefix (p : Z) : Z :=
  Z.lxor ALL_ONES (Z.shiftr ALL_ONES p).

Definition netmask (n : IPv4Network) : Z := ip_int_from_prefix (prefixlen n).

Definition hostmask (n : IPv4Network) : Z := Z.lxor (netmask n) ALL_ONES.

Definition broadcast_address (n : IPv4Network) : IPv4Address :=
  Z.lor (network_address n) (hostmask n).

(** [ip_network(address)] with [strict=True], IPv4 branch.  [None] stands
    for the [ValueError] (bad address, bad netmask, more than one slash,
    host bits set). *)
Definition ip_network (address : string) : option IPv4Network :=
  match Py.split "/"%char address with
  | [addr] =>
      match ip_int_from_string addr with
      | Some a => Some (mkNetwork a max_prefixlen)
      | None => None
      end
  | [addr; mask] =>
      match ip_int_from_string addr with
      | None => None
      | Some a =>
          match make_netmask mask with
          | None => None
          | Some p =>
              let net := mkNetwork a p in
              if Z.land a (netmask net) =? a then Some net else None
          end
      end
  | _ => None
  end.

(** [range(lo, hi)] *)
Definition range (lo hi : Z) : list Z :=
  map (fun i => lo + Z.of_nat i) (seq 0 (Z.to_nat (hi - lo))).

(** [network.hosts()]: every address strictly between network and
    broadcast; for a /31 both addresses of the network ([__iter__]); for a
    /32 the single address. *)
Definition hosts (n : IPv4Network) : list IPv4Address :=
  if prefixlen n =? max_prefixlen - 1
  then range (network_address n) (broadcast_address n + 1)
  else if prefixlen n =? max_prefixlen
  then [network_address n]
  else range (network_address n + 1) (broadcast_address n).

(** [bool(address)]: the class defines neither [__bool__] nor [__len__], so
    every address object is true, 0.0.0.0 included. *)
Definition truth (a : IPv4Address) : bool := true.

(** [str(n)] for an [int] *)
Definition str_int (z : Z) : string := NilZero.string_of_int (Z.to_int z).

(** [ip_int.to_bytes(4, 'big')] *)
Definition to_bytes (a : Z) : list Z :=
  [Z.land (Z.shiftr a 24) 255; Z.land (Z.shiftr a 16) 255;
   Z.land (Z.shiftr a 8) 255; Z.land a 255].

(** [str(address)]: the dotted quad. *)
Definition str (a : IPv4Address) : string :=
  String.concat "." (map str_int (to_bytes a)).

End ipaddress.

(** ** ipam_config.py *)

Module Config.

Definition HIGH_USAGE_THRESHOLD : Z := 80.

Definition MEDIUM_USAGE_THRESHOLD : Z := 60.

End Config.

(** ** The three relations of [init_database] *)

(** The CHECK constraint of [ip_addresses.status]. *)
Inductive Status : Type := free | used | reserved.

(** The values written to [ip_history.action]. *)
Inductive Action : Type := allocate | release | reserve.

Definition Status_eqb (a b : Status) : bool :=
  match a, b with
  | free, free | used, used | reserved, reserved => true
  | _, _ => false
  end.

Module Subnet.

Record row : Type := mk {
  id : Z;
  subnet_cidr : string;
  description : option string;
  gateway : option string;
  dns_server : option string;
  created_at : string
}.

End Subnet.

Module Address.

Record row : Type := mk {
  id : Z;
  ip_address : string;
  subnet_id : option Z;
  status : Status;
  allocated_to : option string;
  mac_address : option string;
  device_type : option string;
  allocated_at : option string;
  notes : option string;
  last_updated : string
}.

End Address.

Module History.

Record row : Type := mk {
  id : Z;
  ip_address : string;
  action : Action;
  old_status : Status;
  new_status : Status;
  changed_by : string;
  notes : string;
  changed_at : string
}.

End History.

(** The database file: the rows of each table in rowid order and the
    AUTOINCREMENT counters ([sqlite_sequence]). *)
Record Database : Type := mkDatabase {
  subnets : list Subnet.row;
  ip_addresses : list Address.row;
  ip_history : list History.row;
  seq_subnets : Z;
  seq_ip_addresses : Z;
  seq_ip_history : Z
}.

Definition empty_database : Database := mkDatabase [] [] [] 0 0 0.

(** The two clocks a call reads: SQLite's [CURRENT_TIMESTAMP] and Python's
    [datetime.now()] formatted with "%Y-%m-%d %H:%M:%S". *)
Record Clock : Type := mkClock {
  CURRENT_TIMESTAMP : string;
  now : string
}.

(** ** Connections, transactions and exceptions *)

Inductive Exception : Type :=
| ValueError
| IntegrityError (constraint : string).

(** A connection opened by [get_connection]: the committed file and the
    state seen inside the open transaction.  Only [commit] moves the
    latter into the former; a connection that is dropped without a commit
    leaves the committed file as it was. *)
Record Connection : Type := mkConnection {
  committed : Database;
  pending : Database
}.

Definition get_connection (db : Database) : Connection := mkConnection db db.

Inductive outcome (A : Type) : Type :=
| Value (a : A)
| Raised (e : Exception).

Arguments Value {A} a.
Arguments Raised {A} e.

(** Code running on a connection: it returns or raises, and leaves the
    connection in some state. *)
Definition M (A : Type) : Type := Connection -> outcome A * Connection.

Definition ret {A} (a : A) : M A := fun c => (Value a, c).

Definition raise {A} (e : Exception) : M A := fun c => (Raised e, c).

Definition bind {A B} (m : M A) (k : A -> M B) : M B :=
  fun c =>
    match m c with
    | (Value a, c') => k a c'
    | (Raised e, c') => (Raised e, c')
    end.

Notation "x <- m ;; k" := (bind m (fun x => k))
  (at level 61, m at next level, right associativity).
Notation "m ;;; k" := (bind m (fun _ => k))
  (at level 61, right associativity).

(** A read of the transaction's state. *)
Definition query {A} (f : Database -> A) : M A :=
  fun c => (Value (f (pending c)), c).

(** A statement that may violate a constraint. *)
Definition execute {A} (f : Database -> outcome (A * Database)) : M A :=
  fun c =>
    match f (pending c) with
    | Value (a, db') => (Value a, mkConnection (committed c) db')
    | Raised e => (Raised e, c)
    end.

(** [conn.commit()] *)
Definition commit : M unit :=
  fun c => (Value tt, mkConnection (pending c) (pending c)).

(** [for x in xs: body(x)], threading an accumulator. *)
Fixpoint for_each {A S} (xs : list A) (body : A -> S -> M S) (s : S) : M S :=
  match xs with
  | [] => ret s
  | x :: xs' => s' <- body x s ;; for_each xs' body s'
  end.

(** A whole method: open a connection on the file, run the body under its
    [try], map an exception through the [except] clauses, and leave the
    committed file behind. *)
Definition call {A} (body : M A) (handler : Exception -> A) (db : Database)
  : A * Database :=
  match body (get_connection db) with
  | (Value a, c) => (a, committed c)
  | (Raised e, c) => (handler e, committed c)
  end.

(** ** The messages returned next to the success flag *)

Inductive Message : Type :=
| SubnetExists (cidr : string)
| SubnetCreated (cidr : string) (total_ips : Z)
| InvalidSubnetFormat (e : Exception)
| CreateSubnetFailed (e : Exception)
| SubnetNotExist
| SubnetDeleted (cidr : string)
| DeleteSubnetFailed (e : Exception)
| IpNotExist (ip : string)
| IpCannotAllocate (ip : string) (current : Status)
| IpAllocated (ip : string)
| AllocateFailed (e : Exception)
| IpReleased (ip : string)
| ReleaseFailed (e : Exception)
| IpReserved (ip : string)
| ReserveFailed (e : Exception)
| IpNotExistSkipped (ip : string)
| ImportFailed (e : Exception).

(** The error taxonomy of the specification, read off the message. *)
Inductive ErrorKind : Type :=
| ValidationError
| DuplicateError
| NotFoundError
| InvalidTransitionError
| StorageError.

Definition error_kind (m : Message) : option ErrorKind :=
  match m with
  | InvalidSubnetFormat _ => Some ValidationError
  | SubnetExists _ => Some DuplicateError
  | CreateSubnetFailed (IntegrityError _) => Some DuplicateError
  | SubnetNotExist | IpNotExist _ | IpNotExistSkipped _ => Some NotFoundError
  | IpCannotAllocate _ _ => Some InvalidTransitionError
  | CreateSubnetFailed _ | DeleteSubnetFailed _ | AllocateFailed _
  | ReleaseFailed _ | ReserveFailed _ | ImportFailed _ => Some StorageError
  | SubnetCreated _ _ | SubnetDeleted _ | IpAllocated _ | IpReleased _
  | IpReserved _ => None
  end.

(** ** The SQL statements the methods execute *)

Definition with_subnets (db : Database) (l : list Subnet.row) (sq : Z) : Database :=
  mkDatabase l (ip_addresses db) (ip_history db)
    sq (seq_ip_addresses db) (seq_ip_history db).

Definition with_ip_addresses (db : Database) (l : list Address.row) (sq : Z)
  : Database :=
  mkDatabase (subnets db) l (ip_history db)
    (seq_subnets db) sq (seq_ip_history db).

Definition with_ip_history (db : Database) (l : list History.row) (sq : Z)
  : Database :=
  mkDatabase (subnets db) (ip_addresses db) l
    (seq_subnets db) (seq_ip_addresses db) sq.

Definition has_cidr (cidr : string) (s : Subnet.row) : bool :=
  String.eqb (Subnet.subnet_cidr s) cidr.

Definition has_ip (ip : string) (r : Address.row) : bool :=
  String.eqb (Address.ip_address r) ip.

(** [SELECT id FROM subnets WHERE subnet_cidr = ?] and [fetchone()] *)
Definition select_subnet_id (cidr : string) (db : Database) : option Z :=
  option_map Subnet.id (find (has_cidr cidr) (subnets db)).

(** [INSERT INTO subnets (subnet_cidr, description, gateway, dns_server)];
    the result is [cursor.lastrowid]. *)
Definition insert_subnet (clk : Clock) (cidr desc gw dns : string) (db : Database)
  : outcome (Z * Database) :=
  if existsb (has_cidr cidr) (subnets db)
  then Raised (IntegrityError "subnets.subnet_cidr")
  else
    let rowid := seq_subnets db + 1 in
    Value (rowid,
           with_subnets db
             (subnets db ++
              [Subnet.mk rowid cidr (Some desc) (Some gw) (Some dns)
                 (CURRENT_TIMESTAMP clk)])
             rowid).

(** [INSERT INTO ip_addresses (ip_address, subnet_id, status[, notes])]:
    the columns not named are NULL, [last_updated] takes its default, and
    the UNIQUE constraint on [ip_address] is checked. *)
Definition insert_ip_address (clk : Clock) (ip : string) (subnet_id : Z)
    (st : Status) (notes : option string) (db : Database)
  : outcome (unit * Database) :=
  if existsb (has_ip ip) (ip_addresses db)
  then Raised (IntegrityError "ip_addresses.ip_address")
  else
    let rowid := seq_ip_addresses db + 1 in
    Value (tt,
           with_ip_addresses db
             (ip_addresses db ++
              [Address.mk rowid ip (Some subnet_id) st None None None None notes
                 (CURRENT_TIMESTAMP clk)])
             rowid).

(** [SELECT ... FROM ip_addresses WHERE ip_address = ?] and [fetchone()] *)
Definition select_ip (ip : string) (db : Database) : option Address.row :=
  find (has_ip ip) (ip_addresses db).

(** [UPDATE ip_addresses SET ... WHERE ip_address = ?] *)
Definition update_ip (ip : string) (set : Address.row -> Address.row)
    (db : Database) : Database :=
  with_ip_addresses db
    (map (fun r => if has_ip ip r then set r else r) (ip_addresses db))
    (seq_ip_addresses db).

(** The SET clause of [allocate_ip]. *)
Definition set_allocated (clk : Clock) (allocated_to mac device_type notes : string)
    (r : Address.row) : Address.row :=
  Address.mk (Address.id r) (Address.ip_address r) (Address.subnet_id r)
    used (Some allocated_to) (Some mac) (Some device_type) (Some (now clk))
    (Some notes) (CURRENT_TIMESTAMP clk).

(** The SET clause of [release_ip]. *)
Definition set_released (clk : Clock) (r : Address.row) : Address.row :=
  Address.mk (Address.id r) (Address.ip_address r) (Address.subnet_id r)
    free None None None None (Some "") (CURRENT_TIMESTAMP clk).

(** The SET clause of [reserve_ip]. *)
Definition set_reserved (clk : Clock) (notes : string) (r : Address.row)
  : Address.row :=
  Address.mk (Address.id r) (Address.ip_address r) (Address.subnet_id r)
    reserved (Address.allocated_to r) (Address.mac_address r)
    (Address.device_type r) (Address.allocated_at r) (Some notes)
    (CURRENT_TIMESTAMP clk).

(** The two SET clauses of [import_ips_from_csv]. *)
Definition set_imported_full (clk : Clock) (st : Status)
    (allocated_to mac device_type notes : string) (r : Address.row)
  : Address.row :=
  Address.mk (Address.id r) (Address.ip_address r) (Address.subnet_id r)
    st (Some allocated_to) (Some mac) (Some device_type) (Address.allocated_at r)
    (Some notes) (CURRENT_TIMESTAMP clk).

Definition set_imported_status (clk : Clock) (st : Status) (r : Address.row)
  : Address.row :=
  Address.mk (Address.id r) (Address.ip_address r) (Address.subnet_id r)
    st (Address.allocated_to r) (Address.mac_address r)
    (Address.device_type r) (Address.allocated_at r) (Address.notes r)
    (CURRENT_TIMESTAMP clk).

(** [INSERT INTO ip_history (ip_address, action, old_status, new_status,
    changed_by, notes)] *)
Definition insert_history (clk : Clock) (ip : string) (a : Action)
    (old new : Status) (changed_by notes : string) (db : Database) : Database :=
  let rowid := seq_ip_history db + 1 in
  with_ip_history db
    (ip_history db ++
     [History.mk rowid ip a old new changed_by notes (CURRENT_TIMESTAMP clk)])
    rowid.

(** [DELETE FROM ip_addresses WHERE subnet_id = ?] *)
Definition delete_ips_of_subnet (sid : Z) (db : Database) : Database :=
  with_ip_addresses db
    (filter (fun r => negb match Address.subnet_id r with
                           | Some i => i =? sid
                           | None => false
                           end) (ip_addresses db))
    (seq_ip_addresses db).

(** [DELETE FROM subnets WHERE id = ?] *)
Definition delete_subnet_row (sid : Z) (db : Database) : Database :=
  with_subnets db
    (filter (fun s => negb (Subnet.id s =? sid)) (subnets db))
    (seq_subnets db).

(** A statement that cannot fail on a constraint. *)
Definition update (f : Database -> Database) : M unit :=
  execute (fun db => Value (tt, f db)).

(** ** [create_subnet] *)

(** The loop [for ip in network.hosts()] of [create_subnet]: one free row
    per host, counting them. *)
Definition insert_hosts (clk : Clock) (subnet_id : Z)
    (hosts : list ipaddress.IPv4Address) : Z -> M Z :=
  for_each hosts
    (fun ip total_ips =>
       execute (insert_ip_address clk (ipaddress.str ip) subnet_id free None) ;;;
       ret (total_ips + 1)).

(** Lines 155-191 of [create_subnet]: the subnet row, the address rows,
    the commit. *)
Definition create_subnet_rows (clk : Clock) (subnet_cidr description gateway
    dns_server : string) (network : ipaddress.IPv4Network)
  : M (bool * Message) :=
  subnet_id <- execute (insert_subnet clk subnet_cidr description
                          gateway dns_server) ;;
  total_ips <- insert_hosts clk subnet_id (ipaddress.hosts network) 0 ;;
  let network_addr := ipaddress.str (ipaddress.network_address network) in
  let broadcast_addr :=
    if ipaddress.truth (ipaddress.broadcast_address network)
    then ipaddress.str (ipaddress.broadcast_address network)
    else "" in
  execute (insert_ip_address clk network_addr subnet_id reserved
             (Some "网络地址")) ;;;
  total_ips <-
    (if negb (String.eqb broadcast_addr "")
     then
       execute (insert_ip_address clk broadcast_addr subnet_id reserved
                  (Some "广播地址")) ;;;
       ret (total_ips + 2)
     else ret (total_ips + 1)) ;;
  commit ;;;
  ret (true, SubnetCreated subnet_cidr total_ips).

Definition create_subnet_body (clk : Clock) (subnet_cidr description gateway
    dns_server : string) : M (bool * Message) :=
  match ipaddress.ip_network subnet_cidr with
  | None => raise ValueError
  | Some network =>
      found <- query (select_subnet_id subnet_cidr) ;;
      match found with
      | Some _ => ret (false, SubnetExists subnet_cidr)
      | None =>
          create_subnet_rows clk subnet_cidr description gateway dns_server
            network
      end
  end.

Definition create_subnet_except (e : Exception) : bool * Message :=
  match e with
  | ValueError => (false, InvalidSubnetFormat e)
  | IntegrityError _ => (false, CreateSubnetFailed e)
  end.

Definition create_subnet (clk : Clock) (subnet_cidr description gateway
    dns_server : string) (db : Database) : (bool * Message) * Database :=
  call (create_subnet_body clk subnet_cidr description gateway dns_server)
    create_subnet_except db.

(** ** [delete_subnet] *)

Definition delete_subnet_body (subnet_cidr : string) : M (bool * Message) :=
  subnet <- query (select_subnet_id subnet_cidr) ;;
  match subnet with
  | None => ret (false, SubnetNotExist)
  | Some subnet_id =>
      update (delete_ips_of_subnet subnet_id) ;;;
      update (delete_subnet_row subnet_id) ;;;
      commit ;;;
      ret (true, SubnetDeleted subnet_cidr)
  end.

Definition delete_subnet (subnet_cidr : string) (db : Database)
  : (bool * Message) * Database :=
  call (delete_subnet_body subnet_cidr)
    (fun e => (false, DeleteSubnetFailed e)) db.

(** ** [allocate_ip], [release_ip], [reserve_ip] *)

Definition allocate_ip_body (clk : Clock) (ip_address allocated_to mac_address
    device_type notes : string) : M (bool * Message) :=
  result <- query (select_ip ip_address) ;;
  match result with
  | None => ret (false, IpNotExist ip_address)
  | Some r =>
      if negb (Status_eqb (Address.status r) free)
      then ret (false, IpCannotAllocate ip_address (Address.status r))
      else
        update (update_ip ip_address
                  (set_allocated clk allocated_to mac_address device_type notes)) ;;;
        update (insert_history clk ip_address allocate free used allocated_to
                  notes) ;;;
        commit ;;;
        ret (true, IpAllocated ip_address)
  end.

Definition allocate_ip (clk : Clock) (ip_address allocated_to mac_address
    device_type notes : string) (db : Database) : (bool * Message) * Database :=
  call (allocate_ip_body clk ip_address allocated_to mac_address device_type
          notes)
    (fun e => (false, AllocateFailed e)) db.

Definition release_ip_body (clk : Clock) (ip_address notes : string)
  : M (bool * Message) :=
  result <- query (select_ip ip_address) ;;
  match result with
  | None => ret (false, IpNotExist ip_address)
  | Some r =>
      update (update_ip ip_address (set_released clk)) ;;;
      update (insert_history clk ip_address release (Address.status r) free
                "system" notes) ;;;
      commit ;;;
      ret (true, IpReleased ip_address)
  end.

Definition release_ip (clk : Clock) (ip_address notes : string) (db : Database)
  : (bool * Message) * Database :=
  call (release_ip_body clk ip_address notes)
    (fun e => (false, ReleaseFailed e)) db.

Definition reserve_ip_body (clk : Clock) (ip_address notes : string)
  : M (bool * Message) :=
  update (update_ip ip_address (set_reserved clk notes)) ;;;
  update (insert_history clk ip_address reserve free reserved "system" notes) ;;;
  commit ;;;
  ret (true, IpReserved ip_address).

Definition reserve_ip (clk : Clock) (ip_address notes : string) (db : Database)
  : (bool * Message) * Database :=
  call (reserve_ip_body clk ip_address notes)
    (fun e => (false, ReserveFailed e)) db.

(** ** The CSV imports *)

(** [row[i].strip() if len(row) > i else ""] *)
Definition column (row : list string) (i : nat) : string :=
  match nth_error row i with
  | Some s => Py.strip s
  | None => ""
  end.

(** One turn of the loop of [import_subnet_from_csv]. *)
Definition import_subnet_row (clk : Clock)
    (acc : (Z * list Message) * Database) (row : list string)
  : (Z * list Message) * Database :=
  let '((imported_count, error_messages), db) := acc in
  if (1 <=? List.length row)%nat
  then
    match create_subnet clk (column row 0) (column row 1) (column row 2)
            (column row 3) db with
    | ((true, _), db') => ((imported_count + 1, error_messages), db')
    | ((false, message), db') =>
        ((imported_count, error_messages ++ [message]), db')
    end
  else acc.

Definition import_subnet_from_csv (clk : Clock) (csv_data : list (list string))
    (db : Database) : (Z * list Message) * Database :=
  fold_left (import_subnet_row clk) csv_data ((0, []), db).

(** The status column of an imported row: lower-cased, and anything that
    is not one of the three values becomes free. *)
Definition imported_status (row : list string) : Status :=
  let status := Py.lower (column row 1) in
  if String.eqb status "used" then used
  else if String.eqb status "reserved" then reserved
  else free.

Definition import_ips_row (clk : Clock) (row : list string)
    (acc : Z * list Message) : M (Z * list Message) :=
  let '(updated_count, error_messages) := acc in
  if (2 <=? List.length row)%nat
  then
    let ip_address := column row 0 in
    let status := imported_status row in
    existing <- query (select_ip ip_address) ;;
    match existing with
    | Some _ =>
        if Status_eqb status used && (4 <=? List.length row)%nat
        then
          update (update_ip ip_address
                    (set_imported_full clk status (column row 2) (column row 3)
                       (column row 4) (column row 5))) ;;;
          ret (updated_count + 1, error_messages)
        else
          update (update_ip ip_address (set_imported_status clk status)) ;;;
          ret (updated_count + 1, error_messages)
    | None =>
        ret (updated_count, error_messages ++ [IpNotExistSkipped ip_address])
    end
  else ret acc.

Definition import_ips_from_csv_body (clk : Clock) (csv_data : list (list string))
  : M (Z * Z * list Message) :=
  r <- for_each csv_data (import_ips_row clk) (0, []) ;;
  commit ;;;
  ret (0, fst r, snd r).

(** The [subnet_cidr] argument of the method is never read. *)
Definition import_ips_from_csv (clk : Clock) (csv_data : list (list string))
    (subnet_cidr : option string) (db : Database)
  : (Z * Z * list Message) * Database :=
  call (import_ips_from_csv_body clk csv_data)
    (fun e => (0, 0, [ImportFailed e])) db.

(** ** Listing and search *)

(** [ip_to_sortable_key]: the tuple of the integers between the dots; when
    a conversion fails the [except] branch returns (0, 0, 0, 0). *)
Fixpoint ints_of_parts (parts : list string) : option (list Z) :=
  match parts with
  | [] => Some []
  | part :: rest =>
      match Py.int part with
      | None => None
      | Some z =>
          match ints_of_parts rest with
          | None => None
          | Some zs => Some (z :: zs)
          end
      end
  end.

Definition ip_to_sortable_key (ip_address : string) : list Z :=
  match ints_of_parts (Py.split "."%char ip_address) with
  | Some key => key
  | None => [0; 0; 0; 0]
  end.

(** The subnet row a join on [ip.subnet_id = s.id] pairs with an address
    row ([id] is the primary key, so there is at most one). *)
Definition owner (db : Database) (r : Address.row) : option Subnet.row :=
  match Address.subnet_id r with
  | Some i => find (fun s => Subnet.id s =? i) (subnets db)
  | None => None
  end.

(** SQLite's [LIKE]: [%] matches any run of characters, [_] one character,
    letters compare without case. *)
Fixpoint like (pattern : string) : string -> bool :=
  match pattern with
  | EmptyString =>
      fun s => match s with EmptyString => true | String _ _ => false end
  | String p pattern' =>
      if Ascii.eqb p "%"%char
      then fix star (s : string) : bool :=
             like pattern' s
             || match s with
                | EmptyString => false
                | String _ s' => star s'
                end
      else if Ascii.eqb p "_"%char
      then fun s => match s with
                    | EmptyString => false
                    | String _ s' => like pattern' s'
                    end
      else fun s => match s with
                    | EmptyString => false
                    | String c s' =>
                        Ascii.eqb (Py.lower_char p) (Py.lower_char c)
                        && like pattern' s'
                    end
  end.

(** [column LIKE ?] on a column that may be NULL (NULL is not a match). *)
Definition like_null (pattern : string) (v : option string) : bool :=
  match v with
  | Some s => like pattern s
  | None => false
  end.

(** The seven columns selected by [get_ips_by_subnet]. *)
Record IpTuple : Type := mkIpTuple {
  t_ip_address : string;
  t_status : Status;
  t_allocated_to : option string;
  t_mac_address : option string;
  t_device_type : option string;
  t_allocated_at : option string;
  t_notes : option string
}.

Definition ip_tuple (r : Address.row) : IpTuple :=
  mkIpTuple (Address.ip_address r) (Address.status r) (Address.allocated_to r)
    (Address.mac_address r) (Address.device_type r) (Address.allocated_at r)
    (Address.notes r).

(** [status_map.get(status_filter)] of [get_ips_by_subnet] *)
Definition status_map (label : string) : option Status :=
  if String.eqb label "空闲" || String.eqb label "free" then Some free
  else if String.eqb label "已用" || String.eqb label "used" then Some used
  else if String.eqb label "保留" || String.eqb label "reserved"
       then Some reserved
  else None.

(** [status_mapping] of [search_ips] *)
Definition status_mapping (label : string) : option Status :=
  if String.eqb label "空闲" then Some free
  else if String.eqb label "已用" then Some used
  else if String.eqb label "保留" then Some reserved
  else None.

(** Truth of an optional [str] argument: [None] and the empty string are
    false. *)
Definition given (x : option string) : option string :=
  match x with
  | Some "" => None
  | _ => x
  end.

Definition owned_by (db : Database) (cidr : string) (r : Address.row) : bool :=
  match owner db r with
  | Some s => has_cidr cidr s
  | None => false
  end.

Definition get_ips_by_subnet (db : Database) (subnet_cidr : string)
    (status_filter : option string) : list IpTuple :=
  let db_status :=
    match given status_filter with
    | Some f => if String.eqb f "all" then None else status_map f
    | None => None
    end in
  let results :=
    filter (fun r =>
              owned_by db subnet_cidr r
              && match db_status with
                 | Some st => Status_eqb (Address.status r) st
                 | None => true
                 end)
      (ip_addresses db) in
  Py.sort Py.tuple_leb (fun x => ip_to_sortable_key (t_ip_address x))
    (map ip_tuple results).

(** The nine columns selected by [search_ips]. *)
Record SearchTuple : Type := mkSearchTuple {
  s_ip : IpTuple;
  s_subnet_cidr : option string;
  s_subnet_desc : option string
}.

Definition search_tuple (db : Database) (r : Address.row) : SearchTuple :=
  mkSearchTuple (ip_tuple r)
    (option_map Subnet.subnet_cidr (owner db r))
    (match owner db r with
     | Some s => Subnet.description s
     | None => None
     end).

Definition search_ips (db : Database) (subnet status keyword : option string)
  : list SearchTuple :=
  let by_subnet (r : Address.row) :=
    match given subnet with
    | Some cidr =>
        if String.eqb cidr "所有子网" then true else owned_by db cidr r
    | None => true
    end in
  let by_status (r : Address.row) :=
    match given status with
    | Some label =>
        if String.eqb label "所有状态" then true
        else match status_mapping label with
             | Some st => Status_eqb (Address.status r) st
             | None => true
             end
    | None => true
    end in
  let by_keyword (r : Address.row) :=
    match given keyword with
    | Some k =>
        match Py.strip k with
        | "" => true
        | k' =>
            let pat := ("%" ++ k' ++ "%")%string in
            let t := search_tuple db r in
            like pat (Address.ip_address r)
            || like_null pat (Address.allocated_to r)
            || like_null pat (Address.mac_address r)
            || like_null pat (Address.device_type r)
            || like_null pat (Address.notes r)
            || like_null pat (s_subnet_cidr t)
            || like_null pat (s_subnet_desc t)
        end
    | None => true
    end in
  let results :=
    filter (fun r => by_subnet r && by_status r && by_keyword r)
      (ip_addresses db) in
  Py.sort Py.tuple_leb (fun x => ip_to_sortable_key (t_ip_address (s_ip x)))
    (map (search_tuple db) results).

Definition get_free_ips (db : Database) (subnet_cidr : string) : list string :=
  let results :=
    map Address.ip_address
      (filter (fun r => owned_by db subnet_cidr r
                        && Status_eqb (Address.status r) free)
         (ip_addresses db)) in
  Py.sort Py.tuple_leb ip_to_sortable_key results.

(** ** Statistics *)

(** SQL [SUM]: NULL over no rows. *)
Definition sql_sum (l : list Z) : option Z :=
  match l with
  | [] => None
  | _ => Some (fold_right Z.add 0 l)
  end.

(** [CASE WHEN status = st THEN 1 ELSE 0 END] on a joined row; the status
    of the all-NULL row of a LEFT JOIN equals nothing. *)
Definition case_status (st : Status) (r : option Address.row) : Z :=
  match r with
  | Some a => if Status_eqb (Address.status a) st then 1 else 0
  | None => 0
  end.

(** [COUNT(ip.id)]: the rows whose [ip.id] is not NULL. *)
Definition sql_count (l : list (option Address.row)) : Z :=
  Z.of_nat (List.length (filter (fun r => match r with
                                          | Some _ => true
                                          | None => false
                                          end) l)).

(** The group of one subnet in [subnets s LEFT JOIN ip_addresses ip ON
    s.id = ip.subnet_id GROUP BY s.id]. *)
Definition left_join_group (db : Database) (s : Subnet.row)
  : list (option Address.row) :=
  match filter (fun r => match Address.subnet_id r with
                         | Some i => Subnet.id s =? i
                         | None => false
                         end) (ip_addresses db) with
  | [] => [None]
  | rows => map Some rows
  end.

(** One dictionary of [get_subnets_with_stats]. *)
Record SubnetStats : Type := mkSubnetStats {
  st_id : Z;
  st_subnet_cidr : string;
  st_description : option string;
  st_gateway : option string;
  st_dns_server : option string;
  st_created_at : string;
  total_ips : Z;
  used_ips : Z;
  free_ips : Z;
  reserved_ips : Z;
  usage_rate : Py.number;
  st_status : option string
}.

Definition subnet_stats (db : Database) (with_status : bool) (s : Subnet.row)
  : SubnetStats :=
  let group := left_join_group db s in
  let total := Py.or_zero (Some (sql_count group)) in
  let used := Py.or_zero (sql_sum (map (case_status used) group)) in
  let usage_rate :=
    if 0 <? total
    then Py.Float (PrimFloat.mul (Py.truediv used total) (Py.float_of_int 100))
    else Py.Int 0 in
  let status :=
    if total =? 0 then "空"
    else if Py.ge_const usage_rate Config.HIGH_USAGE_THRESHOLD then "高使用率"
    else if Py.ge_const usage_rate Config.MEDIUM_USAGE_THRESHOLD
         then "中高使用率"
    else if used =? 0 then "空闲"
    else "正常" in
  mkSubnetStats (Subnet.id s) (Subnet.subnet_cidr s) (Subnet.description s)
    (Subnet.gateway s) (Subnet.dns_server s) (Subnet.created_at s)
    total used
    (Py.or_zero (sql_sum (map (case_status free) group)))
    (Py.or_zero (sql_sum (map (case_status reserved) group)))
    usage_rate
    (if with_status then Some status else None).

(** [get_subnets_with_stats]: one entry per subnet, ORDER BY subnet_cidr. *)
Definition get_subnets_with_stats (db : Database) : list SubnetStats :=
  map (subnet_stats db true)
    (Py.sort Py.str_leb Subnet.subnet_cidr (subnets db)).

(** [get_subnet_details]: the same counts for one subnet, without the
    status label. *)
Definition get_subnet_details (db : Database) (subnet_cidr : string)
  : option SubnetStats :=
  option_map (subnet_stats db false) (find (has_cidr subnet_cidr) (subnets db)).

(** The dictionary of [get_statistics]. *)
Record Statistics : Type := mkStatistics {
  total : Z;
  g_used : Z;
  g_free : Z;
  g_reserved : Z;
  g_usage_rate : Py.number
}.

Definition get_statistics (db : Database) : Statistics :=
  let rows := map Some (ip_addresses db) in
  let stats0 := Z.of_nat (List.length rows) in
  let stats1 := sql_sum (map (case_status used) rows) in
  let stats2 := sql_sum (map (case_status free) rows) in
  let stats3 := sql_sum (map (case_status reserved) rows) in
  let usage_rate :=
    if negb (stats0 =? 0) && (0 <? stats0)
    then Py.Float (PrimFloat.mul (Py.truediv (Py.or_zero stats1) stats0)
                     (Py.float_of_int 100))
    else Py.Int 0 in
  mkStatistics (if negb (stats0 =? 0) then stats0 else 0)
    (Py.or_zero stats1) (Py.or_zero stats2) (Py.or_zero stats3) usage_rate.

(** ** Bulk allocation (ipam_gui.py) *)

(** The bulk allocation of ipam_gui.py (lines 1503-1512): [allocate_ip] on
    each selected address in turn, counting successes and collecting the
    messages of the failures. *)
Definition bulk_allocate_item (clk : Clock)
    (allocated_to mac_address device_type notes : string)
    (acc : (Z * list (string * Message)) * Database) (ip_address : string)
  : (Z * list (string * Message)) * Database :=
  let '((success_count, error_messages), db) := acc in
  match allocate_ip clk ip_address allocated_to mac_address device_type
          notes db with
  | ((true, _), db') => ((success_count + 1, error_messages), db')
  | ((false, message), db') =>
      ((success_count, error_messages ++ [(ip_address, message)]), db')
  end.

Definition bulk_allocate (clk : Clock) (selected : list string)
    (allocated_to mac_address device_type notes : string) (db : Database)
  : (Z * list (string * Message)) * Database :=
  fold_left (bulk_allocate_item clk allocated_to mac_address device_type notes)
    selected ((0, []), db).

(** * Vocabulary of the properties *)

(** The calls that write to the database. *)
Inductive Operation : Type :=
| CreateSubnet (cidr description gateway dns : string)
| DeleteSubnet (cidr : string)
| AllocateIp (ip allocated_to mac device_type notes : string)
| ReleaseIp (ip notes : string)
| ReserveIp (ip notes : string)
| BulkAllocate (selected : list string) (allocated_to mac device_type notes : string)
| ImportSubnets (csv_data : list (list string))
| ImportIps (csv_data : list (list string)) (subnet_cidr : option string).

(** The database a call leaves behind. *)
Definition run (clk : Clock) (op : Operation) (db : Database) : Database :=
  match op with
  | CreateSubnet cidr d g n => snd (create_subnet clk cidr d g n db)
  | DeleteSubnet cidr => snd (delete_subnet cidr db)
  | AllocateIp ip to mac dev notes => snd (allocate_ip clk ip to mac dev notes db)
  | ReleaseIp ip notes => snd (release_ip clk ip notes db)
  | ReserveIp ip notes => snd (reserve_ip clk ip notes db)
  | BulkAllocate sel to mac dev notes =>
      snd (bulk_allocate clk sel to mac dev notes db)
  | ImportSubnets csv => snd (import_subnet_from_csv clk csv db)
  | ImportIps csv sc => snd (import_ips_from_csv clk csv sc db)
  end.

(** The databases the calls can produce from the empty one. *)
Inductive reachable : Database -> Prop :=
| reachable_empty : reachable empty_database
| reachable_run clk op db : reachable db -> reachable (run clk op db).

(** The UNIQUE constraint on [ip_addresses.ip_address]. *)
Definition unique_ips (db : Database) : Prop :=
  NoDup (map Address.ip_address (ip_addresses db)).

(** A history row for [ip] that ends in status [new]; unless it is a
    reserve row it also starts from [old]. *)
Definition records (h : History.row) (ip : string) (old new : Status) : Prop :=
  History.ip_address h = ip
  /\ History.new_status h = new
  /\ (History.action h <> reserve -> History.old_status h = old).

(** The calls that go through the allocation state machine on [ip]. *)
Definition transition_on (ip : string) (op : Operation) : Prop :=
  match op with
  | AllocateIp ip' _ _ _ _ | ReleaseIp ip' _ | ReserveIp ip' _ => ip' = ip
  | BulkAllocate sel _ _ _ _ => In ip sel
  | _ => False
  end.

(** Same history, same subnets, same address texts in the same order:
    what an UPDATE of address rows cannot change. *)
Definition same_frame (db db' : Database) : Prop :=
  ip_history db' = ip_history db
  /\ subnets db' = subnets db
  /\ map Address.ip_address (ip_addresses db')
     = map Address.ip_address (ip_addresses db).

(** Code that does not commit leaves the committed file alone. *)
Definition no_commit {A} (m : M A) : Prop :=
  forall c, committed (snd (m c)) = committed c.

(** What one INSERT of [create_subnet] supplies: the address text, the
    status and the notes. *)
Definition row_spec : Type := (string * Status * option string)%type.

Definition spec_ip (x : row_spec) : string := fst (fst x).

(** The INSERTs of one [create_subnet], in the order the code issues them:
    the hosts as free, the network address and the broadcast address as
    reserved. *)
Definition host_specs (hosts : list ipaddress.IPv4Address) : list row_spec :=
  map (fun a => (ipaddress.str a, free, None)) hosts.

Definition address_specs (net : ipaddress.IPv4Network) : list row_spec :=
  host_specs (ipaddress.hosts net)
  ++ [(ipaddress.str (ipaddress.network_address net), reserved,
       Some "网络地址");
      (ipaddress.str (ipaddress.broadcast_address net), reserved,
       Some "广播地址")].

(** Inserting a list of rows one after the other, stopping at the first
    constraint violation. *)
Fixpoint insert_all (clk : Clock) (sid : Z) (specs : list row_spec)
    (db : Database) : outcome Database :=
  match specs with
  | [] => Value db
  | (ip, st, notes) :: rest =>
      match insert_ip_address clk ip sid st notes db with
      | Value (_, db') => insert_all clk sid rest db'
      | Raised e => Raised e
      end
  end.

(** The rows such an insertion appends: ids follow the AUTOINCREMENT
    counter. *)
Fixpoint new_rows (clk : Clock) (sid : Z) (start : Z) (specs : list row_spec)
  : list Address.row :=
  match specs with
  | [] => []
  | (ip, st, notes) :: rest =>
      Address.mk (start + 1) ip (Some sid) st None None None None notes
        (CURRENT_TIMESTAMP clk)
      :: new_rows clk sid (start + 1) rest
  end.

Definition append_rows (clk : Clock) (sid : Z) (specs : list row_spec)
    (db : Database) : Database :=
  with_ip_addresses db
    (ip_addresses db ++ new_rows clk sid (seq_ip_addresses db) specs)
    (seq_ip_addresses db + Z.of_nat (List.length specs)).

(** The transaction state once the subnet row is inserted. *)
Definition with_new_subnet (clk : Clock) (cidr d g n : string) (db : Database)
  : Database :=
  with_subnets db
    (subnets db ++
     [Subnet.mk (seq_subnets db + 1) cidr (Some d) (Some g) (Some n)
        (CURRENT_TIMESTAMP clk)])
    (seq_subnets db + 1).

(** [x] comes no later than [y] under the key. *)
Definition key_le {A K : Type} (leb : K -> K -> bool) (key : A -> K) (x y : A)
  : Prop :=
  leb (key x) (key y) = true.

(** Ascending order of the sort key on a list of results. *)
Definition ascending {A} (ip_of : A -> string) (l : list A) : Prop :=
  StronglySorted
    (fun x y =>
       Py.tuple_leb (ip_to_sortable_key (ip_of x)) (ip_to_sortable_key (ip_of y))
       = true) l.

(** The five usage classes of the specification and their labels. *)
Inductive UsageClass : Type := Empty | High | MediumHigh | Idle | Normal.

Definition label (c : UsageClass) : string :=
  match c with
  | Empty => "空"
  | High => "高使用率"
  | MediumHigh => "中高使用率"
  | Idle => "空闲"
  | Normal => "正常"
  end.

(** usage_rate = used/total*100, 0 if total == 0. *)
Definition usage_rate_spec (used total : Z) : Py.number :=
  if total =? 0 then Py.Int 0
  else Py.Float (PrimFloat.mul (Py.truediv used total) (Py.float_of_int 100)).

(** Empty if total == 0, High if usage_rate >= 80, MediumHigh if
    usage_rate >= 60, Idle if used == 0, Normal otherwise. *)
Definition classify_spec (used total : Z) (rate : Py.number) : UsageClass :=
  if total =? 0 then Empty
  else if Py.ge_const rate 80 then High
  else if Py.ge_const rate 60 then MediumHigh
  else if used =? 0 then Idle
  else Normal.

(** The number of address rows of a given status among [rows]. *)
Definition count_status (st : Status) (rows : list Address.row) : Z :=
  Z.of_nat (List.length
              (filter (fun r => Status_eqb (Address.status r) st) rows)).

(** The address rows that belong to the subnet with id [sid]. *)
Definition rows_of_subnet (db : Database) (sid : Z) : list Address.row :=
  filter (fun r => match Address.subnet_id r with
                   | Some i => sid =? i
                   | None => false
                   end) (ip_addresses db).

(** The float comparison against a threshold agrees with the exact
    comparison 100 * used >= k * total: checked for every subnet of up to
    256 addresses, at both thresholds. *)
Definition thresholds_exact (bound : nat) : bool :=
  forallb
    (fun t =>
       forallb
         (fun u =>
            let rate := usage_rate_spec (Z.of_nat u) (Z.of_nat t) in
            Bool.eqb (Py.ge_const rate Config.HIGH_USAGE_THRESHOLD)
              (Config.HIGH_USAGE_THRESHOLD * Z.of_nat t <=? 100 * Z.of_nat u)
            && Bool.eqb (Py.ge_const rate Config.MEDIUM_USAGE_THRESHOLD)
                 (Config.MEDIUM_USAGE_THRESHOLD * Z.of_nat t <=? 100 * Z.of_nat u))
         (seq 0 (S t)))
    (seq 1 bound).

(** Every octet value prints as a digit string that [_parse_octet] reads
    back; checked on the 256 values. *)
Definition octet_round_trip (o : Z) : bool :=
  match ipaddress.parse_octet (ipaddress.str_int o) with
  | Some v => v =? o
  | None => false
  end
  && forallb (fun c => negb (Ascii.eqb c ".")) 
       (list_ascii_of_string (ipaddress.str_int o)).

(** ** Vocabulary of the further properties *)

(** An address row whose [subnet_id] is the id of a stored subnet. *)
Definition owned (db : Database) (r : Address.row) : Prop :=
  exists s, In s (subnets db) /\ Address.subnet_id r = Some (Subnet.id s).

(** The UNIQUE and PRIMARY KEY constraints of the schema, the counter of
    [subnets] being ahead of every subnet id, and every address row being
    owned by a stored subnet. *)
Definition well_formed (db : Database) : Prop :=
  unique_ips db
  /\ NoDup (map Subnet.subnet_cidr (subnets db))
  /\ NoDup (map Subnet.id (subnets db))
  /\ Forall (fun s => Subnet.id s <= seq_subnets db) (subnets db)
  /\ Forall (owned db) (ip_addresses db).

(** The columns of an address row that no UPDATE of the module writes. *)
Definition row_key (r : Address.row) : string * option Z :=
  (Address.ip_address r, Address.subnet_id r).

(** Same subnets and counter, same history, and the address rows keep
    their text and owner, in the same order. *)
Definition same_inventory (db db' : Database) : Prop :=
  subnets db' = subnets db
  /\ seq_subnets db' = seq_subnets db
  /\ ip_history db' = ip_history db
  /\ map row_key (ip_addresses db') = map row_key (ip_addresses db).

(** A session: calls made one after the other, each at its own clock. *)
Definition run_all (calls : list (Clock * Operation)) (db : Database)
  : Database :=
  fold_left (fun db call => run (fst call) (snd call) db) calls db.

(** 1 for true, 0 for false. *)
Definition indicator (b : bool) : Z := if b then 1 else 0.

(** The count of one status in the dictionary of [get_statistics]. *)
Definition global_count (st : Status) (g : Statistics) : Z :=
  match st with
  | used => g_used g
  | free => g_free g
  | reserved => g_reserved g
  end.

(** The count of one status in an entry of [get_subnets_with_stats]. *)
Definition subnet_count (st : Status) (e : SubnetStats) : Z :=
  match st with
  | used => used_ips e
  | free => free_ips e
  | reserved => reserved_ips e
  end.



(** The three conditions of [search_ips], read on a result tuple. *)
Definition subnet_condition (subnet : option string) (t : SearchTuple) : bool :=
  match given subnet with
  | Some cidr =>
      if String.eqb cidr "所有子网" then true
      else match s_subnet_cidr t with
           | Some c => String.eqb c cidr
           | None => false
           end
  | None => true
  end.

Definition status_condition (status : option string) (t : SearchTuple) : bool :=
  match given status with
  | Some label =>
      if String.eqb label "所有状态" then true
      else match status_mapping label with
           | Some st => Status_eqb (t_status (s_ip t)) st
           | None => true
           end
  | None => true
  end.

Definition keyword_condition (keyword : option string) (t : SearchTuple) : bool :=
  match given keyword with
  | Some k =>
      match Py.strip k with
      | "" => true
      | k' =>
          let pat := ("%" ++ k' ++ "%")%string in
          like pat (t_ip_address (s_ip t))
          || like_null pat (t_allocated_to (s_ip t))
          || like_null pat (t_mac_address (s_ip t))
          || like_null pat (t_device_type (s_ip t))
          || like_null pat (t_notes (s_ip t))
          || like_null pat (s_subnet_cidr t)
          || like_null pat (s_subnet_desc t)
      end
  | None => true
  end.

(** The sum of a column over a list of dictionaries. *)
Definition sum_of {A} (f : A -> Z) (l : list A) : Z :=
  fold_right (fun x acc => f x + acc) 0 l.

(** [int(str(o)) == o], with the text free of dots. *)
Definition octet_int_round_trip (o : Z) : bool :=
  match Py.int (ipaddress.str_int o) with
  | Some v => v =? o
  | None => false
  end.





(** The address is stored and its (first) row is free. *)
Definition is_free (db : Database) (ip : string) : bool :=
  match select_ip ip db with
  | Some r => Status_eqb (Address.status r) free
  | None => false
  end.

(** The texts of a selection, each at its first occurrence only. *)
Fixpoint distinct (l : list string) : list string :=
  match l with
  | [] => []
  | x :: rest => x :: filter (fun y => negb (String.eqb y x)) (distinct rest)
  end.

(** [export_subnet_data] (lines 617-624): the unfiltered listing of the
    subnet. *)
Definition export_subnet_data (db : Database) (subnet_cidr : string)
  : list IpTuple :=
  get_ips_by_subnet db subnet_cidr None.

(** ** [export_all_data] (lines 626-656) *)

(** The twelve columns of a row of [export_all_data]; the seven address
    columns are NULL for a subnet without address rows. *)
Record ExportTuple : Type := mkExportTuple {
  e_subnet_cidr : string;
  e_subnet_desc : option string;
  e_gateway : option string;
  e_dns_server : option string;
  e_created_at : string;
  e_ip_address : option string;
  e_status : option Status;
  e_allocated_to : option string;
  e_mac_address : option string;
  e_device_type : option string;
  e_allocated_at : option string;
  e_notes : option string
}.

Definition export_tuple (s : Subnet.row) (o : option Address.row)
  : ExportTuple :=
  mkExportTuple (Subnet.subnet_cidr s) (Subnet.description s)
    (Subnet.gateway s) (Subnet.dns_server s) (Subnet.created_at s)
    (option_map Address.ip_address o) (option_map Address.status o)
    (match o with Some r => Address.allocated_to r | None => None end)
    (match o with Some r => Address.mac_address r | None => None end)
    (match o with Some r => Address.device_type r | None => None end)
    (match o with Some r => Address.allocated_at r | None => None end)
    (match o with Some r => Address.notes r | None => None end).

(** [ORDER BY s.subnet_cidr, ip.ip_address]: two TEXT columns compared as
    texts, NULL before every text. *)
Definition order_by_leb (x y : string * option string) : bool :=
  if negb (Py.str_leb (fst y) (fst x)) then true
  else if negb (Py.str_leb (fst x) (fst y)) then false
  else match snd x, snd y with
       | None, _ => true
       | Some _, None => false
       | Some a, Some b => Py.str_leb a b
       end.

(** [subnets s LEFT JOIN ip_addresses ip ON s.id = ip.subnet_id], ordered.
    Rows with equal CIDR text and equal address text, which the UNIQUE
    constraints exclude, are left in the order of the join. *)
Definition export_all_data (db : Database) : list ExportTuple :=
  Py.sort order_by_leb (fun t => (e_subnet_cidr t, e_ip_address t))
    (flat_map (fun s => map (export_tuple s) (left_join_group db s))
       (subnets db)).

(** * Properties *)

(** ** Rows under [UPDATE ... WHERE ip_address = ?] *)

Lemma has_ip_refl (ip : string) (r : Address.row) :
  Address.ip_address r = ip -> has_ip ip r = true.
Proof. intros <-. apply String.eqb_refl. Qed.

Lemma select_ip_has_ip (ip : string) (db : Database) (r : Address.row) :
  select_ip ip db = Some r -> Address.ip_address r = ip.
Proof.
  unfold select_ip. intros H. apply find_some in H as [_ H].
  now apply String.eqb_eq in H.
Qed.

Lemma select_ip_In (ip : string) (db : Database) (r : Address.row) :
  select_ip ip db = Some r -> In r (ip_addresses db).
Proof. unfold select_ip. intros H. now apply find_some in H. Qed.

Section UpdateWhere.

Variable set : Address.row -> Address.row.
Hypothesis set_keeps_ip :
  forall r, Address.ip_address (set r) = Address.ip_address r.

Lemma find_update_same (ip : string) (l : list Address.row) :
  find (has_ip ip) (map (fun r => if has_ip ip r then set r else r) l)
  = option_map set (find (has_ip ip) l).
Proof.
  induction l as [|a l IH]; simpl; [reflexivity|].
  destruct (has_ip ip a) eqn:E.
  - unfold has_ip at 1. rewrite set_keeps_ip. fold (has_ip ip a).
    now rewrite E.
  - now rewrite E.
Qed.

Lemma find_update_other (ip ip' : string) (l : list Address.row) :
  ip' <> ip ->
  find (has_ip ip') (map (fun r => if has_ip ip r then set r else r) l)
  = find (has_ip ip') l.
Proof.
  intros Hne. induction l as [|a l IH]; simpl; [reflexivity|].
  destruct (has_ip ip a) eqn:E.
  - assert (Ha : has_ip ip' a = false).
    { unfold has_ip in *. apply String.eqb_eq in E. subst ip.
      apply String.eqb_neq. congruence. }
    unfold has_ip at 1. rewrite set_keeps_ip. fold (has_ip ip' a).
    now rewrite Ha.
  - destruct (has_ip ip' a); [reflexivity | exact IH].
Qed.

Lemma select_update_same (ip : string) (db : Database) :
  select_ip ip (update_ip ip set db) = option_map set (select_ip ip db).
Proof. unfold select_ip, update_ip; simpl. apply find_update_same. Qed.

Lemma select_update_other (ip ip' : string) (db : Database) :
  ip' <> ip -> select_ip ip' (update_ip ip set db) = select_ip ip' db.
Proof. unfold select_ip, update_ip; simpl. apply find_update_other. Qed.

Lemma update_absent (ip : string) (l : list Address.row) :
  find (has_ip ip) l = None ->
  map (fun r => if has_ip ip r then set r else r) l = l.
Proof.
  induction l as [|a l IH]; simpl; [reflexivity|].
  destruct (has_ip ip a); [discriminate|].
  intros H. now rewrite IH.
Qed.

End UpdateWhere.

Lemma select_ip_insert_history (clk : Clock) (ip ip' : string) (a : Action)
    (o n : Status) (by_ notes : string) (db : Database) :
  select_ip ip' (insert_history clk ip a o n by_ notes db) = select_ip ip' db.
Proof. reflexivity. Qed.

Lemma Status_eqb_eq (a b : Status) : Status_eqb a b = true <-> a = b.
Proof. destruct a, b; simpl; split; congruence. Qed.

(** ** The allocation state machine *)

(** A free address is allocated. *)
Lemma allocate_ip_free (clk : Clock) (db : Database)
    (ip to mac dev notes : string) (r : Address.row) :
  select_ip ip db = Some r -> Address.status r = free ->
  exists db',
    allocate_ip clk ip to mac dev notes db = ((true, IpAllocated ip), db')
    /\ select_ip ip db'
       = Some (Address.mk (Address.id r) ip (Address.subnet_id r) used
                 (Some to) (Some mac) (Some dev) (Some (now clk))
                 (Some notes) (CURRENT_TIMESTAMP clk))
    /\ (forall ip', ip' <> ip -> select_ip ip' db' = select_ip ip' db)
    /\ List.length (ip_addresses db') = List.length (ip_addresses db)
    /\ subnets db' = subnets db
    /\ ip_history db'
       = ip_history db
         ++ [History.mk (seq_ip_history db + 1) ip allocate free used to
               notes (CURRENT_TIMESTAMP clk)].
Proof.
  unfold allocate_ip, call, allocate_ip_body, bind, query, get_connection; simpl.
  intros Hr Hs. rewrite Hr. simpl. rewrite Hs. simpl.
  eexists. split; [reflexivity|]. simpl.
  split; [|split; [|split; [|split]]].
  - rewrite select_ip_insert_history, select_update_same by reflexivity.
    rewrite Hr. simpl. unfold set_allocated.
    now rewrite (select_ip_has_ip _ _ _ Hr).
  - intros ip' Hne.
    rewrite select_ip_insert_history.
    now apply select_update_other.
  - now rewrite length_map.
  - reflexivity.
  - reflexivity.
Qed.

(** An existing address is released, whatever its status. *)
Lemma release_ip_known (clk : Clock) (db : Database) (ip notes : string)
    (r : Address.row) :
  select_ip ip db = Some r ->
  exists db',
    release_ip clk ip notes db = ((true, IpReleased ip), db')
    /\ select_ip ip db'
       = Some (Address.mk (Address.id r) ip (Address.subnet_id r) free
                 None None None None (Some "") (CURRENT_TIMESTAMP clk))
    /\ (forall ip', ip' <> ip -> select_ip ip' db' = select_ip ip' db)
    /\ ip_history db'
       = ip_history db
         ++ [History.mk (seq_ip_history db + 1) ip release
               (Address.status r) free "system" notes
               (CURRENT_TIMESTAMP clk)].
Proof.
  intros Hr.
  unfold release_ip, call, release_ip_body, bind, query, get_connection; simpl.
  rewrite Hr. simpl.
  eexists. split; [reflexivity|]. split; [|split].
  - simpl. rewrite select_ip_insert_history, select_update_same by reflexivity.
    rewrite Hr. simpl. unfold set_released.
    now rewrite (select_ip_has_ip _ _ _ Hr).
  - intros ip' Hne. simpl. rewrite select_ip_insert_history.
    now apply select_update_other.
  - reflexivity.
Qed.

(** C1.  [allocate_ip]: an unknown address gives the not-found message, an
    address that is not free gives the cannot-allocate message, and in both
    cases the committed database (rows, history, counters) is the one the
    call started from; a free address becomes used with the four metadata
    fields stored, [allocated_at] set to the current time, every other
    address row untouched, and exactly one history row
    (allocate, free -> used) appended. *)
Theorem allocate_ip_outcomes (clk : Clock) (db : Database)
    (ip to mac dev notes : string) :
  (select_ip ip db = None ->
   allocate_ip clk ip to mac dev notes db = ((false, IpNotExist ip), db)
   /\ error_kind (IpNotExist ip) = Some NotFoundError)
  /\ (forall r, select_ip ip db = Some r -> Address.status r <> free ->
      allocate_ip clk ip to mac dev notes db
      = ((false, IpCannotAllocate ip (Address.status r)), db)
      /\ error_kind (IpCannotAllocate ip (Address.status r))
         = Some InvalidTransitionError)
  /\ (forall r, select_ip ip db = Some r -> Address.status r = free ->
      exists db',
        allocate_ip clk ip to mac dev notes db = ((true, IpAllocated ip), db')
        /\ select_ip ip db'
           = Some (Address.mk (Address.id r) ip (Address.subnet_id r) used
                     (Some to) (Some mac) (Some dev) (Some (now clk))
                     (Some notes) (CURRENT_TIMESTAMP clk))
        /\ (forall ip', ip' <> ip -> select_ip ip' db' = select_ip ip' db)
        /\ List.length (ip_addresses db') = List.length (ip_addresses db)
        /\ subnets db' = subnets db
        /\ ip_history db'
           = ip_history db
             ++ [History.mk (seq_ip_history db + 1) ip allocate free used to
                   notes (CURRENT_TIMESTAMP clk)]).
Proof.
  unfold allocate_ip, call, allocate_ip_body, bind, query, get_connection; simpl.
  split; [|split].
  - intros ->. split; reflexivity.
  - intros r Hr Hs. rewrite Hr. simpl.
    destruct (Address.status r) eqn:E; simpl; [congruence | split; reflexivity ..].
  - intros r Hr Hs. now apply allocate_ip_free.
Qed.

(** [reserve_ip] never looks the address up: the UPDATE matches no row of
    an unknown address, the history row is written all the same, and the
    call reports success. *)
Lemma reserve_ip_unknown (clk : Clock) (db : Database) (ip notes : string) :
  select_ip ip db = None ->
  reserve_ip clk ip notes db
  = ((true, IpReserved ip),
     insert_history clk ip reserve free reserved "system" notes db).
Proof.
  intros H.
  unfold reserve_ip, call, reserve_ip_body, bind, update, execute, commit, ret,
    get_connection; simpl.
  f_equal. unfold insert_history, with_ip_history, update_ip, with_ip_addresses;
    simpl.
  rewrite update_absent by exact H. reflexivity.
Qed.

(** C2.  On an inventory that does not hold 10.0.0.1, [reserve_ip] returns
    success with the reserved message (no not-found failure) and appends a
    history row for the address that does not exist. *)
Theorem reserve_ip_unknown_succeeds :
  let clk := mkClock "2024-01-01 00:00:00" "2024-01-01 08:00:00" in
  select_ip "10.0.0.1" empty_database = None
  /\ reserve_ip clk "10.0.0.1" "backup" empty_database
     = ((true, IpReserved "10.0.0.1"),
        mkDatabase [] []
          [History.mk 1 "10.0.0.1" reserve free reserved "system" "backup"
             "2024-01-01 00:00:00"]
          0 0 1)
  /\ error_kind (IpReserved "10.0.0.1") = None.
Proof. repeat split. Qed.

(** C6.  [reserve_ip] on an existing address, whatever its status: the call
    succeeds, the row becomes reserved with the given notes and keeps its
    allocation fields, and the history row appended says
    free -> reserved. *)
Theorem reserve_ip_existing (clk : Clock) (db : Database) (ip notes : string)
    (r : Address.row) :
  select_ip ip db = Some r ->
  exists db',
    reserve_ip clk ip notes db = ((true, IpReserved ip), db')
    /\ select_ip ip db'
       = Some (Address.mk (Address.id r) ip (Address.subnet_id r) reserved
                 (Address.allocated_to r) (Address.mac_address r)
                 (Address.device_type r) (Address.allocated_at r) (Some notes)
                 (CURRENT_TIMESTAMP clk))
    /\ (forall ip', ip' <> ip -> select_ip ip' db' = select_ip ip' db)
    /\ ip_history db'
       = ip_history db
         ++ [History.mk (seq_ip_history db + 1) ip reserve free reserved
               "system" notes (CURRENT_TIMESTAMP clk)].
Proof.
  intros Hr.
  unfold reserve_ip, call, reserve_ip_body, bind, update, execute, commit, ret,
    get_connection; simpl.
  eexists. split; [reflexivity|]. split; [|split].
  - rewrite select_ip_insert_history, select_update_same by reflexivity.
    rewrite Hr. simpl. unfold set_reserved.
    now rewrite (select_ip_has_ip _ _ _ Hr).
  - intros ip' Hne. rewrite select_ip_insert_history.
    now apply select_update_other.
  - reflexivity.
Qed.

(** A used address: the history row of the reservation still says free. *)
Lemma reserve_ip_existing_witness :
  let clk := mkClock "t1" "t2" in
  let r := Address.mk 1 "10.0.0.1" (Some 1) used (Some "srv01") None None
             (Some "t0") None "t0" in
  let db := mkDatabase [] [r] [] 0 1 0 in
  select_ip "10.0.0.1" db = Some r
  /\ exists db',
       reserve_ip clk "10.0.0.1" "backup" db = ((true, IpReserved "10.0.0.1"), db')
       /\ select_ip "10.0.0.1" db'
          = Some (Address.mk 1 "10.0.0.1" (Some 1) reserved (Some "srv01") None
                    None (Some "t0") (Some "backup") "t1")
       /\ (forall ip', ip' <> "10.0.0.1" -> select_ip ip' db' = select_ip ip' db)
       /\ ip_history db'
          = [History.mk 1 "10.0.0.1" reserve free reserved "system" "backup"
               "t1"].
Proof.
  split; [reflexivity|].
  exact (reserve_ip_existing (mkClock "t1" "t2")
           (mkDatabase []
              [Address.mk 1 "10.0.0.1" (Some 1) used (Some "srv01") None None
                 (Some "t0") None "t0"] [] 0 1 0)
           "10.0.0.1" "backup" _ eq_refl).
Defined.

(** C5.  [release_ip]: an unknown address gives the not-found message and
    no change; an existing address, whatever its status, is released: the
    row becomes free with [allocated_to], [mac_address], [device_type] and
    [allocated_at] NULL and [notes] the empty string, and one history row
    (release, status before -> free, by "system") is appended.  After
    [allocate_ip] and then [release_ip] on a free row, the row is the row
    before the allocation up to [last_updated] whenever that row had the
    four fields NULL and empty notes. *)
Theorem release_ip_outcomes (clk clk' : Clock) (db : Database)
    (ip notes : string) :
  (select_ip ip db = None ->
   release_ip clk ip notes db = ((false, IpNotExist ip), db)
   /\ error_kind (IpNotExist ip) = Some NotFoundError)
  /\ (forall r, select_ip ip db = Some r ->
      exists db',
        release_ip clk ip notes db = ((true, IpReleased ip), db')
        /\ select_ip ip db'
           = Some (Address.mk (Address.id r) ip (Address.subnet_id r) free
                     None None None None (Some "") (CURRENT_TIMESTAMP clk))
        /\ (forall ip', ip' <> ip -> select_ip ip' db' = select_ip ip' db)
        /\ ip_history db'
           = ip_history db
             ++ [History.mk (seq_ip_history db + 1) ip release
                   (Address.status r) free "system" notes
                   (CURRENT_TIMESTAMP clk)])
  /\ (forall r to mac dev anotes,
      select_ip ip db = Some r -> Address.status r = free ->
      let db1 := snd (allocate_ip clk' ip to mac dev anotes db) in
      let db2 := snd (release_ip clk ip notes db1) in
      select_ip ip db2
      = Some (Address.mk (Address.id r) ip (Address.subnet_id r) free
                None None None None (Some "") (CURRENT_TIMESTAMP clk))
      /\ (Address.allocated_to r = None -> Address.mac_address r = None ->
          Address.device_type r = None -> Address.allocated_at r = None ->
          Address.notes r = Some "" ->
          select_ip ip db2
          = Some (Address.mk (Address.id r) (Address.ip_address r)
                    (Address.subnet_id r) (Address.status r)
                    (Address.allocated_to r) (Address.mac_address r)
                    (Address.device_type r) (Address.allocated_at r)
                    (Address.notes r) (CURRENT_TIMESTAMP clk)))).
Proof.
  split; [|split].
  - intros H.
    unfold release_ip, call, release_ip_body, bind, query, get_connection; simpl.
    rewrite H. split; reflexivity.
  - intros r Hr. now apply release_ip_known.
  - intros r to mac dev anotes Hr Hs db1 db2.
    destruct (allocate_ip_free clk' db ip to mac dev anotes r Hr Hs)
      as (dbA & EA & HselA & _).
    assert (E1 : db1 = dbA) by (unfold db1; now rewrite EA).
    rewrite <- E1 in HselA.
    destruct (release_ip_known clk db1 ip notes _ HselA)
      as (dbR & ER & HselR & _).
    assert (E2 : db2 = dbR) by (unfold db2; now rewrite ER).
    rewrite E2. simpl in HselR.
    split; [exact HselR|].
    intros H1 H2 H3 H4 H5. rewrite HselR, H1, H2, H3, H4, H5, Hs.
    now rewrite (select_ip_has_ip _ _ _ Hr).
Qed.

(** C5, the round trip as first stated.  Address 10.0.0.1 of the freshly
    created 10.0.0.0/30 is free with NULL notes; after [allocate_ip] and
    [release_ip] (all three calls at the same clock) its notes are the
    empty string, so the row is not the row before the allocation even
    though [last_updated] agrees. *)
Lemma release_round_trip_changes_notes :
  let clk := mkClock "2024-01-01 00:00:00" "2024-01-01 08:00:00" in
  let db0 := snd (create_subnet clk "10.0.0.0/30" "" "" "" empty_database) in
  let db1 := snd (allocate_ip clk "10.0.0.1" "srv01" "" "" "" db0) in
  let db2 := snd (release_ip clk "10.0.0.1" "" db1) in
  select_ip "10.0.0.1" db0
  = Some (Address.mk 1 "10.0.0.1" (Some 1) free None None None None None
            "2024-01-01 00:00:00")
  /\ fst (allocate_ip clk "10.0.0.1" "srv01" "" "" "" db0)
     = (true, IpAllocated "10.0.0.1")
  /\ fst (release_ip clk "10.0.0.1" "" db1) = (true, IpReleased "10.0.0.1")
  /\ select_ip "10.0.0.1" db2
     = Some (Address.mk 1 "10.0.0.1" (Some 1) free None None None None
               (Some "") "2024-01-01 00:00:00")
  /\ select_ip "10.0.0.1" db2 <> select_ip "10.0.0.1" db0.
Proof.
  vm_compute. repeat split; discriminate.
Qed.

(** Released, allocated, released again: here the second round trip does
    give the row back. *)
Lemma release_ip_outcomes_witness :
  let clk := mkClock "t1" "n1" in
  let r := Address.mk 1 "10.0.0.1" (Some 1) free None None None None (Some "")
             "t0" in
  let db := mkDatabase [] [r] [] 0 1 0 in
  let db2 := snd (release_ip clk "10.0.0.1" ""
                    (snd (allocate_ip clk "10.0.0.1" "srv01" "m" "d" "n" db))) in
  select_ip "10.0.0.1" db2
  = Some (Address.mk 1 "10.0.0.1" (Some 1) free None None None None (Some "")
            "t1").
Proof.
  exact (proj2 (proj2 (proj2 (release_ip_outcomes (mkClock "t1" "n1")
           (mkClock "t1" "n1")
           (mkDatabase []
              [Address.mk 1 "10.0.0.1" (Some 1) free None None None None
                 (Some "") "t0"] [] 0 1 0)
           "10.0.0.1" ""))
           _ "srv01" "m" "d" "n" eq_refl eq_refl)
         eq_refl eq_refl eq_refl eq_refl eq_refl).
Defined.

(** ** Transactions: what a call leaves committed *)

Lemma no_commit_ret {A} (a : A) : no_commit (ret a).
Proof. intros c. reflexivity. Qed.

Lemma no_commit_raise {A} (e : Exception) : no_commit (@raise A e).
Proof. intros c. reflexivity. Qed.

Lemma no_commit_query {A} (f : Database -> A) : no_commit (query f).
Proof. intros c. reflexivity. Qed.

Lemma no_commit_execute {A} (f : Database -> outcome (A * Database)) :
  no_commit (execute f).
Proof.
  intros c. unfold execute. destruct (f (pending c)) as [[a db']|e]; reflexivity.
Qed.

Lemma no_commit_bind {A B} (m : M A) (k : A -> M B) :
  no_commit m -> (forall a, no_commit (k a)) -> no_commit (bind m k).
Proof.
  intros Hm Hk c. unfold bind. specialize (Hm c).
  destruct (m c) as [[a|e] c1]; simpl in *.
  - now rewrite Hk.
  - exact Hm.
Qed.

Lemma no_commit_for_each {A S} (xs : list A) (body : A -> S -> M S) :
  (forall x s, no_commit (body x s)) -> forall s, no_commit (for_each xs body s).
Proof.
  intros Hb. induction xs as [|x xs IH]; intros s; simpl.
  - apply no_commit_ret.
  - apply no_commit_bind; auto.
Qed.

Create HintDb txn.

#[local] Hint Resolve no_commit_ret no_commit_raise no_commit_query
  no_commit_execute no_commit_bind no_commit_for_each : txn.

Lemma insert_hosts_no_commit clk sid ips t : no_commit (insert_hosts clk sid ips t).
Proof. unfold insert_hosts. auto 6 with txn. Qed.

(** *** The address rows of a new subnet, as one pure insertion *)

Lemma select_ip_None (ip : string) (db : Database) :
  select_ip ip db = None <-> existsb (has_ip ip) (ip_addresses db) = false.
Proof.
  unfold select_ip. induction (ip_addresses db) as [|a l IH]; simpl.
  - tauto.
  - destruct (has_ip ip a); simpl; [split; discriminate | exact IH].
Qed.

Lemma select_ip_app_row (ip : string) (db : Database) (l : list Address.row)
    (sq : Z) :
  select_ip ip (with_ip_addresses db (ip_addresses db ++ l) sq)
  = match select_ip ip db with
    | Some r => Some r
    | None => find (has_ip ip) l
    end.
Proof.
  unfold select_ip; simpl. induction (ip_addresses db) as [|a l' IH]; simpl.
  - reflexivity.
  - destruct (has_ip ip a); [reflexivity | exact IH].
Qed.

Lemma append_rows_cons clk sid ip st notes rest db :
  append_rows clk sid rest (append_rows clk sid [(ip, st, notes)] db)
  = append_rows clk sid ((ip, st, notes) :: rest) db.
Proof.
  unfold append_rows, with_ip_addresses; simpl.
  rewrite <- app_assoc. simpl. f_equal. lia.
Qed.

Lemma insert_one clk sid ip st notes db :
  insert_ip_address clk ip sid st notes db
  = if existsb (has_ip ip) (ip_addresses db)
    then Raised (IntegrityError "ip_addresses.ip_address")
    else Value (tt, append_rows clk sid [(ip, st, notes)] db).
Proof.
  unfold insert_ip_address, append_rows. simpl.
  destruct (existsb _ _); reflexivity.
Qed.

(** The insertion succeeds exactly when the texts are pairwise distinct
    and none is in the table yet. *)
Lemma insert_all_value clk sid specs db db' :
  insert_all clk sid specs db = Value db' ->
  NoDup (map spec_ip specs)
  /\ (forall ip, In ip (map spec_ip specs) -> select_ip ip db = None)
  /\ db' = append_rows clk sid specs db.
Proof.
  revert db. induction specs as [|[[ip st] notes] rest IH]; intros db; simpl.
  - intros H. inversion H; subst. split; [constructor|]. split; [tauto|].
    unfold append_rows, with_ip_addresses; simpl.
    rewrite app_nil_r, Z.add_0_r. now destruct db'.
  - rewrite insert_one.
    destruct (existsb (has_ip ip) (ip_addresses db)) eqn:E; [discriminate|].
    intros H. apply IH in H as (Hnd & Habs & ->).
    assert (Hin : ~ In ip (map spec_ip rest)).
    { intros Hin. apply Habs in Hin. unfold append_rows in Hin.
      rewrite select_ip_app_row in Hin.
      destruct (select_ip ip db); [discriminate|].
      simpl in Hin. unfold has_ip in Hin. simpl in Hin.
      now rewrite String.eqb_refl in Hin. }
    split; [now constructor|]. split.
    + intros ip' [<-|Hin'].
      * now apply select_ip_None.
      * apply Habs in Hin'. unfold append_rows in Hin'.
        rewrite select_ip_app_row in Hin'.
        now destruct (select_ip ip' db).
    + apply append_rows_cons.
Qed.

Lemma insert_all_fresh clk sid specs db :
  NoDup (map spec_ip specs) ->
  (forall ip, In ip (map spec_ip specs) -> select_ip ip db = None) ->
  insert_all clk sid specs db = Value (append_rows clk sid specs db).
Proof.
  revert db. induction specs as [|[[ip st] notes] rest IH]; intros db; simpl.
  - intros _ _. unfold append_rows, with_ip_addresses; simpl.
    rewrite app_nil_r, Z.add_0_r. now destruct db.
  - intros Hnd Habs. inversion Hnd as [|x l Hnotin Hnd']; subst.
    rewrite insert_one.
    assert (E : existsb (has_ip ip) (ip_addresses db) = false).
    { apply select_ip_None. apply Habs. now left. }
    rewrite E. rewrite IH; [now rewrite append_rows_cons | exact Hnd' |].
    intros ip' Hin. unfold append_rows. rewrite select_ip_app_row.
    rewrite (Habs ip') by now right.
    simpl. unfold has_ip; simpl.
    destruct (String.eqb_spec ip ip'); [subst; contradiction | reflexivity].
Qed.

Lemma insert_all_raised clk sid specs db e :
  insert_all clk sid specs db = Raised e ->
  e = IntegrityError "ip_addresses.ip_address".
Proof.
  revert db. induction specs as [|[[ip st] notes] rest IH]; intros db; simpl.
  - discriminate.
  - rewrite insert_one. destruct (existsb _ _).
    + intros H; now inversion H.
    + apply IH.
Qed.

Lemma insert_all_app clk sid l1 l2 db :
  insert_all clk sid (l1 ++ l2) db
  = match insert_all clk sid l1 db with
    | Value db1 => insert_all clk sid l2 db1
    | Raised e => Raised e
    end.
Proof.
  revert db. induction l1 as [|[[ip st] notes] l1 IH]; intros db; simpl.
  - reflexivity.
  - destruct (insert_ip_address clk ip sid st notes db) as [[u db1]|e];
      [apply IH | reflexivity].
Qed.

(** The host loop is the pure insertion of the hosts' rows. *)
Lemma insert_hosts_value clk sid ips t c db' :
  insert_all clk sid (host_specs ips) (pending c) = Value db' ->
  insert_hosts clk sid ips t c
  = (Value (t + Z.of_nat (List.length ips)), mkConnection (committed c) db').
Proof.
  unfold insert_hosts. revert t c.
  induction ips as [|ip ips IH]; intros t c; simpl.
  - intros H. inversion H. unfold ret. rewrite Z.add_0_r. now destruct c.
  - unfold bind at 1. unfold bind at 1. unfold execute at 1.
    destruct (insert_ip_address clk (ipaddress.str ip) sid free None (pending c))
      as [[u db1]|e]; [|discriminate].
    intros H. unfold ret at 1. cbv beta iota.
    rewrite (IH (t + 1) (mkConnection (committed c) db1) H). simpl.
    do 2 f_equal. lia.
Qed.

Lemma insert_hosts_raised clk sid ips t c e :
  insert_all clk sid (host_specs ips) (pending c) = Raised e ->
  fst (insert_hosts clk sid ips t c) = Raised e.
Proof.
  unfold insert_hosts. revert t c.
  induction ips as [|ip ips IH]; intros t c; simpl.
  - discriminate.
  - unfold bind at 1. unfold bind at 1. unfold execute at 1.
    destruct (insert_ip_address clk (ipaddress.str ip) sid free None (pending c))
      as [[u db1]|e']; [|intros H; now inversion H].
    intros H. unfold ret at 1. cbv beta iota.
    exact (IH (t + 1) (mkConnection (committed c) db1) H).
Qed.

Lemma str_nonempty (a : ipaddress.IPv4Address) : ipaddress.str a <> "".
Proof.
  unfold ipaddress.str, ipaddress.to_bytes.
  cbn [map String.concat].
  destruct (ipaddress.str_int _); discriminate.
Qed.

Lemma existsb_has_cidr cidr db :
  select_subnet_id cidr db = None -> existsb (has_cidr cidr) (subnets db) = false.
Proof.
  unfold select_subnet_id. induction (subnets db) as [|a l IH]; simpl; [reflexivity|].
  destruct (has_cidr cidr a); simpl; [discriminate | exact IH].
Qed.

Lemma create_subnet_eq clk cidr d g n db net :
  ipaddress.ip_network cidr = Some net ->
  select_subnet_id cidr db = None ->
  create_subnet clk cidr d g n db
  = match insert_all clk (seq_subnets db + 1) (address_specs net)
            (with_new_subnet clk cidr d g n db) with
    | Value db2 =>
        ((true,
          SubnetCreated cidr (Z.of_nat (List.length (ipaddress.hosts net)) + 2)),
         db2)
    | Raised e => ((false, CreateSubnetFailed e), db)
    end.
Proof.
  intros Hnet Hsel.
  unfold create_subnet, call, create_subnet_body. rewrite Hnet.
  unfold bind at 1. unfold query. cbn [pending get_connection]. rewrite Hsel.
  unfold create_subnet_rows.
  unfold bind at 1. unfold execute at 1. cbn [pending get_connection committed].
  unfold insert_subnet. rewrite (existsb_has_cidr _ _ Hsel).
  fold (with_new_subnet clk cidr d g n db).
  set (sid := seq_subnets db + 1). set (db1 := with_new_subnet clk cidr d g n db).
  unfold address_specs. rewrite insert_all_app.
  unfold bind at 1.
  destruct (insert_all clk sid (host_specs (ipaddress.hosts net)) db1) as [dbh|e] eqn:Eh.
  - rewrite (insert_hosts_value clk sid _ 0 (mkConnection db db1) dbh Eh).
    cbn [committed].
    unfold ipaddress.truth.
    destruct (String.eqb_spec (ipaddress.str (ipaddress.broadcast_address net)) "")
      as [Hempty|_]; [now apply str_nonempty in Hempty|].
    cbn [negb insert_all].
    unfold bind at 1. unfold execute at 1. cbn [pending committed].
    rewrite !insert_one.
    destruct (existsb _ (ip_addresses dbh)); [reflexivity|].
    unfold bind at 1. unfold bind at 1. unfold execute at 1.
    cbn [pending committed].
    rewrite !insert_one.
    destruct (existsb _ (ip_addresses (append_rows _ _ _ dbh))); [reflexivity|].
    unfold ret, bind, commit. cbn. reflexivity.
  - pose proof (insert_hosts_raised clk sid _ 0 (mkConnection db db1) e Eh) as Hr.
    pose proof (insert_hosts_no_commit clk sid (ipaddress.hosts net) 0
                  (mkConnection db db1)) as Hc.
    destruct (insert_hosts clk sid (ipaddress.hosts net) 0 (mkConnection db db1))
      as [o c']. simpl in Hr, Hc. subst o. rewrite Hc.
    apply insert_all_raised in Eh. now subst e.
Qed.

(** The three ways [create_subnet] ends. *)
Lemma create_subnet_cases clk cidr d g n db :
  (ipaddress.ip_network cidr = None
   /\ create_subnet clk cidr d g n db
      = ((false, InvalidSubnetFormat ValueError), db))
  \/ (exists net sid,
        ipaddress.ip_network cidr = Some net
        /\ select_subnet_id cidr db = Some sid
        /\ create_subnet clk cidr d g n db = ((false, SubnetExists cidr), db))
  \/ (exists net,
        ipaddress.ip_network cidr = Some net
        /\ select_subnet_id cidr db = None
        /\ ((exists db2,
               insert_all clk (seq_subnets db + 1) (address_specs net)
                 (with_new_subnet clk cidr d g n db) = Value db2
               /\ create_subnet clk cidr d g n db
                  = ((true,
                      SubnetCreated cidr
                        (Z.of_nat (List.length (ipaddress.hosts net)) + 2)),
                     db2))
            \/ create_subnet clk cidr d g n db
               = ((false,
                   CreateSubnetFailed
                     (IntegrityError "ip_addresses.ip_address")), db))).
Proof.
  destruct (ipaddress.ip_network cidr) as [net|] eqn:Hnet.
  - destruct (select_subnet_id cidr db) as [sid|] eqn:Hsel.
    + right; left. exists net, sid. repeat split.
      unfold create_subnet, call, create_subnet_body. rewrite Hnet.
      unfold bind, query. cbn [pending get_connection]. now rewrite Hsel.
    + right; right. exists net. repeat split.
      rewrite (create_subnet_eq _ _ _ _ _ _ net Hnet Hsel).
      destruct (insert_all _ _ _ _) as [db2|e] eqn:E.
      * left. now exists db2.
      * right. apply insert_all_raised in E. now subst e.
  - left. split; [reflexivity|].
    unfold create_subnet, call, create_subnet_body. now rewrite Hnet.
Qed.

(** A failed [create_subnet] leaves the database as it found it. *)
Lemma create_subnet_failed_unchanged clk cidr d g n db :
  fst (fst (create_subnet clk cidr d g n db)) = false ->
  snd (create_subnet clk cidr d g n db) = db.
Proof.
  destruct (create_subnet_cases clk cidr d g n db)
    as [[_ E]|[(net & sid & _ & _ & E)|(net & _ & _ & [(db2 & _ & E)|E])]];
    rewrite E; simpl; congruence.
Qed.

(** Past the duplicate check, the only failure is a constraint violation. *)
Lemma create_subnet_failed_message clk cidr d g n db net :
  ipaddress.ip_network cidr = Some net ->
  select_subnet_id cidr db = None ->
  fst (fst (create_subnet clk cidr d g n db)) = false ->
  exists k,
    fst (create_subnet clk cidr d g n db)
    = (false, CreateSubnetFailed (IntegrityError k)).
Proof.
  intros Hnet Hsel.
  destruct (create_subnet_cases clk cidr d g n db)
    as [[H _]|[(net' & sid & _ & H & _)|(net' & _ & _ & [(db2 & _ & E)|E])]];
    try congruence; rewrite E; simpl; [discriminate|].
  intros _. now eexists.
Qed.

(** C10.  When [create_subnet] fails, whatever the reason, nothing of the
    call is committed: the database afterwards is the database before, so
    neither the subnet row nor any address row inserted before the failure
    is visible.  When the failure comes after the duplicate check (the
    subnet row was inserted in the transaction), it is the constraint
    violation raised by an INSERT. *)
Theorem create_subnet_failure_commits_nothing (clk : Clock)
    (cidr d g n : string) (db : Database) :
  fst (fst (create_subnet clk cidr d g n db)) = false ->
  snd (create_subnet clk cidr d g n db) = db
  /\ (forall net,
        ipaddress.ip_network cidr = Some net ->
        select_subnet_id cidr db = None ->
        exists k,
          fst (create_subnet clk cidr d g n db)
          = (false, CreateSubnetFailed (IntegrityError k))).
Proof.
  intros Hf. split.
  - now apply create_subnet_failed_unchanged.
  - intros net Hnet Hsel. now apply (create_subnet_failed_message _ _ _ _ _ _ net).
Qed.

(** 192.168.1.0/25 after 192.168.1.0/24: the new subnet row and host
    192.168.1.1 are not kept, the first subnet's 256 rows are. *)
Lemma create_subnet_failure_commits_nothing_witness :
  let clk := mkClock "2024-01-01 00:00:00" "2024-01-01 08:00:00" in
  let db := snd (create_subnet clk "192.168.1.0/24" "" "" "" empty_database) in
  fst (fst (create_subnet clk "192.168.1.0/25" "" "" "" db)) = false
  /\ snd (create_subnet clk "192.168.1.0/25" "" "" "" db) = db
  /\ select_subnet_id "192.168.1.0/25" db = None.
Proof.
  split; [vm_compute; reflexivity|].
  split; [|vm_compute; reflexivity].
  apply (create_subnet_failure_commits_nothing
           (mkClock "2024-01-01 00:00:00" "2024-01-01 08:00:00")
           "192.168.1.0/25" "" "" "").
  vm_compute; reflexivity.
Defined.

(** If an address text of the new subnet is already in the inventory, or
    occurs twice among the rows to insert, the call fails with the
    constraint violation. *)
Lemma create_subnet_collision clk cidr d g n db net :
  ipaddress.ip_network cidr = Some net ->
  select_subnet_id cidr db = None ->
  (exists ip, In ip (map spec_ip (address_specs net)) /\ select_ip ip db <> None)
  \/ ~ NoDup (map spec_ip (address_specs net)) ->
  create_subnet clk cidr d g n db
  = ((false, CreateSubnetFailed (IntegrityError "ip_addresses.ip_address")), db).
Proof.
  intros Hnet Hsel Hcol.
  destruct (create_subnet_cases clk cidr d g n db)
    as [[H _]|[(net' & sid & _ & H & _)|(net' & Hn & _ & [(db2 & E & _)|E])]];
    try congruence.
  exfalso. assert (net' = net) by congruence. subst net'.
  apply insert_all_value in E as (Hnd & Habs & _).
  destruct Hcol as [(ip & Hin & Hsome)|Hdup]; [|contradiction].
  apply Hsome. now rewrite <- (Habs ip Hin).
Qed.

(** After a successful [create_subnet] the CIDR text is in [subnets]. *)
Lemma create_subnet_registers clk cidr d g n db msg db1 :
  create_subnet clk cidr d g n db = ((true, msg), db1) ->
  ipaddress.ip_network cidr <> None /\ select_subnet_id cidr db1 <> None.
Proof.
  intros H.
  destruct (create_subnet_cases clk cidr d g n db)
    as [[_ E]|[(net & sid & _ & _ & E)|(net & Hn & Hs & [(db2 & Ei & E)|E])]];
    rewrite E in H; try discriminate.
  inversion H; subst. split; [congruence|].
  apply insert_all_value in Ei as (_ & _ & ->).
  unfold select_subnet_id, append_rows, with_new_subnet; simpl.
  clear. induction (subnets db) as [|a l IH]; simpl.
  - unfold has_cidr; simpl. rewrite String.eqb_refl. discriminate.
  - destruct (has_cidr cidr a); [discriminate | exact IH].
Qed.

Lemma create_subnet_exists clk cidr d g n db :
  ipaddress.ip_network cidr <> None -> select_subnet_id cidr db <> None ->
  create_subnet clk cidr d g n db = ((false, SubnetExists cidr), db).
Proof.
  intros Hn Hs.
  destruct (create_subnet_cases clk cidr d g n db)
    as [[H _]|[(net & sid & _ & _ & E)|(net & _ & H & _)]]; congruence.
Qed.

(** C9.  Creating a CIDR text a second time fails with the already-exists
    message (a DuplicateError) and leaves the database, hence the address
    count, unchanged.  The duplicate check compares the CIDR text only:
    the already-exists message is returned exactly when the text parses
    and is the [subnet_cidr] of a stored subnet. *)
Theorem create_subnet_duplicate (clk : Clock) (cidr d g n : string)
    (db : Database) :
  (forall clk0 d0 g0 n0 db0 msg,
     create_subnet clk0 cidr d0 g0 n0 db0 = ((true, msg), db) ->
     create_subnet clk cidr d g n db = ((false, SubnetExists cidr), db)
     /\ error_kind (SubnetExists cidr) = Some DuplicateError
     /\ List.length (ip_addresses (snd (create_subnet clk cidr d g n db)))
        = List.length (ip_addresses db))
  /\ (forall m,
        fst (create_subnet clk cidr d g n db) = (false, SubnetExists m)
        <-> m = cidr
            /\ ipaddress.ip_network cidr <> None
            /\ select_subnet_id cidr db <> None).
Proof.
  split.
  - intros clk0 d0 g0 n0 db0 msg H.
    apply create_subnet_registers in H as [Hn Hs].
    rewrite (create_subnet_exists clk cidr d g n db Hn Hs). repeat split.
  - intros m. split.
    + destruct (create_subnet_cases clk cidr d g n db)
        as [[_ E]|[(net & sid & Hn & Hs & E)|(net & _ & _ & [(db2 & _ & E)|E])]];
        rewrite E; simpl; intros H; inversion H; subst.
      repeat split; congruence.
    + intros (-> & Hn & Hs). now rewrite create_subnet_exists.
Qed.

(** 192.168.1.0/24 twice: the second call is rejected and the 256 rows
    stay. *)
Lemma create_subnet_duplicate_witness :
  let clk := mkClock "2024-01-01 00:00:00" "2024-01-01 08:00:00" in
  let db := snd (create_subnet clk "192.168.1.0/24" "" "" "" empty_database) in
  create_subnet clk "192.168.1.0/24" "office" "" "" db
  = ((false, SubnetExists "192.168.1.0/24"), db)
  /\ error_kind (SubnetExists "192.168.1.0/24") = Some DuplicateError
  /\ List.length
       (ip_addresses (snd (create_subnet clk "192.168.1.0/24" "office" "" "" db)))
     = List.length (ip_addresses db).
Proof.
  refine (proj1 (create_subnet_duplicate
                   (mkClock "2024-01-01 00:00:00" "2024-01-01 08:00:00")
                   "192.168.1.0/24" "office" "" "" _)
            (mkClock "2024-01-01 00:00:00" "2024-01-01 08:00:00") "" "" ""
            empty_database (SubnetCreated "192.168.1.0/24" 256) _).
  vm_compute. reflexivity.
Defined.

(** The same range under another text (a dotted netmask), and a range
    inside an existing one, pass the duplicate check and fail only when an
    address row collides. *)
Example create_subnet_overlap_not_checked :
  let clk := mkClock "2024-01-01 00:00:00" "2024-01-01 08:00:00" in
  let db := snd (create_subnet clk "10.0.0.0/29" "" "" "" empty_database) in
  create_subnet clk "10.0.0.0/255.255.255.248" "" "" "" db
  = ((false, CreateSubnetFailed (IntegrityError "ip_addresses.ip_address")), db)
  /\ create_subnet clk "10.0.0.0/30" "" "" "" db
     = ((false, CreateSubnetFailed (IntegrityError "ip_addresses.ip_address")),
        db).
Proof. vm_compute. split; reflexivity. Qed.

(** ** What [ip_network] returns *)

Lemma Some_inj {A} (a b : A) : Some a = Some b -> a = b.
Proof. congruence. Qed.

Lemma prefix_from_ip_int_range (x p : Z) :
  ipaddress.prefix_from_ip_int x = Some p -> 0 <= p <= 32.
Proof.
  unfold ipaddress.prefix_from_ip_int, ipaddress.count_righthand_zero_bits,
    ipaddress.bit_length, ipaddress.max_prefixlen.
  destruct (_ =? _); [|discriminate].
  intros H. apply Some_inj in H. subst p.
  destruct (x =? 0); [lia|].
  pose proof (Z.log2_nonneg (Z.land (Z.lnot x) (x - 1))).
  destruct (_ =? 0); lia.
Qed.

Lemma make_netmask_range (arg : string) (p : Z) :
  ipaddress.make_netmask arg = Some p -> 0 <= p <= 32.
Proof.
  unfold ipaddress.make_netmask, ipaddress.prefix_from_prefix_string,
    ipaddress.prefix_from_ip_string, ipaddress.max_prefixlen.
  destruct (negb _).
  - destruct (ipaddress.ip_int_from_string arg) as [x|]; [|discriminate].
    destruct (ipaddress.prefix_from_ip_int x) eqn:E.
    + intros [= <-]. now apply prefix_from_ip_int_range in E.
    + apply prefix_from_ip_int_range.
  - destruct (_ && _) eqn:E.
    + intros [= <-]. lia.
    + destruct (ipaddress.ip_int_from_string arg) as [x|]; [|discriminate].
      destruct (ipaddress.prefix_from_ip_int x) eqn:E'.
      * intros [= <-]. now apply prefix_from_ip_int_range in E'.
      * apply prefix_from_ip_int_range.
Qed.

Lemma ip_network_prefixlen (s : string) (net : ipaddress.IPv4Network) :
  ipaddress.ip_network s = Some net -> 0 <= ipaddress.prefixlen net <= 32.
Proof.
  unfold ipaddress.ip_network.
  destruct (Py.split "/" s) as [|addr [|mask [|]]]; try discriminate.
  - destruct (ipaddress.ip_int_from_string addr); [|discriminate].
    intros [= <-]; simpl. unfold ipaddress.max_prefixlen; lia.
  - destruct (ipaddress.ip_int_from_string addr); [|discriminate].
    destruct (ipaddress.make_netmask mask) as [p|] eqn:E; [|discriminate].
    destruct (_ =? _); [|discriminate].
    intros [= <-]; simpl. now apply make_netmask_range in E.
Qed.

(** From /31 on, [hosts()] yields the network address itself. *)
Lemma hosts_contain_network (net : ipaddress.IPv4Network) :
  31 <= ipaddress.prefixlen net <= 32 ->
  In (ipaddress.network_address net) (ipaddress.hosts net).
Proof.
  intros Hp. unfold ipaddress.hosts, ipaddress.max_prefixlen.
  destruct (Z.eqb_spec (ipaddress.prefixlen net) (32 - 1)) as [E|E].
  - unfold ipaddress.range, ipaddress.broadcast_address, ipaddress.hostmask,
      ipaddress.netmask. rewrite E.
    change (Z.lxor (ipaddress.ip_int_from_prefix (32 - 1)) ipaddress.ALL_ONES)
      with (Z.ones 1).
    set (a := ipaddress.network_address net).
    assert (Ha : a <= Z.lor a (Z.ones 1)).
    { pose proof (Z.add_lor_land a (Z.ones 1)) as H.
      rewrite Z.land_ones in H by lia.
      pose proof (Z.mod_pos_bound a (2 ^ 1)).
      change (Z.ones 1) with 1 in *. lia. }
    apply in_map_iff. exists 0%nat. split; [simpl; lia|].
    apply in_seq. lia.
  - destruct (Z.eqb_spec (ipaddress.prefixlen net) 32); [now left | lia].
Qed.

(** ** The rows of a new subnet *)

Lemma spec_ip_host_specs (ips : list ipaddress.IPv4Address) :
  map spec_ip (host_specs ips) = map ipaddress.str ips.
Proof. unfold host_specs. rewrite map_map. reflexivity. Qed.

Lemma address_specs_ips (net : ipaddress.IPv4Network) :
  map spec_ip (address_specs net)
  = map ipaddress.str
      (ipaddress.hosts net
       ++ [ipaddress.network_address net; ipaddress.broadcast_address net]).
Proof.
  unfold address_specs. rewrite !map_app, spec_ip_host_specs. reflexivity.
Qed.

(** From /31 on the network address is inserted twice, as a host and as
    the network address: the second INSERT violates the UNIQUE constraint
    and the subnet cannot be created. *)
Lemma create_subnet_no_broadcast_fails clk cidr d g n db net :
  ipaddress.ip_network cidr = Some net ->
  31 <= ipaddress.prefixlen net ->
  fst (fst (create_subnet clk cidr d g n db)) = false
  /\ snd (create_subnet clk cidr d g n db) = db.
Proof.
  intros Hnet Hp.
  pose proof (ip_network_prefixlen _ _ Hnet) as Hr.
  destruct (select_subnet_id cidr db) as [sid|] eqn:Hsel.
  - rewrite create_subnet_exists by congruence. split; reflexivity.
  - rewrite (create_subnet_collision clk cidr d g n db net Hnet Hsel);
      [split; reflexivity|].
    right. rewrite address_specs_ips, map_app. intros Hnd.
    apply NoDup_remove_2 in Hnd. apply Hnd.
    apply in_or_app. left. apply in_map.
    apply hosts_contain_network. lia.
Qed.

(** What a successful [create_subnet] has done: the network has a prefix
    of at most 30 bits; the subnet row is appended; one free row per host,
    then the network address and the broadcast address as reserved rows,
    are appended in this order; the count in the message is the number of
    hosts plus 2. *)
Lemma create_subnet_created clk cidr d g n db msg db' :
  create_subnet clk cidr d g n db = ((true, msg), db') ->
  exists net,
    ipaddress.ip_network cidr = Some net
    /\ 0 <= ipaddress.prefixlen net <= 30
    /\ msg = SubnetCreated cidr
               (Z.of_nat (List.length (ipaddress.hosts net)) + 2)
    /\ subnets db'
       = subnets db
         ++ [Subnet.mk (seq_subnets db + 1) cidr (Some d) (Some g) (Some n)
               (CURRENT_TIMESTAMP clk)]
    /\ ip_addresses db'
       = ip_addresses db
         ++ new_rows clk (seq_subnets db + 1) (seq_ip_addresses db)
              (address_specs net)
    /\ ip_history db' = ip_history db.
Proof.
  intros H.
  destruct (create_subnet_cases clk cidr d g n db)
    as [[_ E]|[(net & sid & _ & _ & E)|(net & Hn & Hs & [(db2 & Ei & E)|E])]];
    rewrite E in H; try discriminate.
  exists net. split; [exact Hn|]. split.
  - pose proof (ip_network_prefixlen _ _ Hn).
    destruct (Z_le_gt_dec 31 (ipaddress.prefixlen net)) as [Hp|Hp]; [|lia].
    destruct (create_subnet_no_broadcast_fails clk cidr d g n db net Hn Hp)
      as [Hf _].
    rewrite E in Hf. discriminate.
  - assert (msg = SubnetCreated cidr
                    (Z.of_nat (List.length (ipaddress.hosts net)) + 2)
            /\ db' = db2) as [-> ->] by (split; congruence).
    apply insert_all_value in Ei as (_ & _ & ->).
    repeat split.
Qed.

(** C4.  10.0.0.0/31 and 10.0.0.1/32 are valid networks, yet on an empty
    database [create_subnet] does not create them: the host loop has
    already inserted the network address, the INSERT of the network
    address as reserved violates the UNIQUE constraint, and the call
    returns the failure message with nothing committed.  The branch that
    counts one reserved address only is never reached. *)
Theorem create_subnet_slash31_slash32_fail :
  let clk := mkClock "2024-01-01 00:00:00" "2024-01-01 08:00:00" in
  ipaddress.ip_network "10.0.0.0/31" = Some (ipaddress.mkNetwork 167772160 31)
  /\ map ipaddress.str (ipaddress.hosts (ipaddress.mkNetwork 167772160 31))
     = ["10.0.0.0"; "10.0.0.1"]
  /\ create_subnet clk "10.0.0.0/31" "" "" "" empty_database
     = ((false, CreateSubnetFailed (IntegrityError "ip_addresses.ip_address")),
        empty_database)
  /\ ipaddress.ip_network "10.0.0.1/32" = Some (ipaddress.mkNetwork 167772161 32)
  /\ create_subnet clk "10.0.0.1/32" "" "" "" empty_database
     = ((false, CreateSubnetFailed (IntegrityError "ip_addresses.ip_address")),
        empty_database).
Proof. vm_compute. repeat split. Qed.

(** 192.168.1.0/24 on an empty database: 256 rows, 254 free, the network
    and the broadcast address reserved. *)
Example create_subnet_slash24 :
  let clk := mkClock "2024-01-01 00:00:00" "2024-01-01 08:00:00" in
  let r := create_subnet clk "192.168.1.0/24" "" "" "" empty_database in
  fst r = (true, SubnetCreated "192.168.1.0/24" 256)
  /\ get_statistics (snd r) = mkStatistics 256 0 254 2 (Py.Float 0)
  /\ option_map ip_tuple (select_ip "192.168.1.0" (snd r))
     = Some (mkIpTuple "192.168.1.0" reserved None None None None
               (Some "网络地址"))
  /\ option_map ip_tuple (select_ip "192.168.1.255" (snd r))
     = Some (mkIpTuple "192.168.1.255" reserved None None None None
               (Some "广播地址"))
  /\ List.length (get_free_ips (snd r) "192.168.1.0/24") = 254%nat.
Proof. vm_compute. repeat split. Qed.

(** ** Ordering of listings *)

Lemma tuple_leb_total (a b : list Z) :
  Py.tuple_leb a b = true \/ Py.tuple_leb b a = true.
Proof.
  revert b. induction a as [|x a IH]; intros [|y b]; simpl; auto.
  destruct (Z.ltb_spec x y); [now left|].
  destruct (Z.ltb_spec y x); [now right|].
  apply IH.
Qed.

Lemma tuple_leb_trans (a b c : list Z) :
  Py.tuple_leb a b = true -> Py.tuple_leb b c = true -> Py.tuple_leb a c = true.
Proof.
  revert b c. induction a as [|x a IH]; intros [|y b] [|z c]; simpl; auto;
    try discriminate.
  destruct (Z.ltb_spec x y), (Z.ltb_spec y x), (Z.ltb_spec y z),
    (Z.ltb_spec z y), (Z.ltb_spec x z), (Z.ltb_spec z x);
    try discriminate; try lia; auto.
  apply IH.
Qed.

Section SortFacts.

Context {A K : Type} (leb : K -> K -> bool) (key : A -> K).
Hypothesis leb_total : forall a b, leb a b = true \/ leb b a = true.
Hypothesis leb_trans :
  forall a b c, leb a b = true -> leb b c = true -> leb a c = true.

Lemma insert_perm (x : A) (l : list A) :
  Permutation (x :: l) (Py.insert leb key x l).
Proof.
  induction l as [|y l IH]; simpl; [reflexivity|].
  destruct (leb (key x) (key y)); [reflexivity|].
  rewrite perm_swap. now apply perm_skip.
Qed.

Lemma sort_perm (l : list A) : Permutation l (Py.sort leb key l).
Proof.
  induction l as [|x l IH]; simpl; [constructor|].
  rewrite <- insert_perm. now apply perm_skip.
Qed.

Lemma insert_sorted (x : A) (l : list A) :
  StronglySorted (key_le leb key) l -> StronglySorted (key_le leb key) (Py.insert leb key x l).
Proof.
  induction 1 as [|y l Hs IH Hall]; simpl.
  - repeat constructor.
  - destruct (leb (key x) (key y)) eqn:E.
    + constructor; [now constructor|].
      constructor; [exact E|].
      eapply Forall_impl; [|exact Hall].
      intros z Hz. unfold key_le in *. eauto.
    + constructor; [exact IH|].
      eapply Permutation_Forall; [apply insert_perm|].
      constructor; [|exact Hall].
      unfold key_le. destruct (leb_total (key x) (key y)); congruence.
Qed.

Lemma sort_sorted (l : list A) : StronglySorted (key_le leb key) (Py.sort leb key l).
Proof.
  induction l as [|x l IH]; simpl; [constructor | now apply insert_sorted].
Qed.

End SortFacts.

Lemma sort_ascending {A} (ip_of : A -> string) (l : list A) :
  ascending ip_of
    (Py.sort Py.tuple_leb (fun x => ip_to_sortable_key (ip_of x)) l).
Proof.
  apply (sort_sorted Py.tuple_leb (fun x => ip_to_sortable_key (ip_of x))
           tuple_leb_total tuple_leb_trans).
Qed.





(** A filtered search over a small inventory comes back in numeric order
    (10.0.0.9 before 10.0.0.10), not in text order. *)
Example search_ips_numeric_order :
  let clk := mkClock "2024-01-01 00:00:00" "2024-01-01 08:00:00" in
  let db := snd (create_subnet clk "10.0.0.0/28" "lab" "" "" empty_database) in
  map (fun x => t_ip_address (s_ip x)) (search_ips db None (Some "空闲") (Some "0.0.1"))
  = ["10.0.0.1"; "10.0.0.10"; "10.0.0.11"; "10.0.0.12"; "10.0.0.13";
     "10.0.0.14"]
  /\ map t_ip_address (get_ips_by_subnet db "10.0.0.0/28" (Some "reserved"))
     = ["10.0.0.0"; "10.0.0.15"]
  /\ firstn 3 (skipn 8 (get_free_ips db "10.0.0.0/28"))
     = ["10.0.0.9"; "10.0.0.10"; "10.0.0.11"].
Proof. vm_compute. repeat split. Qed.

(** ** Statistics against the formulas of the specification *)

Lemma sum_case_status (st : Status) (rows : list Address.row) :
  fold_right Z.add 0 (map (case_status st) (map Some rows))
  = count_status st rows.
Proof.
  unfold count_status. induction rows as [|r rows IH]; [reflexivity|].
  cbn [map fold_right filter case_status]. rewrite IH.
  destruct (Status_eqb (Address.status r) st); cbn [List.length]; lia.
Qed.

Lemma or_zero_sum_case (st : Status) (rows : list Address.row) :
  Py.or_zero (sql_sum (map (case_status st) (map Some rows)))
  = count_status st rows.
Proof.
  destruct rows as [|r rows]; [reflexivity|].
  unfold sql_sum. cbn [map]. cbn [Py.or_zero].
  exact (sum_case_status st (r :: rows)).
Qed.

Lemma count_some (rows : list Address.row) :
  sql_count (map Some rows) = Z.of_nat (List.length rows).
Proof.
  unfold sql_count. f_equal.
  induction rows as [|r rows IH]; simpl; congruence.
Qed.

(** The aggregates over the LEFT JOIN group are the counts over the
    subnet's rows. *)
Lemma group_counts (db : Database) (s : Subnet.row) (st : Status) :
  sql_count (left_join_group db s)
  = Z.of_nat (List.length (rows_of_subnet db (Subnet.id s)))
  /\ Py.or_zero (sql_sum (map (case_status st) (left_join_group db s)))
     = count_status st (rows_of_subnet db (Subnet.id s)).
Proof.
  unfold left_join_group. fold (rows_of_subnet db (Subnet.id s)).
  destruct (rows_of_subnet db (Subnet.id s)) as [|r rows] eqn:E.
  - split; reflexivity.
  - split; [apply count_some | apply or_zero_sum_case].
Qed.

Lemma subnet_stats_spec (db : Database) (b : bool) (s : Subnet.row) :
  let e := subnet_stats db b s in
  let rows := rows_of_subnet db (Subnet.id s) in
  st_subnet_cidr e = Subnet.subnet_cidr s
  /\ total_ips e = Z.of_nat (List.length rows)
  /\ used_ips e = count_status used rows
  /\ free_ips e = count_status free rows
  /\ reserved_ips e = count_status reserved rows
  /\ usage_rate e = usage_rate_spec (used_ips e) (total_ips e)
  /\ st_status e
     = if b
       then Some (label (classify_spec (used_ips e) (total_ips e) (usage_rate e)))
       else None.
Proof.
  unfold subnet_stats. cbn zeta.
  cbn [st_subnet_cidr total_ips used_ips free_ips reserved_ips usage_rate
       st_status Py.or_zero].
  destruct (group_counts db s used) as [Ht Hu].
  destruct (group_counts db s free) as [_ Hf].
  destruct (group_counts db s reserved) as [_ Hr].
  rewrite Ht, Hu, Hf, Hr.
  set (t := Z.of_nat (List.length (rows_of_subnet db (Subnet.id s)))).
  assert (Hpos : (0 <? t) = negb (t =? 0)).
  { unfold t. destruct (Z.ltb_spec 0 (Z.of_nat (List.length
      (rows_of_subnet db (Subnet.id s))))), (Z.eqb_spec (Z.of_nat (List.length
      (rows_of_subnet db (Subnet.id s)))) 0); simpl; lia. }
  repeat split.
  - unfold usage_rate_spec. rewrite Hpos. now destruct (t =? 0).
  - destruct b; [|reflexivity]. f_equal.
    unfold classify_spec, Config.HIGH_USAGE_THRESHOLD,
      Config.MEDIUM_USAGE_THRESHOLD.
    destruct (t =? 0); [reflexivity|].
    destruct (Py.ge_const _ 80); [reflexivity|].
    destruct (Py.ge_const _ 60); [reflexivity|].
    now destruct (_ =? 0).
Qed.


Example thresholds_exact_256 : thresholds_exact 256 = true.
Proof. vm_compute. reflexivity. Qed.

(** Thirteen of the sixteen addresses of a /28 allocated: 81.25 percent,
    high usage; ten of them: 62.5 percent. *)
Example usage_classes :
  usage_rate_spec 13 16 = Py.Float 81.25%float
  /\ label (classify_spec 13 16 (usage_rate_spec 13 16)) = "高使用率"
  /\ usage_rate_spec 10 16 = Py.Float 62.5%float
  /\ classify_spec 10 16 (usage_rate_spec 10 16) = MediumHigh
  /\ classify_spec 0 16 (usage_rate_spec 0 16) = Idle
  /\ classify_spec 1 16 (usage_rate_spec 1 16) = Normal
  /\ classify_spec 0 0 (usage_rate_spec 0 0) = Empty.
Proof. vm_compute. repeat split. Qed.

(** ** Who writes the status column *)

(** *** Calls that never touch the status of a row that stays *)

Lemma unique_select (l : list Address.row) (r : Address.row) :
  NoDup (map Address.ip_address l) -> In r l ->
  find (has_ip (Address.ip_address r)) l = Some r.
Proof.
  induction l as [|a l IH]; simpl; [tauto|].
  intros Hnd Hin. inversion Hnd as [|x xs Hnotin Hnd']; subst.
  destruct (has_ip (Address.ip_address r) a) eqn:E.
  - destruct Hin as [->|Hin]; [reflexivity|].
    exfalso. apply Hnotin. unfold has_ip in E. apply String.eqb_eq in E.
    rewrite E. now apply in_map.
  - destruct Hin as [->|Hin]; [|now apply IH].
    unfold has_ip in E. now rewrite String.eqb_refl in E.
Qed.

Lemma create_subnet_keeps clk cidr d g n db :
  ip_history (snd (create_subnet clk cidr d g n db)) = ip_history db
  /\ forall ip r,
       select_ip ip db = Some r ->
       select_ip ip (snd (create_subnet clk cidr d g n db)) = Some r.
Proof.
  destruct (create_subnet clk cidr d g n db) as [[[|] msg] db'] eqn:E.
  - apply create_subnet_created in E as (net & _ & _ & _ & _ & Hrows & Hh).
    simpl. split; [exact Hh|].
    intros ip r Hr. unfold select_ip in *. rewrite Hrows.
    clear - Hr. induction (ip_addresses db) as [|a l IH]; simpl in *.
    + discriminate.
    + destruct (has_ip ip a); [exact Hr | now apply IH].
  - pose proof (create_subnet_failed_unchanged clk cidr d g n db) as H.
    rewrite E in H. simpl in *. rewrite H by reflexivity. now split.
Qed.

Lemma import_subnet_row_keeps clk acc row :
  ip_history (snd (import_subnet_row clk acc row)) = ip_history (snd acc)
  /\ forall ip r,
       select_ip ip (snd acc) = Some r ->
       select_ip ip (snd (import_subnet_row clk acc row)) = Some r.
Proof.
  destruct acc as [[cnt errs] db]. unfold import_subnet_row.
  destruct (1 <=? List.length row)%nat; [|now split].
  destruct (create_subnet_keeps clk (column row 0) (column row 1)
              (column row 2) (column row 3) db) as [Hh Hs].
  destruct (create_subnet clk (column row 0) (column row 1) (column row 2)
              (column row 3) db) as [[[|] msg] db1]; simpl in *; now split.
Qed.

Lemma import_subnets_keeps clk csv db :
  ip_history (snd (import_subnet_from_csv clk csv db)) = ip_history db
  /\ forall ip r,
       select_ip ip db = Some r ->
       select_ip ip (snd (import_subnet_from_csv clk csv db)) = Some r.
Proof.
  unfold import_subnet_from_csv.
  change db with (snd (0, @nil Message, db)) at 2 3.
  generalize (0, @nil Message, db). clear db.
  induction csv as [|row csv IH]; intros acc; simpl; [now split|].
  destruct (IH (import_subnet_row clk acc row)) as [Hh Hs].
  destruct (import_subnet_row_keeps clk acc row) as [Hh' Hs'].
  split; [congruence | auto].
Qed.

Lemma delete_subnet_keeps cidr db :
  unique_ips db ->
  ip_history (snd (delete_subnet cidr db)) = ip_history db
  /\ forall ip r r',
       select_ip ip db = Some r ->
       select_ip ip (snd (delete_subnet cidr db)) = Some r' -> r' = r.
Proof.
  intros Hu.
  unfold delete_subnet, call, delete_subnet_body, bind, query, get_connection.
  cbn [pending].
  destruct (select_subnet_id cidr db) as [sid|]; simpl.
  - split; [reflexivity|]. intros ip r r' Hr Hr'.
    unfold select_ip in Hr'. simpl in Hr'.
    apply find_some in Hr' as [Hin Hip].
    apply filter_In in Hin as [Hin _].
    apply String.eqb_eq in Hip.
    pose proof (unique_select _ _ Hu Hin) as Hf. rewrite Hip in Hf.
    unfold select_ip in Hr. congruence.
  - split; [reflexivity|]. congruence.
Qed.

(** *** The single-row transitions *)

Lemma allocate_ip_cases clk ip to mac dev notes db :
  snd (allocate_ip clk ip to mac dev notes db) = db
  \/ exists r,
       select_ip ip db = Some r /\ Address.status r = free
       /\ snd (allocate_ip clk ip to mac dev notes db)
          = insert_history clk ip allocate free used to notes
              (update_ip ip (set_allocated clk to mac dev notes) db).
Proof.
  unfold allocate_ip, call, allocate_ip_body, bind, query, get_connection.
  cbn [pending].
  destruct (select_ip ip db) as [r|]; [|now left].
  destruct (Address.status r) eqn:E; simpl; [right | now left ..].
  exists r. repeat split. assumption.
Qed.

Lemma release_ip_cases clk ip notes db :
  (select_ip ip db = None /\ snd (release_ip clk ip notes db) = db)
  \/ exists r,
       select_ip ip db = Some r
       /\ snd (release_ip clk ip notes db)
          = insert_history clk ip release (Address.status r) free "system"
              notes (update_ip ip (set_released clk) db).
Proof.
  unfold release_ip, call, release_ip_body, bind, query, get_connection.
  cbn [pending].
  destruct (select_ip ip db) as [r|]; [right | now left].
  exists r. split; reflexivity.
Qed.

Lemma reserve_ip_run clk ip notes db :
  snd (reserve_ip clk ip notes db)
  = insert_history clk ip reserve free reserved "system" notes
      (update_ip ip (set_reserved clk notes) db).
Proof. reflexivity. Qed.

(** What a transition leaves of a row it found: the new row of its own
    address, any other row as it was. *)
Lemma select_after_update clk ip ip0 a o n by_ notes set db :
  (forall r, Address.ip_address (set r) = Address.ip_address r) ->
  select_ip ip0 (insert_history clk ip a o n by_ notes (update_ip ip set db))
  = if String.eqb ip0 ip then option_map set (select_ip ip db)
    else select_ip ip0 db.
Proof.
  intros Hset. rewrite select_ip_insert_history.
  destruct (String.eqb_spec ip0 ip) as [->|Hne].
  - now apply select_update_same.
  - now apply select_update_other.
Qed.

(** *** The address import *)

Lemma same_frame_refl db : same_frame db db.
Proof. repeat split. Qed.

Lemma same_frame_trans db1 db2 db3 :
  same_frame db1 db2 -> same_frame db2 db3 -> same_frame db1 db3.
Proof. unfold same_frame. intuition congruence. Qed.

Lemma update_ip_frame ip set db :
  (forall r, Address.ip_address (set r) = Address.ip_address r) ->
  same_frame db (update_ip ip set db).
Proof.
  intros Hset. repeat split. unfold update_ip; simpl.
  rewrite map_map. apply map_ext. intros r. now destruct (has_ip ip r).
Qed.

Lemma import_ips_row_runs clk row acc c :
  exists acc' db',
    import_ips_row clk row acc c = (Value acc', mkConnection (committed c) db')
    /\ same_frame (pending c) db'.
Proof.
  destruct acc as [cnt errs]. unfold import_ips_row.
  destruct (2 <=? List.length row)%nat.
  - unfold bind at 1. unfold query.
    destruct (select_ip (column row 0) (pending c)) as [r|].
    + destruct (_ && _).
      * eexists _, _. split; [reflexivity|]. now apply update_ip_frame.
      * eexists _, _. split; [reflexivity|]. now apply update_ip_frame.
    + eexists _, (pending c). unfold ret.
    split; [destruct c; reflexivity | apply same_frame_refl].
  - eexists _, (pending c). unfold ret.
    split; [destruct c; reflexivity | apply same_frame_refl].
Qed.

Lemma import_ips_loop_runs clk csv acc c :
  exists acc' db',
    for_each csv (import_ips_row clk) acc c
    = (Value acc', mkConnection (committed c) db')
    /\ same_frame (pending c) db'.
Proof.
  revert acc c. induction csv as [|row csv IH]; intros acc c; simpl.
  - eexists _, (pending c). unfold ret.
    split; [destruct c; reflexivity | apply same_frame_refl].
  - unfold bind.
    destruct (import_ips_row_runs clk row acc c) as (acc1 & db1 & -> & H1).
    destruct (IH acc1 (mkConnection (committed c) db1)) as (acc2 & db2 & -> & H2).
    eexists _, _. split; [reflexivity|]. simpl in H2.
    eapply same_frame_trans; eassumption.
Qed.

(** The address import always commits, and what it commits differs from
    the database before in columns of address rows only: no history row
    is written. *)
Lemma import_ips_frame clk csv sc db :
  same_frame db (snd (import_ips_from_csv clk csv sc db)).
Proof.
  unfold import_ips_from_csv, call, import_ips_from_csv_body.
  unfold bind at 1.
  destruct (import_ips_loop_runs clk csv (0, []) (get_connection db))
    as (acc & db' & -> & H).
  exact H.
Qed.

(** *** Bulk allocation *)

Lemma bulk_item_db clk to mac dev notes acc ip :
  snd (bulk_allocate_item clk to mac dev notes acc ip)
  = snd (allocate_ip clk ip to mac dev notes (snd acc)).
Proof.
  destruct acc as [[cnt errs] db]. unfold bulk_allocate_item. simpl.
  now destruct (allocate_ip clk ip to mac dev notes db) as [[[|] m] db'].
Qed.

Lemma allocate_keeps_taken clk ip to mac dev notes db ip0 r :
  select_ip ip0 db = Some r -> Address.status r <> free ->
  select_ip ip0 (snd (allocate_ip clk ip to mac dev notes db)) = Some r.
Proof.
  intros Hr Hs.
  destruct (allocate_ip_cases clk ip to mac dev notes db)
    as [->|(r1 & Hr1 & Hfree & ->)]; [exact Hr|].
  rewrite select_after_update by reflexivity.
  destruct (String.eqb_spec ip0 ip) as [->|_]; [congruence | exact Hr].
Qed.

Lemma bulk_keeps_taken clk to mac dev notes sel acc ip0 r :
  select_ip ip0 (snd acc) = Some r -> Address.status r <> free ->
  select_ip ip0
    (snd (fold_left (bulk_allocate_item clk to mac dev notes) sel acc))
  = Some r.
Proof.
  revert acc. induction sel as [|x sel IH]; intros acc Hr Hs; simpl.
  - exact Hr.
  - apply IH; [|exact Hs]. rewrite bulk_item_db.
    now apply allocate_keeps_taken.
Qed.

Lemma bulk_history clk to mac dev notes sel acc :
  exists hs,
    ip_history
      (snd (fold_left (bulk_allocate_item clk to mac dev notes) sel acc))
    = ip_history (snd acc) ++ hs.
Proof.
  revert acc. induction sel as [|x sel IH]; intros acc; simpl.
  - exists []. now rewrite app_nil_r.
  - destruct (IH (bulk_allocate_item clk to mac dev notes acc x)) as [hs ->].
    rewrite bulk_item_db.
    destruct (allocate_ip_cases clk x to mac dev notes (snd acc))
      as [->|(r1 & _ & _ & ->)].
    + now exists hs.
    + simpl. eexists. now rewrite <- app_assoc.
Qed.

Lemma bulk_allocate_change clk to mac dev notes sel acc ip r r' :
  select_ip ip (snd acc) = Some r ->
  select_ip ip
    (snd (fold_left (bulk_allocate_item clk to mac dev notes) sel acc))
  = Some r' ->
  Address.status r <> Address.status r' ->
  In ip sel
  /\ exists hs h,
       ip_history
         (snd (fold_left (bulk_allocate_item clk to mac dev notes) sel acc))
       = ip_history (snd acc) ++ hs
       /\ In h hs /\ records h ip (Address.status r) (Address.status r').
Proof.
  revert acc r. induction sel as [|x sel IH]; intros acc r Hr Hr' Hne; simpl in *.
  - congruence.
  - set (acc1 := bulk_allocate_item clk to mac dev notes acc x) in *.
    assert (E1 : snd acc1 = snd (allocate_ip clk x to mac dev notes (snd acc)))
      by apply bulk_item_db.
    destruct (allocate_ip_cases clk x to mac dev notes (snd acc))
      as [E|(r1 & Hr1 & Hfree & E)]; rewrite E in E1.
    + destruct (IH acc1 r) as (Hin & hs & h & Hh & Hinh & Hrec);
        [congruence | exact Hr' | exact Hne |].
      split; [now right|]. exists hs, h. rewrite Hh, E1. now split.
    + assert (Hsel : select_ip ip (snd acc1)
                     = if String.eqb ip x
                       then option_map (set_allocated clk to mac dev notes)
                              (select_ip x (snd acc))
                       else select_ip ip (snd acc)).
      { rewrite E1. now apply select_after_update. }
      destruct (String.eqb_spec ip x) as [->|Hx].
      * rewrite Hr1 in Hsel. simpl in Hsel.
        assert (r1 = r) by congruence. subst r1.
        pose proof (bulk_keeps_taken clk to mac dev notes sel acc1 x _ Hsel) as Hk.
        rewrite Hk in Hr' by discriminate.
        apply Some_inj in Hr'. subst r'.
        destruct (bulk_history clk to mac dev notes sel acc1) as [hs Hh].
        split; [now left|].
        eexists _, _. split; [|split].
        -- rewrite Hh, E1. simpl. rewrite <- app_assoc. reflexivity.
        -- now left.
        -- rewrite Hfree. repeat split.
      * rewrite Hr in Hsel.
        destruct (IH acc1 r Hsel Hr' Hne) as (Hin & hs & h & Hh & Hinh & Hrec).
        split; [now right|].
        eexists _, h. split; [|split; [|exact Hrec]].
        -- rewrite Hh, E1. simpl. rewrite <- app_assoc. reflexivity.
        -- now right.
Qed.

(** *** The invariant *)

(** C3.  A call changes the status of an address row that exists before
    and after it only in two ways.  Either the call is a transition of
    the state machine on that address ([allocate_ip], [release_ip],
    [reserve_ip], or a bulk allocation that selects it), and then the
    history has grown by rows among which one is for this address and
    carries the new status (and the old status too, unless it is a reserve
    row).  Or the call is [import_ips_from_csv], which writes the status
    column directly and leaves the history as it was.  [create_subnet],
    [delete_subnet] and [import_subnet_from_csv] change no such status. *)
Theorem status_changes_and_history (clk : Clock) (op : Operation)
    (db : Database) (ip : string) (r r' : Address.row) :
  unique_ips db ->
  select_ip ip db = Some r ->
  select_ip ip (run clk op db) = Some r' ->
  Address.status r <> Address.status r' ->
  (transition_on ip op
   /\ exists hs h,
        ip_history (run clk op db) = ip_history db ++ hs
        /\ In h hs
        /\ records h ip (Address.status r) (Address.status r'))
  \/ (exists csv sc,
        op = ImportIps csv sc /\ ip_history (run clk op db) = ip_history db).
Proof.
  intros Hu Hr Hr' Hne.
  destruct op as [cidr d g n|cidr|x to mac dev notes|x notes|x notes
                 |sel to mac dev notes|csv|csv sc]; cbn [run] in *.
  - destruct (create_subnet_keeps clk cidr d g n db) as [_ Hk].
    rewrite (Hk _ _ Hr) in Hr'. congruence.
  - destruct (delete_subnet_keeps cidr db Hu) as [_ Hk].
    rewrite (Hk _ _ _ Hr Hr') in Hne. congruence.
  - left.
    destruct (allocate_ip_cases clk x to mac dev notes db)
      as [E|(r1 & Hr1 & Hfree & E)]; rewrite E in *; [congruence|].
    rewrite select_after_update in Hr' by reflexivity.
    destruct (String.eqb_spec ip x) as [->|_]; [|congruence].
    rewrite Hr1 in Hr'. simpl in Hr'. apply Some_inj in Hr'. subst r'.
    assert (r1 = r) by congruence. subst r1.
    split; [reflexivity|]. eexists _, _. split; [reflexivity|].
    split; [now left|]. rewrite Hfree. repeat split.
  - left.
    destruct (release_ip_cases clk x notes db) as [[_ E]|(r1 & Hr1 & E)];
      rewrite E in *; [congruence|].
    rewrite select_after_update in Hr' by reflexivity.
    destruct (String.eqb_spec ip x) as [->|_]; [|congruence].
    rewrite Hr1 in Hr'. simpl in Hr'. apply Some_inj in Hr'. subst r'.
    assert (r1 = r) by congruence. subst r1.
    split; [reflexivity|]. eexists _, _. split; [reflexivity|].
    split; [now left|]. repeat split.
  - left. rewrite reserve_ip_run in *.
    rewrite select_after_update in Hr' by reflexivity.
    destruct (String.eqb_spec ip x) as [->|_]; [|congruence].
    rewrite Hr in Hr'. simpl in Hr'. apply Some_inj in Hr'. subst r'.
    split; [reflexivity|]. eexists _, _. split; [reflexivity|].
    split; [now left|]. repeat split. simpl. congruence.
  - left. unfold bulk_allocate in *.
    apply (bulk_allocate_change clk to mac dev notes sel (0, [], db) ip r r');
      assumption.
  - destruct (import_subnets_keeps clk csv db) as [_ Hk].
    rewrite (Hk _ _ Hr) in Hr'. congruence.
  - right. exists csv, sc. split; [reflexivity|].
    apply (import_ips_frame clk csv sc db).
Qed.

(** Allocating the free 10.0.0.1: one history row, free -> used. *)
Lemma status_changes_and_history_witness :
  let clk := mkClock "2024-01-01 00:00:00" "2024-01-01 08:00:00" in
  let r := Address.mk 1 "10.0.0.1" (Some 1) free None None None None None
             "2023-12-31 00:00:00" in
  let r' := Address.mk 1 "10.0.0.1" (Some 1) used (Some "srv01") (Some "")
              (Some "") (Some "2024-01-01 08:00:00") (Some "")
              "2024-01-01 00:00:00" in
  let db := mkDatabase [] [r] [] 0 1 0 in
  let op := AllocateIp "10.0.0.1" "srv01" "" "" "" in
  (transition_on "10.0.0.1" op
   /\ exists hs h,
        ip_history (run clk op db) = ip_history db ++ hs
        /\ In h hs /\ records h "10.0.0.1" free used)
  \/ (exists csv sc,
        op = ImportIps csv sc /\ ip_history (run clk op db) = ip_history db).
Proof.
  refine (status_changes_and_history
            (mkClock "2024-01-01 00:00:00" "2024-01-01 08:00:00")
            (AllocateIp "10.0.0.1" "srv01" "" "" "")
            (mkDatabase []
               [Address.mk 1 "10.0.0.1" (Some 1) free None None None None None
                  "2023-12-31 00:00:00"] [] 0 1 0)
            "10.0.0.1"
            (Address.mk 1 "10.0.0.1" (Some 1) free None None None None None
               "2023-12-31 00:00:00")
            (Address.mk 1 "10.0.0.1" (Some 1) used (Some "srv01") (Some "")
               (Some "") (Some "2024-01-01 08:00:00") (Some "")
               "2024-01-01 00:00:00")
            _ eq_refl eq_refl _).
  - repeat constructor. simpl. tauto.
  - simpl. discriminate.
Defined.

(** C3 as first stated.  Importing the row (10.0.0.1, used) turns the free
    address 10.0.0.1 of 10.0.0.0/30 into a used one and writes no history
    row: the import does its own UPDATE and does not go through
    [allocate_ip]. *)
Lemma import_changes_status_without_history :
  let clk := mkClock "2024-01-01 00:00:00" "2024-01-01 08:00:00" in
  let db := snd (create_subnet clk "10.0.0.0/30" "" "" "" empty_database) in
  let db' := snd (import_ips_from_csv clk [["10.0.0.1"; "used"]] None db) in
  fst (import_ips_from_csv clk [["10.0.0.1"; "used"]] None db) = (0, 1, [])
  /\ option_map Address.status (select_ip "10.0.0.1" db) = Some free
  /\ option_map Address.status (select_ip "10.0.0.1" db') = Some used
  /\ ip_history db = []
  /\ ip_history db' = [].
Proof. vm_compute. repeat split. Qed.

(** *** The UNIQUE constraint holds in every state the calls can reach *)

Lemma same_frame_unique db db' :
  same_frame db db' -> unique_ips db -> unique_ips db'.
Proof. intros (_ & _ & H) Hu. unfold unique_ips. now rewrite H. Qed.

Lemma transition_frame clk ip a o n by_ notes set db :
  (forall r, Address.ip_address (set r) = Address.ip_address r) ->
  map Address.ip_address
    (ip_addresses (insert_history clk ip a o n by_ notes (update_ip ip set db)))
  = map Address.ip_address (ip_addresses db).
Proof. intros Hset. now apply (update_ip_frame ip set db). Qed.

Lemma new_rows_ips clk sid start specs :
  map Address.ip_address (new_rows clk sid start specs) = map spec_ip specs.
Proof.
  revert start. induction specs as [|[[ip st] notes] rest IH]; intros start;
    simpl; [reflexivity | now rewrite IH].
Qed.

Lemma select_ip_absent ip db :
  select_ip ip db = None -> ~ In ip (map Address.ip_address (ip_addresses db)).
Proof.
  unfold select_ip. intros Hnone Hin.
  apply in_map_iff in Hin as (r & Hip & Hin).
  apply (find_none _ _ Hnone) in Hin. unfold has_ip in Hin.
  rewrite Hip, String.eqb_refl in Hin. discriminate.
Qed.

Lemma create_subnet_unique clk cidr d g n db :
  unique_ips db -> unique_ips (snd (create_subnet clk cidr d g n db)).
Proof.
  intros Hu.
  destruct (create_subnet_cases clk cidr d g n db)
    as [[_ E]|[(net & sid & _ & _ & E)|(net & _ & _ & [(db2 & Ei & E)|E])]];
    rewrite E; simpl; try exact Hu.
  apply insert_all_value in Ei as (Hnd & Habs & ->).
  unfold unique_ips, append_rows; simpl.
  rewrite map_app, new_rows_ips.
  apply NoDup_app; [exact Hu | exact Hnd |].
  intros ip Hin Hin'. apply Habs in Hin'.
  now apply select_ip_absent in Hin'.
Qed.

Lemma filter_unique (p : Address.row -> bool) (l : list Address.row) :
  NoDup (map Address.ip_address l) ->
  NoDup (map Address.ip_address (filter p l)).
Proof.
  induction l as [|a l IH]; simpl; [auto|].
  intros Hnd. inversion Hnd as [|x xs Hnotin Hnd']; subst.
  destruct (p a); simpl; [|auto].
  constructor; [|auto].
  intros Hin. apply Hnotin. apply in_map_iff in Hin as (r & Hr & Hin).
  apply filter_In in Hin as [Hin _]. rewrite <- Hr. now apply in_map.
Qed.

Lemma run_unique_ips clk op db : unique_ips db -> unique_ips (run clk op db).
Proof.
  intros Hu.
  destruct op as [cidr d g n|cidr|x to mac dev notes|x notes|x notes
                 |sel to mac dev notes|csv|csv sc]; cbn [run].
  - now apply create_subnet_unique.
  - unfold delete_subnet, call, delete_subnet_body, bind, query, get_connection.
    cbn [pending].
    destruct (select_subnet_id cidr db) as [sid|]; simpl; [|exact Hu].
    now apply filter_unique.
  - destruct (allocate_ip_cases clk x to mac dev notes db)
      as [->|(r1 & _ & _ & ->)]; [exact Hu|].
    unfold unique_ips. now rewrite transition_frame.
  - destruct (release_ip_cases clk x notes db) as [[_ ->]|(r1 & _ & ->)];
      [exact Hu|].
    unfold unique_ips. now rewrite transition_frame.
  - rewrite reserve_ip_run. unfold unique_ips. now rewrite transition_frame.
  - unfold bulk_allocate.
    change db with (snd (0, @nil (string * Message), db)) in Hu.
    revert Hu. generalize (0, @nil (string * Message), db).
    induction sel as [|y sel IH]; intros acc Hu; simpl; [exact Hu|].
    apply IH. rewrite bulk_item_db.
    destruct (allocate_ip_cases clk y to mac dev notes (snd acc))
      as [->|(r1 & _ & _ & ->)]; [exact Hu|].
    unfold unique_ips. now rewrite transition_frame.
  - unfold import_subnet_from_csv.
    change db with (snd (0, @nil Message, db)) in Hu.
    revert Hu. generalize (0, @nil Message, db).
    induction csv as [|row csv IH]; intros acc Hu; simpl; [exact Hu|].
    apply IH. destruct acc as [[cnt errs] db0]. unfold import_subnet_row.
    destruct (1 <=? List.length row)%nat; [|exact Hu].
    pose proof (create_subnet_unique clk (column row 0) (column row 1)
                  (column row 2) (column row 3) db0 Hu) as H.
    now destruct (create_subnet clk (column row 0) (column row 1)
                    (column row 2) (column row 3) db0) as [[[|] m] db1].
  - eapply same_frame_unique; [apply import_ips_frame | exact Hu].
Qed.

Lemma reachable_unique_ips db : reachable db -> unique_ips db.
Proof.
  induction 1 as [|clk op db _ IH]; [constructor | now apply run_unique_ips].
Qed.

(** ** The dotted quad is read back by [ipaddress] *)

Lemma split_no_sep (sep : ascii) (s : string) :
  (forall c, In c (list_ascii_of_string s) -> c <> sep) ->
  Py.split sep s = [s].
Proof.
  induction s as [|c s IH]; simpl; intros H; [reflexivity|].
  destruct (Ascii.eqb_spec c sep) as [->|_].
  - now destruct (H sep (or_introl eq_refl)).
  - rewrite IH by (intros; apply H; now right). reflexivity.
Qed.

Lemma split_app_sep (sep : ascii) (s t : string) :
  (forall c, In c (list_ascii_of_string s) -> c <> sep) ->
  Py.split sep (s ++ String sep t) = s :: Py.split sep t.
Proof.
  induction s as [|c s IH]; simpl; intros H.
  - now rewrite Ascii.eqb_refl.
  - destruct (Ascii.eqb_spec c sep) as [->|_].
    + now destruct (H sep (or_introl eq_refl)).
    + rewrite IH by (intros; apply H; now right). reflexivity.
Qed.

Lemma octets_round_trip :
  forallb octet_round_trip (ipaddress.range 0 256) = true.
Proof. vm_compute. reflexivity. Qed.

Lemma octet_reads_back (o : Z) :
  0 <= o < 256 ->
  ipaddress.parse_octet (ipaddress.str_int o) = Some o
  /\ forall c, In c (list_ascii_of_string (ipaddress.str_int o)) -> c <> "."%char.
Proof.
  intros Ho.
  assert (Hin : In o (ipaddress.range 0 256)).
  { unfold ipaddress.range. apply in_map_iff. exists (Z.to_nat o).
    split; [lia|]. apply in_seq. lia. }
  pose proof (proj1 (forallb_forall _ _) octets_round_trip o Hin) as H.
  unfold octet_round_trip in H. apply andb_prop in H as [H1 H2].
  split.
  - destruct (ipaddress.parse_octet (ipaddress.str_int o)) as [v|];
      [|discriminate].
    apply Z.eqb_eq in H1. now subst.
  - intros c Hc. pose proof (proj1 (forallb_forall _ _) H2 c Hc) as Hn.
    apply negb_true_iff in Hn. now apply Ascii.eqb_neq in Hn.
Qed.

Lemma to_bytes_range (a : Z) :
  Forall (fun o => 0 <= o < 256) (ipaddress.to_bytes a).
Proof.
  unfold ipaddress.to_bytes.
  repeat constructor;
    (change 255 with (Z.ones 8); rewrite Z.land_ones by lia;
     apply Z.mod_pos_bound; lia).
Qed.

Lemma from_to_bytes (a : Z) :
  0 <= a < 2 ^ 32 -> ipaddress.from_bytes (ipaddress.to_bytes a) = a.
Proof.
  intros Ha. unfold ipaddress.from_bytes, ipaddress.to_bytes. cbn [fold_left].
  change 255 with (Z.ones 8). rewrite !Z.land_ones by lia.
  rewrite !Z.shiftr_div_pow2 by lia.
  change (2 ^ 8) with 256. change (2 ^ 16) with 65536.
  change (2 ^ 24) with 16777216. change (2 ^ 32) with 4294967296 in Ha.
  Z.to_euclidean_division_equations. lia.
Qed.

(** [_ip_int_from_string(str(a)) == a] for a 32-bit [a]. *)
Lemma str_reads_back (a : Z) :
  0 <= a < 2 ^ 32 -> ipaddress.ip_int_from_string (ipaddress.str a) = Some a.
Proof.
  intros Ha. unfold ipaddress.ip_int_from_string.
  pose proof (str_nonempty a) as Hne.
  destruct (String.eqb_spec (ipaddress.str a) ""); [contradiction|].
  pose proof (to_bytes_range a) as Hr.
  pose proof (from_to_bytes a Ha) as Hf.
  unfold ipaddress.str in *.
  destruct (ipaddress.to_bytes a) as [|b3 [|b2 [|b1 [|b0 [|]]]]] eqn:E;
    try discriminate.
  apply Forall_cons_iff in Hr as [H3 Hr]. apply Forall_cons_iff in Hr as [H2 Hr].
  apply Forall_cons_iff in Hr as [H1 Hr]. apply Forall_cons_iff in Hr as [H0 _].
  destruct (octet_reads_back b3 H3) as [P3 D3].
  destruct (octet_reads_back b2 H2) as [P2 D2].
  destruct (octet_reads_back b1 H1) as [P1 D1].
  destruct (octet_reads_back b0 H0) as [P0 D0].
  cbn [map String.concat String.append].
  rewrite split_app_sep by exact D3.
  rewrite split_app_sep by exact D2.
  rewrite split_app_sep by exact D1.
  rewrite split_no_sep by exact D0.
  cbn [List.length Nat.eqb negb ipaddress.parse_octets].
  rewrite P3, P2, P1, P0. cbn [option_map]. now rewrite Hf.
Qed.

Lemma str_injective (a b : Z) :
  0 <= a < 2 ^ 32 -> 0 <= b < 2 ^ 32 ->
  ipaddress.str a = ipaddress.str b -> a = b.
Proof.
  intros Ha Hb E. apply str_reads_back in Ha, Hb. congruence.
Qed.

(** ** The arithmetic of a network *)

Lemma digits_value_nonneg (s : string) (acc : Z) :
  Py.all_digits s = true -> 0 <= acc -> 0 <= Py.digits_value acc s.
Proof.
  revert acc. induction s as [|c s IH]; cbn [Py.all_digits Py.digits_value];
    intros acc Hd Hacc; [exact Hacc|].
  apply andb_prop in Hd as [Hc Hs]. apply IH; [exact Hs|].
  unfold Py.isdigit_char in Hc. cbv zeta in Hc.
  apply andb_prop in Hc as [Hlo _].
  apply Nat.leb_le in Hlo. unfold Py.digit_value. lia.
Qed.

Lemma parse_octet_range (s : string) (v : Z) :
  ipaddress.parse_octet s = Some v -> 0 <= v < 256.
Proof.
  unfold ipaddress.parse_octet.
  destruct (Py.isascii_isdigit s) eqn:Hd; [|discriminate]. simpl.
  destruct (_ <? _)%nat; [discriminate|].
  destruct (_ && _); [discriminate|].
  destruct (Z.ltb_spec 255 (Py.digits_value 0 s)); [discriminate|].
  intros H0. apply Some_inj in H0. subst v.
  split; [|lia]. apply digits_value_nonneg; [|lia].
  destruct s; [discriminate | exact Hd].
Qed.

Lemma ip_int_from_string_range (s : string) (a : Z) :
  ipaddress.ip_int_from_string s = Some a -> 0 <= a < 2 ^ 32.
Proof.
  unfold ipaddress.ip_int_from_string.
  destruct (String.eqb s ""); [discriminate|].
  destruct (Py.split "." s) as [|s3 [|s2 [|s1 [|s0 [|]]]]]; try discriminate.
  cbn [List.length Nat.eqb negb ipaddress.parse_octets].
  destruct (ipaddress.parse_octet s3) as [b3|] eqn:E3; [|discriminate].
  destruct (ipaddress.parse_octet s2) as [b2|] eqn:E2; [|discriminate].
  destruct (ipaddress.parse_octet s1) as [b1|] eqn:E1; [|discriminate].
  destruct (ipaddress.parse_octet s0) as [b0|] eqn:E0; [|discriminate].
  apply parse_octet_range in E3, E2, E1, E0.
  cbn [option_map]. intros H. apply Some_inj in H. subst a.
  unfold ipaddress.from_bytes. cbn [fold_left].
  change (2 ^ 32) with 4294967296. lia.
Qed.

(** The masks of the 33 prefix lengths, by evaluation. *)
Lemma prefix_masks (p : Z) :
  0 <= p <= 32 ->
  Z.lxor (ipaddress.ip_int_from_prefix p) ipaddress.ALL_ONES = Z.ones (32 - p)
  /\ Z.land (ipaddress.ip_int_from_prefix p) (Z.ones (32 - p)) = 0.
Proof.
  intros Hp. rewrite <- (Z2Nat.id p) by lia.
  assert (Hn : (Z.to_nat p <= 32)%nat) by lia.
  revert Hn. generalize (Z.to_nat p). intros n Hn.
  do 33 (destruct n as [|n]; [vm_compute; split; reflexivity|]).
  lia.
Qed.

(** A network returned by [ip_network]: a 32-bit address whose host bits
    are zero, and the broadcast address is the last address of the
    block. *)
Lemma ip_network_block (s : string) (net : ipaddress.IPv4Network) :
  ipaddress.ip_network s = Some net ->
  let a := ipaddress.network_address net in
  let size := 2 ^ (32 - ipaddress.prefixlen net) in
  0 <= ipaddress.prefixlen net <= 32
  /\ 0 <= a /\ a + size <= 2 ^ 32
  /\ ipaddress.broadcast_address net = a + size - 1.
Proof.
  intros Hnet a size.
  pose proof (ip_network_prefixlen s net Hnet) as Hp.
  assert (Ha : 0 <= a < 2 ^ 32
               /\ Z.land a (ipaddress.netmask net) = a).
  { unfold a. revert Hnet. unfold ipaddress.ip_network.
    destruct (Py.split "/" s) as [|addr [|mask [|]]]; try discriminate.
    - destruct (ipaddress.ip_int_from_string addr) as [x|] eqn:E; [|discriminate].
      intros H. apply Some_inj in H. subst net. simpl.
      apply ip_int_from_string_range in E. split; [exact E|].
      unfold ipaddress.netmask. simpl.
      change (ipaddress.ip_int_from_prefix ipaddress.max_prefixlen)
        with (Z.ones 32).
      rewrite Z.land_ones by lia. apply Z.mod_small. exact E.
    - destruct (ipaddress.ip_int_from_string addr) as [x|] eqn:E; [|discriminate].
      destruct (ipaddress.make_netmask mask) as [q|]; [|discriminate].
      destruct (Z.eqb_spec
                  (Z.land x (ipaddress.netmask (ipaddress.mkNetwork x q))) x)
        as [Hm|]; [|discriminate].
      intros H. apply Some_inj in H. subst net. simpl.
      apply ip_int_from_string_range in E. split; assumption. }
  destruct Ha as [Ha Hm].
  destruct (prefix_masks (ipaddress.prefixlen net) Hp) as [Hh Hz].
  set (h := 32 - ipaddress.prefixlen net) in *.
  assert (Hlow : a mod 2 ^ h = 0).
  { rewrite <- Z.land_ones by (unfold h; lia).
    rewrite <- Hm. unfold ipaddress.netmask.
    rewrite <- Z.land_assoc, Hz. apply Z.land_0_r. }
  assert (Hb : ipaddress.broadcast_address net = a + 2 ^ h - 1).
  { unfold ipaddress.broadcast_address, ipaddress.hostmask, ipaddress.netmask.
    fold a. rewrite Hh.
    pose proof (Z.add_lor_land a (Z.ones h)) as H.
    rewrite (Z.land_ones a h) in H by (unfold h; lia).
    rewrite Hlow in H. rewrite Z.ones_equiv in *. lia. }
  split; [exact Hp|]. split; [lia|]. split; [|exact Hb].
  unfold size. fold h.
  assert (Hpow : 2 ^ 32 = 2 ^ h * 2 ^ (32 - h)).
  { rewrite <- Z.pow_add_r by (unfold h; lia). f_equal. lia. }
  assert (Hh0 : 0 < 2 ^ h) by (apply Z.pow_pos_nonneg; unfold h; lia).
  apply Z.mod_divide in Hlow; [|lia]. destruct Hlow as [k Hk].
  rewrite Hpow in Ha |- *.
  revert Ha Hk Hh0. generalize (2 ^ h) as P, (2 ^ (32 - h)) as Q, a as x.
  clear. intros P Q x Hx Hk HP. subst x.
  assert (k < Q) by nia. nia.
Qed.

Lemma range_In (lo hi x : Z) : In x (ipaddress.range lo hi) <-> lo <= x < hi.
Proof.
  unfold ipaddress.range. rewrite in_map_iff. split.
  - intros (i & <- & Hi). apply in_seq in Hi. lia.
  - intros Hx. exists (Z.to_nat (x - lo)). split; [lia|]. apply in_seq. lia.
Qed.

Lemma range_length (lo hi : Z) :
  List.length (ipaddress.range lo hi) = Z.to_nat (hi - lo).
Proof. unfold ipaddress.range. now rewrite length_map, length_seq. Qed.

Lemma range_NoDup (lo hi : Z) : NoDup (ipaddress.range lo hi).
Proof.
  unfold ipaddress.range. generalize (Z.to_nat (hi - lo)) as k.
  generalize 0%nat as start.
  intros start k. revert start.
  induction k as [|k IH]; intros start; simpl; constructor.
  - intros Hin. apply in_map_iff in Hin as (i & Hi & Hin).
    apply in_seq in Hin. lia.
  - apply IH.
Qed.

Lemma str_NoDup (l : list Z) :
  NoDup l -> Forall (fun a => 0 <= a < 2 ^ 32) l -> NoDup (map ipaddress.str l).
Proof.
  induction 1 as [|a l Hnotin Hnd IH]; simpl; intros Hr; constructor;
    inversion Hr as [|? ? Ha Hr']; subst.
  - intros Hin. apply in_map_iff in Hin as (b & Hb & Hin).
    apply Hnotin. rewrite Forall_forall in Hr'.
    now rewrite <- (str_injective b a (Hr' b Hin) Ha Hb).
  - now apply IH.
Qed.

(** Up to /30: the hosts are the addresses strictly inside the block, and
    they, the network address and the broadcast address are pairwise
    distinct 32-bit addresses. *)
Lemma addresses_distinct (s : string) (net : ipaddress.IPv4Network) :
  ipaddress.ip_network s = Some net ->
  ipaddress.prefixlen net <= 30 ->
  List.length (ipaddress.hosts net)
  = Z.to_nat (2 ^ (32 - ipaddress.prefixlen net) - 2)
  /\ NoDup (map ipaddress.str
              (ipaddress.hosts net
               ++ [ipaddress.network_address net;
                   ipaddress.broadcast_address net])).
Proof.
  intros Hnet Hp.
  destruct (ip_network_block s net Hnet) as (Hp0 & Ha & Hsz & Hb).
  set (a := ipaddress.network_address net) in *.
  set (h := 32 - ipaddress.prefixlen net) in *.
  assert (Hsize : 4 <= 2 ^ h).
  { change 4 with (2 ^ 2). apply Z.pow_le_mono_r; unfold h; lia. }
  assert (Hhosts : ipaddress.hosts net
                   = ipaddress.range (a + 1) (a + 2 ^ h - 1)).
  { unfold ipaddress.hosts, ipaddress.max_prefixlen.
    destruct (Z.eqb_spec (ipaddress.prefixlen net) (32 - 1)); [lia|].
    destruct (Z.eqb_spec (ipaddress.prefixlen net) 32); [lia|].
    now rewrite Hb. }
  rewrite Hhosts, Hb. split.
  - rewrite range_length. f_equal. lia.
  - apply str_NoDup.
    + apply NoDup_app; [apply range_NoDup | |].
      * constructor; [simpl; lia | repeat constructor; simpl; tauto].
      * intros x Hx [<-|[<-|[]]]; apply range_In in Hx; lia.
    + apply Forall_app. split.
      * apply Forall_forall. intros x Hx. apply range_In in Hx. lia.
      * repeat constructor; lia.
Qed.

(** Up to /30, with the CIDR text and every address text of the block not
    yet in the database, [create_subnet] succeeds: it appends the subnet
    row, one free row per host, the network address and the broadcast
    address as reserved rows, and reports the size of the block (hosts
    plus 2). *)
Lemma create_subnet_fresh clk cidr d g n db net :
  ipaddress.ip_network cidr = Some net ->
  ipaddress.prefixlen net <= 30 ->
  select_subnet_id cidr db = None ->
  (forall a,
     In a (ipaddress.hosts net
           ++ [ipaddress.network_address net; ipaddress.broadcast_address net]) ->
     select_ip (ipaddress.str a) db = None) ->
  Z.of_nat (List.length (ipaddress.hosts net)) + 2
  = 2 ^ (32 - ipaddress.prefixlen net)
  /\ create_subnet clk cidr d g n db
     = ((true, SubnetCreated cidr (2 ^ (32 - ipaddress.prefixlen net))),
        append_rows clk (seq_subnets db + 1) (address_specs net)
          (with_new_subnet clk cidr d g n db)).
Proof.
  intros Hnet Hp Hsel Hfresh.
  destruct (addresses_distinct cidr net Hnet Hp) as [Hlen Hnd].
  destruct (ip_network_block cidr net Hnet) as (Hp0 & _).
  assert (Hsize : 4 <= 2 ^ (32 - ipaddress.prefixlen net)).
  { change 4 with (2 ^ 2). apply Z.pow_le_mono_r; lia. }
  assert (Htotal : Z.of_nat (List.length (ipaddress.hosts net)) + 2
                   = 2 ^ (32 - ipaddress.prefixlen net)) by lia.
  split; [exact Htotal|].
  rewrite (create_subnet_eq clk cidr d g n db net Hnet Hsel).
  rewrite insert_all_fresh.
  - now rewrite Htotal.
  - now rewrite address_specs_ips.
  - intros ip Hin. rewrite address_specs_ips in Hin.
    apply in_map_iff in Hin as (a & <- & Hin). now apply Hfresh.
Qed.

(** 10.0.0.0/8 on an empty database: 16777216 rows, without running the
    loop. *)
Example create_subnet_slash8 :
  let clk := mkClock "2024-01-01 00:00:00" "2024-01-01 08:00:00" in
  fst (create_subnet clk "10.0.0.0/8" "" "" "" empty_database)
  = (true, SubnetCreated "10.0.0.0/8" 16777216).
Proof.
  intros clk.
  assert (Hnet : ipaddress.ip_network "10.0.0.0/8"
                 = Some (ipaddress.mkNetwork 167772160 8))
    by (vm_compute; reflexivity).
  destruct (create_subnet_fresh clk "10.0.0.0/8" "" "" "" empty_database _ Hnet)
    as [_ ->]; [simpl; lia | reflexivity | reflexivity | reflexivity].
Qed.

(** A row set free by the address import keeps its allocation fields, so
    on such a row the round trip clears what was there before. *)
Example release_round_trip_after_import :
  let clk := mkClock "2024-01-01 00:00:00" "2024-01-01 08:00:00" in
  let db0 := snd (create_subnet clk "10.0.0.0/30" "" "" "" empty_database) in
  let db1 := snd (allocate_ip clk "10.0.0.2" "srv02" "" "" "" db0) in
  let db2 := snd (import_ips_from_csv clk [["10.0.0.2"; "free"]] None db1) in
  let db3 := snd (release_ip clk "10.0.0.2" ""
                    (snd (allocate_ip clk "10.0.0.2" "srv03" "" "" "" db2))) in
  option_map ip_tuple (select_ip "10.0.0.2" db2)
  = Some (mkIpTuple "10.0.0.2" free (Some "srv02") (Some "") (Some "")
            (Some "2024-01-01 08:00:00") (Some ""))
  /\ option_map ip_tuple (select_ip "10.0.0.2" db3)
     = Some (mkIpTuple "10.0.0.2" free None None None None (Some "")).
Proof. vm_compute. split; reflexivity. Qed.

(** The scenario of the specification: 192.168.1.10 of 192.168.1.0/24 is
    allocated to srv01; allocating it again is refused and changes
    nothing. *)
Lemma allocate_ip_outcomes_witness :
  let clk := mkClock "2024-01-01 00:00:00" "2024-01-01 08:00:00" in
  let db0 := snd (create_subnet clk "192.168.1.0/24" "" "" "" empty_database) in
  let db1 := snd (allocate_ip clk "192.168.1.10" "srv01" "" "" "" db0) in
  let r1 := Address.mk 10 "192.168.1.10" (Some 1) used (Some "srv01") (Some "")
              (Some "") (Some "2024-01-01 08:00:00") (Some "")
              "2024-01-01 00:00:00" in
  select_ip "192.168.1.10" db1 = Some r1
  /\ allocate_ip clk "192.168.1.10" "srv02" "" "" "" db1
     = ((false, IpCannotAllocate "192.168.1.10" used), db1)
  /\ error_kind (IpCannotAllocate "192.168.1.10" used)
     = Some InvalidTransitionError.
Proof.
  split; [vm_compute; reflexivity|].
  refine (proj1 (proj2 (allocate_ip_outcomes
                          (mkClock "2024-01-01 00:00:00" "2024-01-01 08:00:00")
                          _ "192.168.1.10" "srv02" "" "" ""))
            (Address.mk 10 "192.168.1.10" (Some 1) used (Some "srv01") (Some "")
               (Some "") (Some "2024-01-01 08:00:00") (Some "")
               "2024-01-01 00:00:00") _ _).
  - vm_compute; reflexivity.
  - simpl. discriminate.
Defined.

(** * Further properties *)

(** ** The schema constraints in every reachable state *)

Lemma same_inventory_refl db : same_inventory db db.
Proof. repeat split. Qed.

Lemma same_inventory_trans db1 db2 db3 :
  same_inventory db1 db2 -> same_inventory db2 db3 -> same_inventory db1 db3.
Proof. unfold same_inventory. intuition congruence. Qed.

Lemma row_key_ips (l l' : list Address.row) :
  map row_key l' = map row_key l ->
  map Address.ip_address l' = map Address.ip_address l.
Proof.
  intros H. apply (f_equal (map fst)) in H. now rewrite !map_map in H.
Qed.

Lemma owned_by_key (db db' : Database) (l l' : list Address.row) :
  subnets db' = subnets db ->
  map row_key l' = map row_key l ->
  Forall (owned db) l -> Forall (owned db') l'.
Proof.
  intros Hs Hk Hl. apply Forall_forall. intros r Hin.
  apply (in_map row_key) in Hin. rewrite Hk in Hin.
  apply in_map_iff in Hin as (r0 & Hkey & Hin0).
  rewrite Forall_forall in Hl. destruct (Hl r0 Hin0) as (s & Hs0 & Hid).
  exists s. rewrite Hs. split; [exact Hs0|].
  unfold row_key in Hkey. congruence.
Qed.

Lemma well_formed_same_inventory db db' :
  same_inventory db db' -> well_formed db -> well_formed db'.
Proof.
  intros (Hs & Hq & _ & Hk) (Hu & Hc & Hi & Hle & Ho).
  unfold well_formed, unique_ips. rewrite Hs, Hq, (row_key_ips _ _ Hk).
  repeat split; try assumption.
  now apply (owned_by_key db db' (ip_addresses db)).
Qed.

Lemma update_ip_inventory ip set db :
  (forall r, row_key (set r) = row_key r) ->
  same_inventory db (update_ip ip set db).
Proof.
  intros Hset. repeat split. unfold update_ip; simpl.
  rewrite map_map. apply map_ext. intros r. now destruct (has_ip ip r).
Qed.

Lemma transition_inventory clk ip a o n by_ notes set db :
  (forall r, row_key (set r) = row_key r) ->
  subnets (insert_history clk ip a o n by_ notes (update_ip ip set db))
  = subnets db
  /\ seq_subnets (insert_history clk ip a o n by_ notes (update_ip ip set db))
     = seq_subnets db
  /\ map row_key
       (ip_addresses (insert_history clk ip a o n by_ notes (update_ip ip set db)))
     = map row_key (ip_addresses db).
Proof.
  intros Hset. destruct (update_ip_inventory ip set db Hset) as (H1 & H2 & _ & H4).
  repeat split; assumption.
Qed.

Lemma well_formed_transition clk ip a o n by_ notes set db :
  (forall r, row_key (set r) = row_key r) ->
  well_formed db ->
  well_formed (insert_history clk ip a o n by_ notes (update_ip ip set db)).
Proof.
  intros Hset (Hu & Hc & Hi & Hle & Ho).
  destruct (transition_inventory clk ip a o n by_ notes set db Hset)
    as (Hs & Hq & Hk).
  unfold well_formed, unique_ips. rewrite Hs, Hq, (row_key_ips _ _ Hk).
  repeat split; try assumption.
  now apply (owned_by_key db _ (ip_addresses db)).
Qed.

Lemma import_ips_row_inventory clk row acc c :
  exists acc' db',
    import_ips_row clk row acc c = (Value acc', mkConnection (committed c) db')
    /\ same_inventory (pending c) db'.
Proof.
  destruct acc as [cnt errs]. unfold import_ips_row.
  destruct (2 <=? List.length row)%nat.
  - unfold bind at 1. unfold query.
    destruct (select_ip (column row 0) (pending c)) as [r|].
    + destruct (_ && _).
      * eexists _, _. split; [reflexivity|]. now apply update_ip_inventory.
      * eexists _, _. split; [reflexivity|]. now apply update_ip_inventory.
    + eexists _, (pending c). unfold ret.
      split; [destruct c; reflexivity | apply same_inventory_refl].
  - eexists _, (pending c). unfold ret.
    split; [destruct c; reflexivity | apply same_inventory_refl].
Qed.

Lemma import_ips_loop_inventory clk csv acc c :
  exists acc' db',
    for_each csv (import_ips_row clk) acc c
    = (Value acc', mkConnection (committed c) db')
    /\ same_inventory (pending c) db'.
Proof.
  revert acc c. induction csv as [|row csv IH]; intros acc c; simpl.
  - eexists _, (pending c). unfold ret.
    split; [destruct c; reflexivity | apply same_inventory_refl].
  - unfold bind.
    destruct (import_ips_row_inventory clk row acc c) as (acc1 & db1 & -> & H1).
    destruct (IH acc1 (mkConnection (committed c) db1)) as (acc2 & db2 & -> & H2).
    eexists _, _. split; [reflexivity|]. simpl in H2.
    eapply same_inventory_trans; eassumption.
Qed.

Lemma import_ips_inventory clk csv sc db :
  same_inventory db (snd (import_ips_from_csv clk csv sc db)).
Proof.
  unfold import_ips_from_csv, call, import_ips_from_csv_body.
  unfold bind at 1.
  destruct (import_ips_loop_inventory clk csv (0, []) (get_connection db))
    as (acc & db' & -> & H).
  exact H.
Qed.

Lemma NoDup_snoc {A} (l : list A) (x : A) :
  NoDup l -> ~ In x l -> NoDup (l ++ [x]).
Proof.
  intros Hl Hx. apply NoDup_app; [exact Hl | repeat constructor; simpl; tauto |].
  intros a Ha [<-|[]]. contradiction.
Qed.

Lemma select_subnet_id_absent cidr db :
  select_subnet_id cidr db = None ->
  ~ In cidr (map Subnet.subnet_cidr (subnets db)).
Proof.
  intros Hnone Hin. apply existsb_has_cidr in Hnone.
  apply in_map_iff in Hin as (s & Hs & Hin).
  assert (H : existsb (has_cidr cidr) (subnets db) = true).
  { apply existsb_exists. exists s. split; [exact Hin|].
    unfold has_cidr. rewrite Hs. apply String.eqb_refl. }
  congruence.
Qed.

Lemma new_rows_owner clk sid start specs r :
  In r (new_rows clk sid start specs) -> Address.subnet_id r = Some sid.
Proof.
  revert start. induction specs as [|[[ip st] notes] rest IH]; intros start;
    simpl; [tauto|].
  intros [<-|Hin]; [reflexivity | eauto].
Qed.

(** What a successful [create_subnet] commits. *)
Lemma create_subnet_committed clk cidr d g n db msg db' :
  create_subnet clk cidr d g n db = ((true, msg), db') ->
  exists net,
    ipaddress.ip_network cidr = Some net
    /\ select_subnet_id cidr db = None
    /\ NoDup (map spec_ip (address_specs net))
    /\ (forall ip, In ip (map spec_ip (address_specs net)) ->
        select_ip ip db = None)
    /\ db' = append_rows clk (seq_subnets db + 1) (address_specs net)
               (with_new_subnet clk cidr d g n db).
Proof.
  intros H.
  destruct (create_subnet_cases clk cidr d g n db)
    as [[_ E]|[(net & sid & _ & _ & E)|(net & Hn & Hs & [(db2 & Ei & E)|E])]];
    rewrite E in H; try discriminate.
  exists net. apply insert_all_value in Ei as (Hnd & Habs & Hdb).
  repeat split; try assumption. congruence.
Qed.

Lemma create_subnet_well_formed clk cidr d g n db :
  well_formed db -> well_formed (snd (create_subnet clk cidr d g n db)).
Proof.
  intros Hwf.
  destruct (create_subnet clk cidr d g n db) as [[[|] msg] db'] eqn:E.
  - pose proof (create_subnet_unique clk cidr d g n db (proj1 Hwf)) as Hu'.
    rewrite E in Hu'. simpl in Hu' |- *.
    apply create_subnet_committed in E as (net & _ & Hsel & _ & _ & ->).
    destruct Hwf as (Hu & Hc & Hi & Hle & Ho).
    rewrite Forall_forall in Hle, Ho.
    split; [exact Hu'|]. unfold append_rows, with_new_subnet; simpl.
    split; [|split; [|split]].
    + rewrite map_app. apply NoDup_snoc; [exact Hc|].
      now apply select_subnet_id_absent.
    + rewrite map_app. apply NoDup_snoc; [exact Hi|]. simpl.
      intros Hin. apply in_map_iff in Hin as (s & Hs & Hin).
      apply Hle in Hin. lia.
    + apply Forall_app. split.
      * apply Forall_forall. intros s Hin. apply Hle in Hin. lia.
      * repeat constructor. simpl. lia.
    + apply Forall_app. split.
      * apply Forall_forall. intros r Hin.
        destruct (Ho r Hin) as (s & Hs & Hid).
        exists s. split; [simpl; apply in_or_app; now left | exact Hid].
      * apply Forall_forall. intros r Hin. apply new_rows_owner in Hin.
        eexists. split; [simpl; apply in_or_app; right; now left|].
        exact Hin.
  - pose proof (create_subnet_failed_unchanged clk cidr d g n db) as H.
    rewrite E in H. simpl in *. now rewrite H.
Qed.

(** What [delete_subnet] commits. *)
Lemma delete_subnet_cases cidr db :
  (select_subnet_id cidr db = None
   /\ delete_subnet cidr db = ((false, SubnetNotExist), db))
  \/ exists sid,
       select_subnet_id cidr db = Some sid
       /\ delete_subnet cidr db
          = ((true, SubnetDeleted cidr),
             delete_subnet_row sid (delete_ips_of_subnet sid db)).
Proof.
  unfold delete_subnet, call, delete_subnet_body, bind, query, get_connection.
  cbn [pending].
  destruct (select_subnet_id cidr db) as [sid|]; [right | now left].
  exists sid. split; reflexivity.
Qed.

(** Deleting rows keeps a column free of duplicates. *)
Lemma NoDup_map_filter {Row Key : Type} (keep : Row -> bool) (column : Row -> Key)
    (rows : list Row) (Hkeys : NoDup (map column rows)) :
  NoDup (map column (filter keep rows)).
Proof.
  induction rows as [|a rows IH]; simpl; [constructor|].
  inversion Hkeys as [|x xs Hnotin Hnd']; subst.
  destruct (keep a); simpl; [|auto].
  constructor; [|auto].
  intros Hin. apply Hnotin. apply in_map_iff in Hin as (r & Hr & Hin).
  apply filter_In in Hin as [Hin _]. rewrite <- Hr. now apply in_map.
Qed.

Lemma delete_subnet_well_formed cidr db :
  well_formed db -> well_formed (snd (delete_subnet cidr db)).
Proof.
  intros Hwf.
  destruct (delete_subnet_cases cidr db) as [[_ ->]|(sid & _ & ->)];
    [exact Hwf|].
  destruct Hwf as (Hu & Hc & Hi & Hle & Ho).
  unfold well_formed, unique_ips, delete_subnet_row, delete_ips_of_subnet; simpl.
  split; [now apply NoDup_map_filter|].
  split; [now apply NoDup_map_filter|].
  split; [now apply NoDup_map_filter|].
  split.
  - apply Forall_forall. intros s Hin. apply filter_In in Hin as [Hin _].
    rewrite Forall_forall in Hle. now apply Hle.
  - apply Forall_forall. intros r Hin. apply filter_In in Hin as [Hin Hkeep].
    rewrite Forall_forall in Ho. destruct (Ho r Hin) as (s & Hs & Hid).
    exists s. split; [|exact Hid]. simpl. apply filter_In. split; [exact Hs|].
    rewrite Hid in Hkeep. exact Hkeep.
Qed.

Lemma run_well_formed clk op db : well_formed db -> well_formed (run clk op db).
Proof.
  intros Hwf.
  destruct op as [cidr d g n|cidr|x to mac dev notes|x notes|x notes
                 |sel to mac dev notes|csv|csv sc]; cbn [run].
  - now apply create_subnet_well_formed.
  - now apply delete_subnet_well_formed.
  - destruct (allocate_ip_cases clk x to mac dev notes db)
      as [->|(r1 & _ & _ & ->)]; [exact Hwf|].
    now apply well_formed_transition.
  - destruct (release_ip_cases clk x notes db) as [[_ ->]|(r1 & _ & ->)];
      [exact Hwf|].
    now apply well_formed_transition.
  - rewrite reserve_ip_run. now apply well_formed_transition.
  - unfold bulk_allocate.
    change db with (snd (0, @nil (string * Message), db)) in Hwf.
    revert Hwf. generalize (0, @nil (string * Message), db).
    induction sel as [|y sel IH]; intros acc Hwf; simpl; [exact Hwf|].
    apply IH. rewrite bulk_item_db.
    destruct (allocate_ip_cases clk y to mac dev notes (snd acc))
      as [->|(r1 & _ & _ & ->)]; [exact Hwf|].
    now apply well_formed_transition.
  - unfold import_subnet_from_csv.
    change db with (snd (0, @nil Message, db)) in Hwf.
    revert Hwf. generalize (0, @nil Message, db).
    induction csv as [|row csv IH]; intros acc Hwf; simpl; [exact Hwf|].
    apply IH. destruct acc as [[cnt errs] db0]. unfold import_subnet_row.
    destruct (1 <=? List.length row)%nat; [|exact Hwf].
    pose proof (create_subnet_well_formed clk (column row 0) (column row 1)
                  (column row 2) (column row 3) db0 Hwf) as H.
    now destruct (create_subnet clk (column row 0) (column row 1)
                    (column row 2) (column row 3) db0) as [[[|] m] db1].
  - eapply well_formed_same_inventory; [apply import_ips_inventory | exact Hwf].
Qed.

Lemma empty_well_formed : well_formed empty_database.
Proof. repeat split; constructor. Qed.

(** X1.  Every database the calls can produce from an empty one satisfies
    the constraints of the schema: no two address rows share an address
    text, no two subnets share a CIDR text or an id, and every address row
    belongs to a stored subnet (deleting a subnet leaves no orphan
    address row behind). *)
Theorem reachable_well_formed (db : Database) :
  reachable db ->
  NoDup (map Address.ip_address (ip_addresses db))
  /\ NoDup (map Subnet.subnet_cidr (subnets db))
  /\ NoDup (map Subnet.id (subnets db))
  /\ (forall r, In r (ip_addresses db) ->
      exists s, In s (subnets db) /\ Address.subnet_id r = Some (Subnet.id s)).
Proof.
  intros Hr.
  assert (Hwf : well_formed db).
  { induction Hr as [|clk op db _ IH];
      [apply empty_well_formed | now apply run_well_formed]. }
  destruct Hwf as (Hu & Hc & Hi & _ & Ho).
  repeat split; try assumption.
  intros r Hin. rewrite Forall_forall in Ho. now apply Ho.
Qed.

(** After creating 10.0.0.0/30, allocating a host of it and deleting the
    subnet again. *)
Lemma reachable_well_formed_witness :
  let clk := mkClock "2024-01-01 00:00:00" "2024-01-01 08:00:00" in
  let db := run clk (DeleteSubnet "10.0.0.0/30")
              (run clk (AllocateIp "10.0.0.1" "srv01" "" "" "")
                 (run clk (CreateSubnet "10.0.0.0/30" "" "" "")
                    empty_database)) in
  NoDup (map Address.ip_address (ip_addresses db))
  /\ NoDup (map Subnet.subnet_cidr (subnets db))
  /\ NoDup (map Subnet.id (subnets db))
  /\ (forall r, In r (ip_addresses db) ->
      exists s, In s (subnets db) /\ Address.subnet_id r = Some (Subnet.id s)).
Proof.
  apply reachable_well_formed.
  repeat apply reachable_run. apply reachable_empty.
Defined.

(** ** [delete_subnet] *)

Lemma find_none_filter {A} (p q : A -> bool) (l : list A) :
  (forall x, In x l -> p x = true -> q x = false) ->
  find p (filter q l) = None.
Proof.
  intros H. induction l as [|a l IH]; simpl; [reflexivity|].
  destruct (q a) eqn:Eq; simpl.
  - destruct (p a) eqn:Ep.
    + rewrite (H a (or_introl eq_refl) Ep) in Eq. discriminate.
    + apply IH. intros x Hx. apply H. now right.
  - apply IH. intros x Hx. apply H. now right.
Qed.

(** Under the UNIQUE constraint on [subnet_cidr], the row found for a CIDR
    text is the only one with that text. *)
Lemma unique_cidr_id cidr db sid s :
  NoDup (map Subnet.subnet_cidr (subnets db)) ->
  select_subnet_id cidr db = Some sid ->
  In s (subnets db) -> Subnet.subnet_cidr s = cidr -> Subnet.id s = sid.
Proof.
  unfold select_subnet_id. induction (subnets db) as [|a l IH]; simpl; [tauto|].
  intros Hnd Hsel Hin Hc. inversion Hnd as [|x xs Hnotin Hnd']; subst.
  destruct (has_cidr (Subnet.subnet_cidr s) a) eqn:E.
  - simpl in Hsel. apply Some_inj in Hsel.
    destruct Hin as [->|Hin]; [exact Hsel|].
    exfalso. apply Hnotin. unfold has_cidr in E. apply String.eqb_eq in E.
    rewrite E. now apply in_map.
  - destruct Hin as [->|Hin]; [|now apply IH].
    unfold has_cidr in E. now rewrite String.eqb_refl in E.
Qed.

(** X2.  [delete_subnet] on an unknown CIDR text returns the not-found
    message and changes nothing.  On a known one it succeeds and removes
    exactly the address rows whose [subnet_id] is the id of that subnet
    and the subnet row itself; every other row and the whole history are
    kept.  When CIDR texts are unique, the text is unknown afterwards and
    no statistics entry carries it. *)
Theorem delete_subnet_outcomes (cidr : string) (db : Database) :
  (select_subnet_id cidr db = None ->
   delete_subnet cidr db = ((false, SubnetNotExist), db)
   /\ error_kind SubnetNotExist = Some NotFoundError)
  /\ (forall sid, select_subnet_id cidr db = Some sid ->
      exists db',
        delete_subnet cidr db = ((true, SubnetDeleted cidr), db')
        /\ (forall r, In r (ip_addresses db')
                      <-> In r (ip_addresses db)
                          /\ Address.subnet_id r <> Some sid)
        /\ (forall s, In s (subnets db')
                      <-> In s (subnets db) /\ Subnet.id s <> sid)
        /\ ip_history db' = ip_history db
        /\ (NoDup (map Subnet.subnet_cidr (subnets db)) ->
            select_subnet_id cidr db' = None
            /\ forall e, In e (get_subnets_with_stats db') ->
                         st_subnet_cidr e <> cidr)).
Proof.
  split.
  - intros Hnone.
    destruct (delete_subnet_cases cidr db) as [[_ E]|(sid & Hs & _)];
      [now rewrite E | congruence].
  - intros sid Hsel.
    destruct (delete_subnet_cases cidr db) as [[Hn _]|(sid' & Hs & E)];
      [congruence|].
    assert (sid' = sid) by congruence. subst sid'.
    eexists. split; [exact E|].
    unfold delete_subnet_row, delete_ips_of_subnet; simpl.
    split; [|split; [|split; [reflexivity|]]].
    + intros r. rewrite filter_In. split; intros [Hin Hk]; (split; [exact Hin|]).
      * destruct (Address.subnet_id r) as [i|]; [|discriminate].
        apply negb_true_iff in Hk. apply Z.eqb_neq in Hk. congruence.
      * destruct (Address.subnet_id r) as [i|]; [|reflexivity].
        apply negb_true_iff. apply Z.eqb_neq. congruence.
    + intros s. rewrite filter_In. split; intros [Hin Hk]; (split; [exact Hin|]).
      * apply negb_true_iff in Hk. now apply Z.eqb_neq in Hk.
      * apply negb_true_iff. now apply Z.eqb_neq.
    + intros Hnd.
      assert (Hgone : forall s, In s (subnets db) ->
                has_cidr cidr s = true -> negb (Subnet.id s =? sid) = false).
      { intros s Hin Hc. unfold has_cidr in Hc. apply String.eqb_eq in Hc.
        rewrite (unique_cidr_id cidr db sid s Hnd Hsel Hin Hc).
        now rewrite Z.eqb_refl. }
      split.
      * unfold select_subnet_id; simpl.
        now rewrite find_none_filter.
      * intros e He Hc. unfold get_subnets_with_stats in He.
        apply in_map_iff in He as (s & <- & Hs').
        apply (Permutation_in _
                 (Permutation_sym (sort_perm Py.str_leb Subnet.subnet_cidr _)))
          in Hs'.
        simpl in Hs'. apply filter_In in Hs' as [Hin Hk].
        unfold subnet_stats in Hc. simpl in Hc.
        assert (Hh : has_cidr cidr s = true)
          by (unfold has_cidr; rewrite Hc; apply String.eqb_refl).
        rewrite (Hgone s Hin Hh) in Hk. discriminate.
Qed.

(** Deleting 192.168.1.0/24 after an allocation in it: the 256 address
    rows are gone, the history row of the allocation is still there. *)
Lemma delete_subnet_outcomes_witness :
  let clk := mkClock "2024-01-01 00:00:00" "2024-01-01 08:00:00" in
  let db := snd (allocate_ip clk "192.168.1.10" "srv01" "" "" ""
                   (snd (create_subnet clk "192.168.1.0/24" "" "" ""
                           empty_database))) in
  exists db',
    delete_subnet "192.168.1.0/24" db
    = ((true, SubnetDeleted "192.168.1.0/24"), db')
    /\ (forall r, In r (ip_addresses db')
                  <-> In r (ip_addresses db) /\ Address.subnet_id r <> Some 1)
    /\ (forall s, In s (subnets db') <-> In s (subnets db) /\ Subnet.id s <> 1)
    /\ ip_history db' = ip_history db
    /\ (NoDup (map Subnet.subnet_cidr (subnets db)) ->
        select_subnet_id "192.168.1.0/24" db' = None
        /\ forall e, In e (get_subnets_with_stats db') ->
                     st_subnet_cidr e <> "192.168.1.0/24").
Proof.
  apply (proj2 (delete_subnet_outcomes "192.168.1.0/24" _) 1).
  vm_compute. reflexivity.
Defined.

Lemma filter_all {A} (p : A -> bool) (l : list A) :
  (forall x, In x l -> p x = true) -> filter p l = l.
Proof.
  induction l as [|a l IH]; simpl; intros H; [reflexivity|].
  rewrite (H a (or_introl eq_refl)). f_equal. apply IH. intros x Hx.
  apply H. now right.
Qed.

Lemma filter_none {A} (p : A -> bool) (l : list A) :
  (forall x, In x l -> p x = false) -> filter p l = [].
Proof.
  induction l as [|a l IH]; simpl; intros H; [reflexivity|].
  rewrite (H a (or_introl eq_refl)). apply IH. intros x Hx. apply H. now right.
Qed.

Lemma find_app_None {A} (p : A -> bool) (l l' : list A) :
  find p l = None -> find p (l ++ l') = find p l'.
Proof.
  induction l as [|a l IH]; simpl; [reflexivity|].
  destruct (p a); [discriminate | exact IH].
Qed.

(** X3.  Round trip.  On a database that satisfies the schema constraints,
    a subnet that [create_subnet] has just created is deleted again by
    [delete_subnet], and the subnets, the address rows and the history are
    then exactly those before the creation; only the id counters have
    moved on. *)
Theorem create_then_delete (clk : Clock) (cidr d g n : string)
    (db db1 : Database) (msg : Message) :
  well_formed db ->
  create_subnet clk cidr d g n db = ((true, msg), db1) ->
  exists db2,
    delete_subnet cidr db1 = ((true, SubnetDeleted cidr), db2)
    /\ subnets db2 = subnets db
    /\ ip_addresses db2 = ip_addresses db
    /\ ip_history db2 = ip_history db
    /\ seq_subnets db2 = seq_subnets db + 1.
Proof.
  intros (Hu & Hc & Hi & Hle & Ho) Hcreate.
  apply create_subnet_committed in Hcreate as (net & _ & Hsel & _ & _ & ->).
  rewrite Forall_forall in Hle, Ho.
  set (sid := seq_subnets db + 1).
  assert (Hfound : select_subnet_id cidr
                     (append_rows clk sid (address_specs net)
                        (with_new_subnet clk cidr d g n db)) = Some sid).
  { unfold select_subnet_id, append_rows, with_new_subnet in *; simpl.
    destruct (find (has_cidr cidr) (subnets db)) eqn:E; [discriminate|].
    rewrite find_app_None by exact E. simpl. unfold has_cidr; simpl.
    now rewrite String.eqb_refl. }
  destruct (delete_subnet_cases cidr
              (append_rows clk sid (address_specs net)
                 (with_new_subnet clk cidr d g n db)))
    as [[Hn _]|(sid' & Hs & ->)]; [congruence|].
  assert (sid' = sid) by congruence. subst sid'.
  eexists. split; [reflexivity|].
  unfold delete_subnet_row, delete_ips_of_subnet, append_rows, with_new_subnet;
    simpl.
  split; [|split; [|split; reflexivity]].
  - rewrite filter_app. simpl. rewrite Z.eqb_refl. simpl.
    rewrite app_nil_r. apply filter_all. intros s Hin.
    apply negb_true_iff. apply Z.eqb_neq. apply Hle in Hin. unfold sid. lia.
  - rewrite filter_app.
    rewrite (filter_none _ (new_rows _ _ _ _)).
    + rewrite app_nil_r. apply filter_all. intros r Hin.
      destruct (Ho r Hin) as (s & Hs' & Hid). rewrite Hid.
      apply negb_true_iff. apply Z.eqb_neq. apply Hle in Hs'. unfold sid. lia.
    + intros r Hin. apply new_rows_owner in Hin. rewrite Hin.
      now rewrite Z.eqb_refl.
Qed.

(** 10.0.1.0/24 created next to 10.0.0.0/30 and deleted again. *)
Lemma create_then_delete_witness :
  let clk := mkClock "2024-01-01 00:00:00" "2024-01-01 08:00:00" in
  let db := snd (create_subnet clk "10.0.0.0/30" "" "" "" empty_database) in
  let db1 := snd (create_subnet clk "10.0.1.0/24" "lab" "" "" db) in
  exists db2,
    delete_subnet "10.0.1.0/24" db1
    = ((true, SubnetDeleted "10.0.1.0/24"), db2)
    /\ subnets db2 = subnets db
    /\ ip_addresses db2 = ip_addresses db
    /\ ip_history db2 = ip_history db
    /\ seq_subnets db2 = seq_subnets db + 1.
Proof.
  refine (create_then_delete
            (mkClock "2024-01-01 00:00:00" "2024-01-01 08:00:00")
            "10.0.1.0/24" "lab" "" "" _ _ (SubnetCreated "10.0.1.0/24" 256)
            _ _).
  - apply (run_well_formed
             (mkClock "2024-01-01 00:00:00" "2024-01-01 08:00:00")
             (CreateSubnet "10.0.0.0/30" "" "" "") empty_database).
    apply empty_well_formed.
  - vm_compute. reflexivity.
Defined.

(** ** The history ledger *)





(** A session that ends with the deletion of the subnet: the two history
    rows written before are still there. *)
Example history_survives_delete :
  let clk := mkClock "2024-01-01 00:00:00" "2024-01-01 08:00:00" in
  map (fun h => (History.ip_address h, History.action h))
    (ip_history
       (run_all [(clk, CreateSubnet "10.0.0.0/30" "" "" "");
                 (clk, AllocateIp "10.0.0.1" "srv01" "" "" "");
                 (clk, ReserveIp "10.0.0.2" "backup");
                 (clk, DeleteSubnet "10.0.0.0/30")]
          empty_database))
  = [("10.0.0.1", allocate); ("10.0.0.2", reserve)].
Proof. vm_compute. reflexivity. Qed.

(** ** [create_subnet], in general *)

Lemma get_statistics_counts (db : Database) :
  total (get_statistics db) = Z.of_nat (List.length (ip_addresses db))
  /\ g_used (get_statistics db) = count_status used (ip_addresses db)
  /\ g_free (get_statistics db) = count_status free (ip_addresses db)
  /\ g_reserved (get_statistics db) = count_status reserved (ip_addresses db).
Proof.
  unfold get_statistics. cbn zeta. cbn [total g_used g_free g_reserved].
  rewrite !or_zero_sum_case, length_map.
  repeat split.
  destruct (Z.eqb_spec (Z.of_nat (List.length (ip_addresses db))) 0) as [E|E];
    simpl; congruence.
Qed.

Lemma count_status_app st l l' :
  count_status st (l ++ l') = count_status st l + count_status st l'.
Proof.
  unfold count_status. rewrite filter_app, length_app. lia.
Qed.

Lemma count_status_new_rows clk sid start st specs :
  count_status st (new_rows clk sid start specs)
  = Z.of_nat (List.length
                (filter (fun x : row_spec => Status_eqb (snd (fst x)) st) specs)).
Proof.
  unfold count_status. f_equal. revert start.
  induction specs as [|[[ip s] notes] rest IH]; intros start; simpl;
    [reflexivity|].
  destruct (Status_eqb s st); simpl; now rewrite IH.
Qed.

Lemma host_specs_status st hosts :
  List.length (filter (fun x : row_spec => Status_eqb (snd (fst x)) st)
                 (host_specs hosts))
  = if Status_eqb free st then List.length hosts else 0%nat.
Proof.
  unfold host_specs.
  destruct st; induction hosts as [|a l IH]; simpl; auto.
Qed.

Lemma new_rows_length clk sid start specs :
  List.length (new_rows clk sid start specs) = List.length specs.
Proof.
  revert start. induction specs as [|[[ip s] notes] rest IH]; intros start;
    simpl; [reflexivity | now rewrite IH].
Qed.

(** X5.  For a text that [ip_network] accepts as an IPv4 network,
    [create_subnet] succeeds exactly when the prefix has at most 30 bits,
    the CIDR text is not stored yet and no address of the block (hosts,
    network address, broadcast address) is in the inventory yet.  When it
    succeeds it reports the size of the block, 2^(32-prefix), and the
    global statistics grow by that many rows: all free but two reserved
    ones. *)
Theorem create_subnet_succeeds_iff (clk : Clock) (cidr d g n : string)
    (db : Database) (net : ipaddress.IPv4Network) :
  ipaddress.ip_network cidr = Some net ->
  (fst (fst (create_subnet clk cidr d g n db)) = true
   <-> ipaddress.prefixlen net <= 30
       /\ select_subnet_id cidr db = None
       /\ forall a,
            In a (ipaddress.hosts net
                  ++ [ipaddress.network_address net;
                      ipaddress.broadcast_address net]) ->
            select_ip (ipaddress.str a) db = None)
  /\ (fst (fst (create_subnet clk cidr d g n db)) = true ->
      let size := 2 ^ (32 - ipaddress.prefixlen net) in
      let before := get_statistics db in
      let after := get_statistics (snd (create_subnet clk cidr d g n db)) in
      snd (fst (create_subnet clk cidr d g n db)) = SubnetCreated cidr size
      /\ total after = total before + size
      /\ g_free after = g_free before + size - 2
      /\ g_reserved after = g_reserved before + 2
      /\ g_used after = g_used before).
Proof.
  intros Hnet.
  assert (Hforward : fst (fst (create_subnet clk cidr d g n db)) = true ->
            ipaddress.prefixlen net <= 30
            /\ select_subnet_id cidr db = None
            /\ forall a,
                 In a (ipaddress.hosts net
                       ++ [ipaddress.network_address net;
                           ipaddress.broadcast_address net]) ->
                 select_ip (ipaddress.str a) db = None).
  { intros Hok.
    destruct (create_subnet clk cidr d g n db) as [[b msg] db'] eqn:E.
    simpl in Hok. subst b.
    pose proof E as E'.
    apply create_subnet_created in E as (net' & Hn & Hp & _).
    apply create_subnet_committed in E' as (net'' & Hn' & Hsel & _ & Habs & _).
    assert (net' = net) by congruence. assert (net'' = net) by congruence.
    subst. split; [lia|]. split; [exact Hsel|].
    intros a Ha. apply Habs. rewrite address_specs_ips. now apply in_map. }
  split; [split; [exact Hforward|]|].
  - intros (Hp & Hsel & Hfresh).
    destruct (create_subnet_fresh clk cidr d g n db net Hnet Hp Hsel Hfresh)
      as [_ ->]. reflexivity.
  - intros Hok. destruct (Hforward Hok) as (Hp & Hsel & Hfresh).
    destruct (create_subnet_fresh clk cidr d g n db net Hnet Hp Hsel Hfresh)
      as [Hsize ->].
    cbn zeta. cbn [fst snd].
    destruct (get_statistics_counts db) as (Ht & Hu & Hf & Hr).
    destruct (get_statistics_counts
                (append_rows clk (seq_subnets db + 1) (address_specs net)
                   (with_new_subnet clk cidr d g n db)))
      as (Ht' & Hu' & Hf' & Hr').
    rewrite Ht, Hu, Hf, Hr, Ht', Hu', Hf', Hr'.
    unfold append_rows. cbn [ip_addresses with_ip_addresses with_new_subnet
      with_subnets].
    rewrite length_app, new_rows_length, !count_status_app,
      !count_status_new_rows.
    unfold address_specs. rewrite !filter_app, !length_app, !host_specs_status.
    unfold host_specs. rewrite length_map.
    cbn [filter fst snd Status_eqb List.length].
    repeat split; lia.
Qed.

(** 172.16.0.0/12 next to 10.0.0.0/30: 1048576 rows, decided without
    running the loop. *)
Lemma create_subnet_succeeds_iff_witness :
  let clk := mkClock "2024-01-01 00:00:00" "2024-01-01 08:00:00" in
  let db := snd (create_subnet clk "10.0.0.0/30" "" "" "" empty_database) in
  let net := ipaddress.mkNetwork 2886729728 12 in
  (fst (fst (create_subnet clk "172.16.0.0/12" "" "" "" db)) = true
   <-> 12 <= 30
       /\ select_subnet_id "172.16.0.0/12" db = None
       /\ forall a,
            In a (ipaddress.hosts net
                  ++ [ipaddress.network_address net;
                      ipaddress.broadcast_address net]) ->
            select_ip (ipaddress.str a) db = None).
Proof.
  exact (proj1 (create_subnet_succeeds_iff
                  (mkClock "2024-01-01 00:00:00" "2024-01-01 08:00:00")
                  "172.16.0.0/12" "" "" ""
                  (snd (create_subnet
                          (mkClock "2024-01-01 00:00:00" "2024-01-01 08:00:00")
                          "10.0.0.0/30" "" "" "" empty_database))
                  (ipaddress.mkNetwork 2886729728 12) eq_refl)).
Defined.

(** ** Counting *)

Lemma count_partition (rows : list Address.row) :
  count_status used rows + count_status free rows + count_status reserved rows
  = Z.of_nat (List.length rows).
Proof.
  unfold count_status. induction rows as [|r rows IH]; [reflexivity|].
  cbn [filter List.length].
  destruct (Address.status r); cbn [Status_eqb List.length]; lia.
Qed.

Lemma count_status_nonneg st rows : 0 <= count_status st rows.
Proof. unfold count_status. lia. Qed.

(** X6.  In the global statistics, in every entry of
    [get_subnets_with_stats] and in [get_subnet_details], the three status
    counts are non-negative and add up to the total: every address row is
    counted under exactly one status. *)
Theorem statistics_partition (db : Database) :
  (let g := get_statistics db in
   total g = g_used g + g_free g + g_reserved g
   /\ 0 <= g_used g /\ 0 <= g_free g /\ 0 <= g_reserved g)
  /\ (forall e, In e (get_subnets_with_stats db) ->
      total_ips e = used_ips e + free_ips e + reserved_ips e
      /\ 0 <= used_ips e /\ 0 <= free_ips e /\ 0 <= reserved_ips e)
  /\ (forall cidr e, get_subnet_details db cidr = Some e ->
      total_ips e = used_ips e + free_ips e + reserved_ips e
      /\ 0 <= used_ips e /\ 0 <= free_ips e /\ 0 <= reserved_ips e).
Proof.
  assert (Hs : forall b s,
            let e := subnet_stats db b s in
            total_ips e = used_ips e + free_ips e + reserved_ips e
            /\ 0 <= used_ips e /\ 0 <= free_ips e /\ 0 <= reserved_ips e).
  { intros b s e.
    destruct (subnet_stats_spec db b s) as (_ & Ht & Hu & Hf & Hr & _).
    fold e in Ht, Hu, Hf, Hr. rewrite Ht, Hu, Hf, Hr.
    pose proof (count_partition (rows_of_subnet db (Subnet.id s))).
    repeat split; try apply count_status_nonneg. lia. }
  split; [|split].
  - cbn zeta. destruct (get_statistics_counts db) as (Ht & Hu & Hf & Hr).
    rewrite Ht, Hu, Hf, Hr. pose proof (count_partition (ip_addresses db)).
    repeat split; try apply count_status_nonneg. lia.
  - intros e He. unfold get_subnets_with_stats in He.
    apply in_map_iff in He as (s & <- & _). apply Hs.
  - intros cidr e He. unfold get_subnet_details in He.
    destruct (find (has_cidr cidr) (subnets db)) as [s|]; [|discriminate].
    apply Some_inj in He. subst e. apply Hs.
Qed.

(** *** How a transition moves the counts *)

Lemma find_absent_tail (ip : string) (l : list Address.row) :
  ~ In ip (map Address.ip_address l) -> find (has_ip ip) l = None.
Proof.
  intros H. destruct (find (has_ip ip) l) as [r|] eqn:E; [|reflexivity].
  apply find_some in E as [Hin Hip]. unfold has_ip in Hip.
  apply String.eqb_eq in Hip. exfalso. apply H. rewrite <- Hip.
  now apply in_map.
Qed.

Lemma count_update (l : list Address.row) (ip : string)
    (set : Address.row -> Address.row) (r : Address.row) (st : Status) :
  NoDup (map Address.ip_address l) ->
  find (has_ip ip) l = Some r ->
  count_status st (map (fun x => if has_ip ip x then set x else x) l)
  = count_status st l
    - indicator (Status_eqb (Address.status r) st)
    + indicator (Status_eqb (Address.status (set r)) st).
Proof.
  induction l as [|a l IH]; [discriminate|].
  intros Hnd Hfind. inversion Hnd as [|x xs Hnotin Hnd']; subst.
  cbn [find] in Hfind. cbn [map].
  change (a :: l) with ([a] ++ l).
  change ((if has_ip ip a then set a else a)
          :: map (fun x => if has_ip ip x then set x else x) l)
    with ([if has_ip ip a then set a else a]
          ++ map (fun x => if has_ip ip x then set x else x) l).
  rewrite !count_status_app.
  destruct (has_ip ip a) eqn:E.
  - apply Some_inj in Hfind. subst a.
    rewrite (update_absent set ip l).
    + unfold count_status, indicator. cbn [filter].
      destruct (Status_eqb (Address.status r) st),
        (Status_eqb (Address.status (set r)) st); cbn [List.length]; lia.
    + apply find_absent_tail. unfold has_ip in E. apply String.eqb_eq in E.
      now rewrite <- E.
  - rewrite (IH Hnd' Hfind). lia.
Qed.

Lemma update_ip_counts clk ip a o n by_ notes set db r st :
  unique_ips db -> select_ip ip db = Some r ->
  global_count st
    (get_statistics (insert_history clk ip a o n by_ notes (update_ip ip set db)))
  = global_count st (get_statistics db)
    - indicator (Status_eqb (Address.status r) st)
    + indicator (Status_eqb (Address.status (set r)) st)
  /\ total (get_statistics
              (insert_history clk ip a o n by_ notes (update_ip ip set db)))
     = total (get_statistics db).
Proof.
  intros Hu Hr.
  assert (Hrows : ip_addresses
                    (insert_history clk ip a o n by_ notes (update_ip ip set db))
                  = map (fun x => if has_ip ip x then set x else x)
                      (ip_addresses db)) by reflexivity.
  destruct (get_statistics_counts db) as (Ht & Hus & Hf & Hre).
  destruct (get_statistics_counts
              (insert_history clk ip a o n by_ notes (update_ip ip set db)))
    as (Ht' & Hus' & Hf' & Hre').
  rewrite Hrows in Ht', Hus', Hf', Hre'.
  split.
  - pose proof (count_update (ip_addresses db) ip set r st Hu Hr) as Hc.
    destruct st; cbn [global_count]; congruence.
  - rewrite Ht, Ht'. now rewrite length_map.
Qed.

(** X7.  On a database with unique address texts, a transition on an
    existing address moves exactly one row between the counts of the
    global statistics and leaves the total alone: a successful
    [allocate_ip] takes one from free and adds one to used; [reserve_ip]
    and [release_ip] take one from the count of the address's status and
    add one to reserved, respectively free (no change when the address
    already has that status). *)
Theorem transitions_move_counts (clk : Clock) (db : Database) (ip : string)
    (r : Address.row) :
  unique_ips db ->
  select_ip ip db = Some r ->
  (Address.status r = free ->
   forall to mac dev notes,
     let g := get_statistics db in
     let g' := get_statistics (snd (allocate_ip clk ip to mac dev notes db)) in
     g_used g' = g_used g + 1 /\ g_free g' = g_free g - 1
     /\ g_reserved g' = g_reserved g /\ total g' = total g)
  /\ (forall notes st,
        let g := get_statistics db in
        let g' := get_statistics (snd (reserve_ip clk ip notes db)) in
        global_count st g'
        = global_count st g - indicator (Status_eqb (Address.status r) st)
          + indicator (Status_eqb reserved st)
        /\ total g' = total g)
  /\ (forall notes st,
        let g := get_statistics db in
        let g' := get_statistics (snd (release_ip clk ip notes db)) in
        global_count st g'
        = global_count st g - indicator (Status_eqb (Address.status r) st)
          + indicator (Status_eqb free st)
        /\ total g' = total g).
Proof.
  intros Hu Hr. split; [|split].
  - intros Hfree to mac dev notes.
    destruct (allocate_ip_cases clk ip to mac dev notes db)
      as [E|(r1 & Hr1 & _ & E)].
    + exfalso.
      destruct (allocate_ip_free clk db ip to mac dev notes r Hr Hfree)
        as (db' & Ea & Hsel & _).
      rewrite Ea in E. simpl in E. subst db'. rewrite Hr in Hsel.
      apply Some_inj in Hsel. rewrite Hsel in Hfree. discriminate.
    + rewrite E. cbn zeta.
      assert (r1 = r) by congruence. subst r1.
      pose proof (fun st => update_ip_counts clk ip allocate free used to notes
                    (set_allocated clk to mac dev notes) db r st Hu Hr) as H.
      destruct (H used) as [H1 Ht], (H free) as [H2 _], (H reserved) as [H3 _].
      cbn [global_count set_allocated Address.status] in H1, H2, H3.
      rewrite Hfree in H1, H2, H3. cbn [indicator Status_eqb] in H1, H2, H3.
      repeat split; [lia | lia | lia | exact Ht].
  - intros notes st. rewrite reserve_ip_run. cbn zeta.
    apply (update_ip_counts clk ip reserve free reserved "system" notes
             (set_reserved clk notes) db r st Hu Hr).
  - intros notes st.
    destruct (release_ip_cases clk ip notes db) as [[Hn _]|(r1 & Hr1 & E)];
      [congruence|].
    rewrite E. assert (r1 = r) by congruence. subst r1. cbn zeta.
    apply (update_ip_counts clk ip release (Address.status r) free "system"
             notes (set_released clk) db r st Hu Hr).
Qed.

(** Reserving the used 10.0.0.1: used goes down by one, reserved up by
    one. *)
Lemma transitions_move_counts_witness :
  let clk := mkClock "2024-01-01 00:00:00" "2024-01-01 08:00:00" in
  let r := Address.mk 1 "10.0.0.1" (Some 1) used (Some "srv01") None None
             (Some "2023-12-31 08:00:00") None "2023-12-31 00:00:00" in
  let db := mkDatabase [] [r] [] 0 1 0 in
  let g := get_statistics db in
  let g' := get_statistics (snd (reserve_ip clk "10.0.0.1" "backup" db)) in
  (global_count used g'
   = global_count used g - indicator (Status_eqb (Address.status r) used)
     + indicator (Status_eqb reserved used)
   /\ total g' = total g)
  /\ g_used g = 1 /\ g_used g' = 0 /\ g_reserved g' = 1.
Proof.
  split; [|vm_compute; repeat split].
  refine (proj1 (proj2 (transitions_move_counts
                          (mkClock "2024-01-01 00:00:00" "2024-01-01 08:00:00")
                          (mkDatabase []
                             [Address.mk 1 "10.0.0.1" (Some 1) used
                                (Some "srv01") None None
                                (Some "2023-12-31 08:00:00") None
                                "2023-12-31 00:00:00"] [] 0 1 0)
                          "10.0.0.1"
                          (Address.mk 1 "10.0.0.1" (Some 1) used (Some "srv01")
                             None None (Some "2023-12-31 08:00:00") None
                             "2023-12-31 00:00:00")
                          _ eq_refl))
            "backup" used).
  repeat constructor. simpl. tauto.
Defined.

(** ** Listings against the inventory and the statistics *)

Lemma get_free_ips_In db cidr ip :
  In ip (get_free_ips db cidr)
  <-> exists r, In r (ip_addresses db) /\ Address.ip_address r = ip
                /\ Address.status r = free /\ owned_by db cidr r = true.
Proof.
  unfold get_free_ips. split.
  - intros Hin.
    apply (Permutation_in _
             (Permutation_sym (sort_perm Py.tuple_leb ip_to_sortable_key _)))
      in Hin.
    apply in_map_iff in Hin as (r & Hip & Hin).
    apply filter_In in Hin as [Hin Hc]. apply andb_prop in Hc as [Ho Hs].
    exists r. repeat split; try assumption. now apply Status_eqb_eq.
  - intros (r & Hin & Hip & Hs & Ho).
    apply (Permutation_in _ (sort_perm Py.tuple_leb ip_to_sortable_key _)).
    apply in_map_iff. exists r. split; [exact Hip|].
    apply filter_In. split; [exact Hin|].
    rewrite Ho. simpl. now apply Status_eqb_eq.
Qed.

Lemma owned_by_subnets db db' cidr r r' :
  subnets db' = subnets db -> Address.subnet_id r' = Address.subnet_id r ->
  owned_by db' cidr r' = owned_by db cidr r.
Proof. intros Hs Hid. unfold owned_by, owner. now rewrite Hs, Hid. Qed.

(** The free list after an UPDATE of the rows of one address. *)
Lemma free_after_update clk ip a o n by_ notes set db cidr ip' :
  (forall r, row_key (set r) = row_key r) ->
  In ip' (get_free_ips
            (insert_history clk ip a o n by_ notes (update_ip ip set db)) cidr)
  <-> (ip' <> ip /\ In ip' (get_free_ips db cidr))
      \/ (ip' = ip
          /\ exists r, In r (ip_addresses db) /\ Address.ip_address r = ip
                       /\ Address.status (set r) = free
                       /\ owned_by db cidr r = true).
Proof.
  intros Hset.
  assert (Hk : forall r, Address.ip_address (set r) = Address.ip_address r
                         /\ Address.subnet_id (set r) = Address.subnet_id r).
  { intros r. pose proof (Hset r) as H. unfold row_key in H.
    split; congruence. }
  rewrite !get_free_ips_In.
  change (ip_addresses
            (insert_history clk ip a o n by_ notes (update_ip ip set db)))
    with (map (fun x => if has_ip ip x then set x else x) (ip_addresses db)).
  split.
  - intros (r' & Hin & Hip & Hs & Ho).
    apply in_map_iff in Hin as (x & Hx & Hin).
    destruct (has_ip ip x) eqn:E; subst r'.
    + right. unfold has_ip in E. apply String.eqb_eq in E.
      destruct (Hk x) as [Hk1 Hk2].
      split; [congruence|]. exists x. repeat split; try assumption.
      rewrite <- Ho. symmetry. now apply owned_by_subnets.
    + left. split.
      * intros ->. unfold has_ip in E. rewrite Hip, String.eqb_refl in E.
        discriminate.
      * exists x. repeat split; try assumption.
  - intros [[Hne (r & Hin & Hip & Hs & Ho)]|[-> (r & Hin & Hip & Hs & Ho)]].
    + exists r. repeat split; try assumption.
      apply in_map_iff. exists r. split; [|exact Hin].
      destruct (has_ip ip r) eqn:E; [|reflexivity].
      unfold has_ip in E. apply String.eqb_eq in E. congruence.
    + destruct (Hk r) as [Hk1 Hk2].
      exists (set r). repeat split; try congruence.
      * apply in_map_iff. exists r. split; [|exact Hin].
        unfold has_ip. now rewrite Hip, String.eqb_refl.
      * rewrite <- Ho. now apply owned_by_subnets.
Qed.

Lemma allocate_ip_success clk ip to mac dev notes db msg db' :
  allocate_ip clk ip to mac dev notes db = ((true, msg), db') ->
  exists r,
    select_ip ip db = Some r /\ Address.status r = free
    /\ db' = insert_history clk ip allocate free used to notes
               (update_ip ip (set_allocated clk to mac dev notes) db).
Proof.
  unfold allocate_ip, call, allocate_ip_body, bind, query, get_connection.
  cbn [pending].
  destruct (select_ip ip db) as [r|]; [|discriminate].
  destruct (Address.status r) eqn:E; simpl; try discriminate.
  intros H. exists r. repeat split; [exact E|]. now inversion H.
Qed.

Lemma release_ip_success clk ip notes db msg db' :
  release_ip clk ip notes db = ((true, msg), db') ->
  exists r,
    select_ip ip db = Some r
    /\ db' = insert_history clk ip release (Address.status r) free "system"
               notes (update_ip ip (set_released clk) db).
Proof.
  unfold release_ip, call, release_ip_body, bind, query, get_connection.
  cbn [pending].
  destruct (select_ip ip db) as [r|]; simpl; [|discriminate].
  intros H. exists r. split; [reflexivity|]. now inversion H.
Qed.

(** X8.  The candidates offered by [get_free_ips] follow the transitions.
    After a successful [allocate_ip], and after any [reserve_ip], the
    address is in no subnet's free list and every other entry of every
    free list is as before; after a successful [release_ip] the address is
    in the free list of the subnet that owns it, next to the entries that
    were there. *)
Theorem free_list_follows_transitions (clk : Clock) (db : Database)
    (ip : string) :
  (forall to mac dev notes msg db',
     allocate_ip clk ip to mac dev notes db = ((true, msg), db') ->
     forall cidr ip',
       In ip' (get_free_ips db' cidr)
       <-> In ip' (get_free_ips db cidr) /\ ip' <> ip)
  /\ (forall notes cidr ip',
        In ip' (get_free_ips (snd (reserve_ip clk ip notes db)) cidr)
        <-> In ip' (get_free_ips db cidr) /\ ip' <> ip)
  /\ (forall notes msg db',
        release_ip clk ip notes db = ((true, msg), db') ->
        forall cidr ip',
          In ip' (get_free_ips db' cidr)
          <-> In ip' (get_free_ips db cidr)
              \/ (ip' = ip
                  /\ exists r, In r (ip_addresses db)
                               /\ Address.ip_address r = ip
                               /\ owned_by db cidr r = true)).
Proof.
  split; [|split].
  - intros to mac dev notes msg db' Ha cidr ip'.
    apply allocate_ip_success in Ha as (r1 & _ & _ & ->).
    rewrite free_after_update by reflexivity.
    split.
    + intros [[Hne Hin]|[_ (r & _ & _ & Hs & _)]];
          [tauto | discriminate Hs].
    + intros [Hin Hne]. now left.
  - intros notes cidr ip'. rewrite reserve_ip_run.
    rewrite free_after_update by reflexivity.
    split.
    + intros [[Hne Hin]|[_ (r & _ & _ & Hs & _)]];
          [tauto | discriminate Hs].
    + intros [Hin Hne]. now left.
  - intros notes msg db' Hrel cidr ip'.
    apply release_ip_success in Hrel as (r1 & _ & ->).
    rewrite free_after_update by reflexivity.
    split.
    + intros [[Hne Hin]|[-> (r & Hin & Hip & _ & Ho)]]; [now left|].
      right. split; [reflexivity|]. now exists r.
    + intros [Hin|[-> (r & Hin & Hip & Ho)]].
      * destruct (String.eqb_spec ip' ip) as [->|Hne]; [|now left].
        right. split; [reflexivity|].
        apply get_free_ips_In in Hin as (r & Hin & Hip & Hs & Ho).
        exists r. repeat split; assumption.
      * right. split; [reflexivity|]. exists r. repeat split; assumption.
Qed.

(** The free list of 10.0.0.0/29 before and after allocating 10.0.0.3. *)
Example free_list_after_allocate :
  let clk := mkClock "2024-01-01 00:00:00" "2024-01-01 08:00:00" in
  let db := snd (create_subnet clk "10.0.0.0/29" "" "" "" empty_database) in
  get_free_ips (snd (allocate_ip clk "10.0.0.3" "srv01" "" "" "" db))
    "10.0.0.0/29"
  = ["10.0.0.1"; "10.0.0.2"; "10.0.0.4"; "10.0.0.5"; "10.0.0.6"].
Proof. vm_compute. reflexivity. Qed.

Lemma unique_id_find (l : list Subnet.row) (s : Subnet.row) :
  NoDup (map Subnet.id l) -> In s l ->
  find (fun x => Subnet.id x =? Subnet.id s) l = Some s.
Proof.
  induction l as [|a l IH]; simpl; [tauto|].
  intros Hnd Hin. inversion Hnd as [|x xs Hnotin Hnd']; subst.
  destruct (Z.eqb_spec (Subnet.id a) (Subnet.id s)) as [E|E].
  - destruct Hin as [->|Hin]; [reflexivity|].
    exfalso. apply Hnotin. rewrite E. now apply in_map.
  - destruct Hin as [->|Hin]; [congruence | now apply IH].
Qed.

(** With unique subnet ids and CIDR texts, the rows a listing selects for
    a CIDR text are the rows whose [subnet_id] is the id of that subnet. *)
Lemma owned_by_subnet_id db cidr s r :
  NoDup (map Subnet.id (subnets db)) ->
  NoDup (map Subnet.subnet_cidr (subnets db)) ->
  find (has_cidr cidr) (subnets db) = Some s ->
  owned_by db cidr r
  = match Address.subnet_id r with
    | Some i => Subnet.id s =? i
    | None => false
    end.
Proof.
  intros Hi Hc Hfind.
  pose proof (find_some _ _ Hfind) as [Hin Hcs].
  unfold owned_by, owner.
  destruct (Address.subnet_id r) as [i|]; [|reflexivity].
  destruct (Z.eqb_spec (Subnet.id s) i) as [<-|Hne].
  - now rewrite (unique_id_find _ s Hi Hin).
  - destruct (find (fun x => Subnet.id x =? i) (subnets db)) as [s'|] eqn:E;
      [|reflexivity].
    apply find_some in E as [Hin' Hid]. apply Z.eqb_eq in Hid.
    destruct (has_cidr cidr s') eqn:Hc'; [|reflexivity].
    exfalso. apply Hne. rewrite <- Hid.
    unfold has_cidr in Hc'. apply String.eqb_eq in Hc'.
    assert (Hsel : select_subnet_id cidr db = Some (Subnet.id s))
      by (unfold select_subnet_id; now rewrite Hfind).
    symmetry. now apply (unique_cidr_id cidr db (Subnet.id s) s' Hc Hsel).
Qed.

Lemma owned_by_unknown db cidr r :
  find (has_cidr cidr) (subnets db) = None -> owned_by db cidr r = false.
Proof.
  intros Hnone. unfold owned_by, owner.
  destruct (Address.subnet_id r) as [i|]; [|reflexivity].
  destruct (find (fun x => Subnet.id x =? i) (subnets db)) as [s'|] eqn:E;
    [|reflexivity].
  apply find_some in E as [Hin _]. exact (find_none _ _ Hnone s' Hin).
Qed.

Lemma sort_length {A K} (leb : K -> K -> bool) (key : A -> K) (l : list A) :
  List.length (Py.sort leb key l) = List.length l.
Proof. symmetry. apply Permutation_length. apply sort_perm. Qed.

Lemma count_status_filter st rows :
  count_status st rows
  = Z.of_nat (List.length
                (filter (fun r => Status_eqb (Address.status r) st) rows)).
Proof. reflexivity. Qed.

Lemma filter_andb {A} (p q : A -> bool) (l : list A) :
  filter (fun x => p x && q x) l = filter q (filter p l).
Proof.
  induction l as [|a l IH]; simpl; [reflexivity|].
  destruct (p a); simpl; [destruct (q a); now rewrite IH | exact IH].
Qed.

(** X9.  Listings and statistics count the same rows.  With unique subnet
    ids and CIDR texts, for a stored CIDR text the unfiltered
    [get_ips_by_subnet] has as many rows as [get_subnet_details] reports
    in total, a listing filtered by a status label that the method knows
    has as many rows as the count of that status, and [get_free_ips] has
    as many entries as the free count.  For a CIDR text that is not
    stored, [get_subnet_details] is None and both listings are empty. *)
Theorem listings_match_details (db : Database) (cidr : string) :
  NoDup (map Subnet.id (subnets db)) ->
  NoDup (map Subnet.subnet_cidr (subnets db)) ->
  (forall e, get_subnet_details db cidr = Some e ->
     Z.of_nat (List.length (get_ips_by_subnet db cidr None)) = total_ips e
     /\ (forall label st, status_map label = Some st ->
         Z.of_nat (List.length (get_ips_by_subnet db cidr (Some label)))
         = subnet_count st e)
     /\ Z.of_nat (List.length (get_free_ips db cidr)) = free_ips e)
  /\ (get_subnet_details db cidr = None ->
      (forall f, get_ips_by_subnet db cidr f = [])
      /\ get_free_ips db cidr = []).
Proof.
  intros Hi Hc. split.
  - intros e He. unfold get_subnet_details in He.
    destruct (find (has_cidr cidr) (subnets db)) as [s|] eqn:Hfind;
      [|discriminate].
    apply Some_inj in He. subst e.
    destruct (subnet_stats_spec db false s) as (_ & Ht & Hu & Hf & Hr & _).
    assert (Hrows : forall q,
              filter (fun r => owned_by db cidr r && q r) (ip_addresses db)
              = filter q (rows_of_subnet db (Subnet.id s))).
    { intros q. rewrite filter_andb. f_equal. unfold rows_of_subnet.
      apply filter_ext. intros r.
      now apply owned_by_subnet_id. }
    split; [|split].
    + unfold get_ips_by_subnet. cbn [given].
      rewrite sort_length, length_map, Hrows, Ht.
      now rewrite filter_all.
    + intros label st Hl. unfold get_ips_by_subnet.
      assert (Hg : given (Some label) = Some label).
      { destruct label; [discriminate Hl | reflexivity]. }
      rewrite Hg.
      assert (Hall : String.eqb label "all" = false).
      { destruct (String.eqb_spec label "all") as [->|]; [discriminate Hl|].
        reflexivity. }
      rewrite Hall, Hl, sort_length, length_map, Hrows.
      destruct st; cbn [subnet_count]; [rewrite Hf | rewrite Hu | rewrite Hr];
        apply eq_sym, count_status_filter.
    + unfold get_free_ips. rewrite sort_length, length_map, Hrows, Hf.
      apply eq_sym, count_status_filter.
  - intros Hnone. unfold get_subnet_details in Hnone.
    destruct (find (has_cidr cidr) (subnets db)) as [s|] eqn:Hfind;
      [discriminate|].
    assert (Hempty : forall q,
              filter (fun r => owned_by db cidr r && q r) (ip_addresses db) = []).
    { intros q. apply filter_none. intros r _.
      now rewrite owned_by_unknown. }
    split.
    + intros f. unfold get_ips_by_subnet. now rewrite Hempty.
    + unfold get_free_ips. now rewrite Hempty.
Qed.

(** 10.0.0.0/29 with one address allocated and one reserved. *)
Lemma listings_match_details_witness :
  let clk := mkClock "2024-01-01 00:00:00" "2024-01-01 08:00:00" in
  let db := run_all [(clk, CreateSubnet "10.0.0.0/29" "" "" "");
                     (clk, AllocateIp "10.0.0.3" "srv01" "" "" "");
                     (clk, ReserveIp "10.0.0.4" "backup")] empty_database in
  (forall e, get_subnet_details db "10.0.0.0/29" = Some e ->
     Z.of_nat (List.length (get_ips_by_subnet db "10.0.0.0/29" None))
     = total_ips e
     /\ (forall label st, status_map label = Some st ->
         Z.of_nat (List.length (get_ips_by_subnet db "10.0.0.0/29" (Some label)))
         = subnet_count st e)
     /\ Z.of_nat (List.length (get_free_ips db "10.0.0.0/29")) = free_ips e)
  /\ option_map (fun e => (total_ips e, used_ips e, free_ips e, reserved_ips e))
       (get_subnet_details db "10.0.0.0/29")
     = Some (8, 1, 4, 3).
Proof.
  split; [|vm_compute; reflexivity].
  apply listings_match_details; vm_compute; repeat constructor;
    simpl; tauto.
Defined.

(** ** Searching *)








Lemma sorted_filter_In {A B K} (leb : K -> K -> bool) (key : B -> K)
    (f : A -> B) (p : A -> bool) (l : list A) (t : B) :
  In t (Py.sort leb key (map f (filter p l)))
  <-> exists r, In r l /\ p r = true /\ f r = t.
Proof.
  split.
  - intros Hin.
    apply (Permutation_in _ (Permutation_sym (sort_perm leb key _))) in Hin.
    apply in_map_iff in Hin as (r & Hf & Hr).
    apply filter_In in Hr as [Hr Hp]. now exists r.
  - intros (r & Hr & Hp & Hf).
    apply (Permutation_in _ (sort_perm leb key _)).
    apply in_map_iff. exists r. split; [exact Hf|].
    apply filter_In. now split.
Qed.

(** Each condition of the query depends on the selected columns only. *)
Lemma search_ips_conditions (db : Database) (subnet status keyword : option string) :
  search_ips db subnet status keyword
  = Py.sort Py.tuple_leb (fun x => ip_to_sortable_key (t_ip_address (s_ip x)))
      (map (search_tuple db)
         (filter (fun r => subnet_condition subnet (search_tuple db r)
                           && status_condition status (search_tuple db r)
                           && keyword_condition keyword (search_tuple db r))
            (ip_addresses db))).
Proof.
  unfold search_ips. cbv zeta. do 2 f_equal. apply filter_ext. intros r.
  assert (Hs : subnet_condition subnet (search_tuple db r)
               = match given subnet with
                 | Some cidr =>
                     if String.eqb cidr "所有子网" then true
                     else owned_by db cidr r
                 | None => true
                 end).
  { unfold subnet_condition. destruct (given subnet) as [cidr|]; [|reflexivity].
    destruct (String.eqb cidr "所有子网"); [reflexivity|].
    unfold owned_by, search_tuple. cbn [s_subnet_cidr].
    destruct (owner db r); reflexivity. }
  rewrite Hs. reflexivity.
Qed.

Lemma search_ips_In (db : Database) (subnet status keyword : option string)
    (t : SearchTuple) :
  In t (search_ips db subnet status keyword)
  <-> In t (map (search_tuple db) (ip_addresses db))
      /\ subnet_condition subnet t = true
      /\ status_condition status t = true
      /\ keyword_condition keyword t = true.
Proof.
  rewrite search_ips_conditions, sorted_filter_In. split.
  - intros (r & Hr & Hp & <-).
    apply andb_true_iff in Hp as [Hp Hk]. apply andb_true_iff in Hp as [Hs Hst].
    repeat split; auto. now apply in_map.
  - intros (Hin & Hs & Hst & Hk). apply in_map_iff in Hin as (r & <- & Hr).
    exists r. now rewrite Hs, Hst, Hk.
Qed.

Lemma given_label (label : string) (st : Status) :
  status_mapping label = Some st -> given (Some label) = Some label.
Proof. destruct label; [discriminate | reflexivity]. Qed.

(** X10.  How the filters of [search_ips] work.  A tuple is in the result
    of a search exactly when it is in the result of each of its three
    filters taken alone; without a filter the result is a rearrangement
    of all rows, unowned rows included; a subnet filter keeps exactly the
    tuples with that CIDR text; a status filter with one of the three
    labels 空闲, 已用, 保留 keeps exactly the tuples of that status; and a
    status filter with any other label, the English names among them,
    filters nothing. *)
Theorem search_ips_filters (db : Database) :
  (forall subnet status keyword t,
     In t (search_ips db subnet status keyword)
     <-> In t (search_ips db subnet None None)
         /\ In t (search_ips db None status None)
         /\ In t (search_ips db None None keyword))
  /\ Permutation (search_ips db None None None)
       (map (search_tuple db) (ip_addresses db))
  /\ (forall cidr t,
        cidr <> "" -> cidr <> "所有子网" ->
        (In t (search_ips db (Some cidr) None None)
         <-> In t (search_ips db None None None)
             /\ s_subnet_cidr t = Some cidr))
  /\ (forall label st t,
        status_mapping label = Some st ->
        (In t (search_ips db None (Some label) None)
         <-> In t (search_ips db None None None)
             /\ t_status (s_ip t) = st))
  /\ (forall label subnet keyword,
        status_mapping label = None ->
        search_ips db subnet (Some label) keyword
        = search_ips db subnet None keyword).
Proof.
  split; [|split; [|split; [|split]]].
  - intros subnet status keyword t. rewrite !search_ips_In.
    unfold subnet_condition, status_condition, keyword_condition.
    cbn [given]. tauto.
  - rewrite search_ips_conditions.
    rewrite <- sort_perm. apply Permutation_map.
    rewrite filter_all; [reflexivity|]. intros r _. reflexivity.
  - intros cidr t Hne Hall. rewrite !search_ips_In.
    unfold subnet_condition, status_condition, keyword_condition.
    assert (Hg : given (Some cidr) = Some cidr)
      by (destruct cidr; [contradiction | reflexivity]).
    rewrite Hg. cbn [given].
    destruct (String.eqb_spec cidr "所有子网") as [E|_]; [contradiction|].
    destruct (s_subnet_cidr t) as [c|].
    + destruct (String.eqb_spec c cidr) as [->|Hc].
      * tauto.
      * split; [intros (_ & Hf & _); discriminate Hf|].
        intros (_ & Heq). apply Some_inj in Heq. contradiction.
    + split; [intros (_ & Hf & _); discriminate Hf|].
      intros (_ & Heq). discriminate Heq.
  - intros label st t Hl. rewrite !search_ips_In.
    unfold subnet_condition, status_condition, keyword_condition.
    rewrite (given_label _ _ Hl). cbn [given].
    assert (Hall : String.eqb label "所有状态" = false).
    { destruct (String.eqb_spec label "所有状态") as [->|]; [discriminate Hl|].
      reflexivity. }
    rewrite Hall, Hl.
    split.
    + intros (Hin & _ & Hst & _). apply Status_eqb_eq in Hst. tauto.
    + intros ((Hin & _) & Hst). repeat split; auto.
      now apply Status_eqb_eq.
  - intros label subnet keyword Hl. rewrite !search_ips_conditions.
    do 2 f_equal. apply filter_ext. intros r. do 2 f_equal.
    unfold status_condition. cbn [given].
    destruct label as [|c label]; [reflexivity|].
    cbn [given]. rewrite Hl. now destruct (String.eqb _ _).
Qed.

(** The English label that [get_ips_by_subnet] understands is not a filter
    for [search_ips]: the allocated address is among the results. *)
Lemma search_ips_filters_witness :
  let clk := mkClock "2024-01-01 00:00:00" "2024-01-01 08:00:00" in
  let db := run_all [(clk, CreateSubnet "10.0.0.0/30" "lab" "" "");
                     (clk, AllocateIp "10.0.0.1" "srv01" "" "" "")]
              empty_database in
  search_ips db None (Some "free") None = search_ips db None None None
  /\ map (fun t => t_ip_address (s_ip t)) (search_ips db None (Some "free") None)
     = ["10.0.0.0"; "10.0.0.1"; "10.0.0.2"; "10.0.0.3"]
  /\ map t_ip_address (get_ips_by_subnet db "10.0.0.0/30" (Some "free"))
     = ["10.0.0.2"].
Proof.
  split; [|vm_compute; split; reflexivity].
  apply search_ips_filters. reflexivity.
Defined.




(** A keyword in capitals, with blanks around it, finds the device. *)
Example search_ips_keyword_example :
  let clk := mkClock "2024-01-01 00:00:00" "2024-01-01 08:00:00" in
  let db := run_all [(clk, CreateSubnet "10.0.0.0/30" "lab" "" "");
                     (clk, AllocateIp "10.0.0.1" "srv01-web" "" "" "")]
              empty_database in
  map (fun t => t_ip_address (s_ip t)) (search_ips db None None (Some " SRV01 "))
  = ["10.0.0.1"]
  /\ map (fun t => t_ip_address (s_ip t)) (search_ips db None None (Some "  "))
     = ["10.0.0.0"; "10.0.0.1"; "10.0.0.2"; "10.0.0.3"].
Proof. vm_compute. split; reflexivity. Qed.

(** ** The list of subnets *)

Lemma str_leb_total (a b : string) :
  Py.str_leb a b = true \/ Py.str_leb b a = true.
Proof.
  revert b. induction a as [|x a IH]; intros [|y b]; cbn [Py.str_leb]; auto.
  cbv zeta.
  destruct (Nat.ltb_spec (nat_of_ascii x) (nat_of_ascii y)); [now left|].
  destruct (Nat.ltb_spec (nat_of_ascii y) (nat_of_ascii x)); [now right|].
  apply IH.
Qed.

Lemma str_leb_trans (a b c : string) :
  Py.str_leb a b = true -> Py.str_leb b c = true -> Py.str_leb a c = true.
Proof.
  revert b c. induction a as [|x a IH]; intros [|y b] [|z c];
    cbn [Py.str_leb]; auto; try discriminate.
  cbv zeta.
  destruct (Nat.ltb_spec (nat_of_ascii x) (nat_of_ascii y)),
    (Nat.ltb_spec (nat_of_ascii y) (nat_of_ascii x)),
    (Nat.ltb_spec (nat_of_ascii y) (nat_of_ascii z)),
    (Nat.ltb_spec (nat_of_ascii z) (nat_of_ascii y)),
    (Nat.ltb_spec (nat_of_ascii x) (nat_of_ascii z)),
    (Nat.ltb_spec (nat_of_ascii z) (nat_of_ascii x));
    try discriminate; try lia; auto.
  apply IH.
Qed.

Lemma sorted_map {A B} (R : B -> B -> Prop) (f : A -> B) (l : list A) :
  StronglySorted (fun x y => R (f x) (f y)) l -> StronglySorted R (map f l).
Proof.
  induction 1 as [|x l Hs IH Hall]; cbn [map]; constructor; [exact IH|].
  apply Forall_forall. intros y Hy. apply in_map_iff in Hy as (z & <- & Hz).
  exact (proj1 (Forall_forall _ _) Hall z Hz).
Qed.

Lemma unique_column {A B} (column : A -> B) (rows : list A) (x y : A) :
  NoDup (map column rows) -> In x rows -> In y rows ->
  column x = column y -> x = y.
Proof.
  induction rows as [|a rows IH]; cbn [map]; [intros _ []|].
  intros Hnd Hx Hy Heq. inversion Hnd as [|k ks Hnotin Hnd']; subst.
  destruct Hx as [->|Hx], Hy as [->|Hy]; auto.
  - exfalso. apply Hnotin. rewrite Heq. now apply in_map.
  - exfalso. apply Hnotin. rewrite <- Heq. now apply in_map.
Qed.

Lemma find_unique_cidr (db : Database) (s : Subnet.row) :
  NoDup (map Subnet.subnet_cidr (subnets db)) -> In s (subnets db) ->
  find (has_cidr (Subnet.subnet_cidr s)) (subnets db) = Some s.
Proof.
  intros Hnd Hin.
  destruct (find (has_cidr (Subnet.subnet_cidr s)) (subnets db)) as [s'|] eqn:E.
  - apply find_some in E as [Hin' Hc]. apply String.eqb_eq in Hc.
    f_equal. now apply (unique_column Subnet.subnet_cidr (subnets db)).
  - exfalso. pose proof (find_none _ _ E s Hin) as Hc.
    unfold has_cidr in Hc. now rewrite String.eqb_refl in Hc.
Qed.

(** X12.  The list of [get_subnets_with_stats] has one entry for each row
    of [subnets], subnets without addresses included, in ascending order
    of the CIDR text (the order of the text, in which 10.0.10.0/24 comes
    before 10.0.2.0/24), and when CIDR texts are unique
    [get_subnet_details] returns for each entry's CIDR text the same
    subnet with the same counts and the same usage rate. *)
Theorem subnet_list_complete_and_sorted (db : Database) :
  Permutation (map st_id (get_subnets_with_stats db)) (map Subnet.id (subnets db))
  /\ StronglySorted
       (fun e e' => Py.str_leb (st_subnet_cidr e) (st_subnet_cidr e') = true)
       (get_subnets_with_stats db)
  /\ (NoDup (map Subnet.subnet_cidr (subnets db)) ->
      forall e, In e (get_subnets_with_stats db) ->
        exists d,
          get_subnet_details db (st_subnet_cidr e) = Some d
          /\ st_id d = st_id e
          /\ (total_ips d, used_ips d, free_ips d, reserved_ips d)
             = (total_ips e, used_ips e, free_ips e, reserved_ips e)
          /\ usage_rate d = usage_rate e).
Proof.
  unfold get_subnets_with_stats. split; [|split].
  - rewrite map_map. cbn [subnet_stats st_id].
    apply Permutation_sym.
    apply (Permutation_map Subnet.id
             (sort_perm Py.str_leb Subnet.subnet_cidr (subnets db))).
  - apply sorted_map. cbn [subnet_stats st_subnet_cidr].
    apply (sort_sorted Py.str_leb Subnet.subnet_cidr str_leb_total
             str_leb_trans).
  - intros Hnd e He. apply in_map_iff in He as (s & <- & Hs).
    apply (Permutation_in _
             (Permutation_sym
                (sort_perm Py.str_leb Subnet.subnet_cidr (subnets db)))) in Hs.
    exists (subnet_stats db false s). split; [|repeat split].
    unfold get_subnet_details. cbn [subnet_stats st_subnet_cidr].
    now rewrite (find_unique_cidr db s Hnd Hs).
Qed.

(** Three subnets created in numeric order are listed in text order. *)
Example subnet_list_text_order :
  let clk := mkClock "2024-01-01 00:00:00" "2024-01-01 08:00:00" in
  let db := run_all [(clk, CreateSubnet "10.0.2.0/30" "" "" "");
                     (clk, CreateSubnet "10.0.10.0/30" "" "" "");
                     (clk, CreateSubnet "9.0.0.0/30" "" "" "")]
              empty_database in
  map st_subnet_cidr (get_subnets_with_stats db)
  = ["10.0.10.0/30"; "10.0.2.0/30"; "9.0.0.0/30"].
Proof. vm_compute. reflexivity. Qed.

Lemma sum_of_map {A B} (f : B -> Z) (g : A -> B) (l : list A) :
  sum_of f (map g l) = sum_of (fun x => f (g x)) l.
Proof. induction l as [|a l IH]; cbn [map sum_of fold_right]; [|fold (sum_of f (map g l)); fold (sum_of (fun x => f (g x)) l); rewrite IH]; reflexivity. Qed.

Lemma sum_of_cons {A} (f : A -> Z) (a : A) (l : list A) :
  sum_of f (a :: l) = f a + sum_of f l.
Proof. reflexivity. Qed.

Lemma sum_of_perm {A} (f : A -> Z) (l l' : list A) :
  Permutation l l' -> sum_of f l = sum_of f l'.
Proof.
  induction 1 as [|x l l' _ IH|x y l|l l' l'' _ IH1 _ IH2];
    rewrite ?sum_of_cons; lia.
Qed.

Lemma sum_of_ext {A} (f g : A -> Z) (l : list A) :
  (forall x, In x l -> f x = g x) -> sum_of f l = sum_of g l.
Proof.
  induction l as [|a l IH]; intros H; [reflexivity|].
  rewrite !sum_of_cons, (H a (or_introl eq_refl)), IH; [reflexivity|].
  intros x Hx. apply H. now right.
Qed.

Lemma sum_of_add {A} (f g : A -> Z) (l : list A) :
  sum_of (fun x => f x + g x) l = sum_of f l + sum_of g l.
Proof.
  induction l as [|a l IH]; [reflexivity|]. rewrite !sum_of_cons, IH. lia.
Qed.

Lemma sum_of_zero {A} (f : A -> Z) (l : list A) :
  (forall x, In x l -> f x = 0) -> sum_of f l = 0.
Proof.
  induction l as [|a l IH]; intros H; [reflexivity|].
  rewrite sum_of_cons, (H a (or_introl eq_refl)), IH; [reflexivity|].
  intros x Hx. apply H. now right.
Qed.

(** Among subnets with distinct ids exactly one has a given stored id. *)
Lemma one_owner (subs : list Subnet.row) (s0 : Subnet.row) :
  NoDup (map Subnet.id subs) -> In s0 subs ->
  sum_of (fun s => indicator (Subnet.id s =? Subnet.id s0)) subs = 1.
Proof.
  induction subs as [|a subs IH]; cbn [map]; [intros _ []|].
  intros Hnd Hin. inversion Hnd as [|k ks Hnotin Hnd']; subst.
  rewrite sum_of_cons. destruct Hin as [->|Hin].
  - rewrite Z.eqb_refl. cbn [indicator].
    rewrite sum_of_zero; [reflexivity|].
    intros x Hx. destruct (Z.eqb_spec (Subnet.id x) (Subnet.id s0)) as [E|E];
      [|reflexivity].
    exfalso. apply Hnotin. rewrite <- E. now apply in_map.
  - destruct (Z.eqb_spec (Subnet.id a) (Subnet.id s0)) as [E|E].
    + exfalso. apply Hnotin. rewrite E. now apply in_map.
    + cbn [indicator]. now rewrite IH.
Qed.

(** Every owned row is counted in exactly one group. *)
Lemma groups_partition (p : Address.row -> bool) (subs : list Subnet.row)
    (rows : list Address.row) :
  NoDup (map Subnet.id subs) ->
  (forall r, In r rows ->
     exists s, In s subs /\ Address.subnet_id r = Some (Subnet.id s)) ->
  sum_of (fun s =>
            Z.of_nat (List.length
                        (filter p
                           (filter (fun r => match Address.subnet_id r with
                                             | Some i => Subnet.id s =? i
                                             | None => false
                                             end) rows)))) subs
  = Z.of_nat (List.length (filter p rows)).
Proof.
  intros Hnd. induction rows as [|r rows IH]; intros Hown.
  - cbn [filter List.length]. now apply sum_of_zero.
  - destruct (Hown r (or_introl eq_refl)) as (s0 & Hs0 & Hr).
    assert (IH' := IH (fun x Hx => Hown x (or_intror Hx))). clear IH.
    rewrite (sum_of_ext _
               (fun s =>
                  indicator (Subnet.id s =? Subnet.id s0) * indicator (p r)
                  + Z.of_nat (List.length
                       (filter p
                          (filter (fun r => match Address.subnet_id r with
                                            | Some i => Subnet.id s =? i
                                            | None => false
                                            end) rows))))).
    + rewrite sum_of_add, IH'.
      assert (Hsum : sum_of (fun s => indicator (Subnet.id s =? Subnet.id s0)
                                      * indicator (p r)) subs
                     = indicator (p r)).
      { destruct (p r); cbn [indicator].
        - rewrite (sum_of_ext _
                     (fun s => indicator (Subnet.id s =? Subnet.id s0)));
            [now apply one_owner | intros; lia].
        - apply sum_of_zero. intros; lia. }
      rewrite Hsum. cbn [filter]. destruct (p r); cbn [indicator List.length]; lia.
    + intros s _. cbn [filter]. rewrite Hr.
      destruct (Subnet.id s =? Subnet.id s0); cbn [indicator];
        [|lia].
      cbn [filter]. destruct (p r); cbn [indicator List.length]; lia.
Qed.

(** X13.  The two statistics agree.  When subnet ids are distinct and
    every address row belongs to a stored subnet (which holds for every
    database the calls produce), the global counts of [get_statistics]
    are the sums of the per-subnet counts of [get_subnets_with_stats]:
    the total, and the count of each status. *)
Theorem statistics_add_up (db : Database) :
  NoDup (map Subnet.id (subnets db)) ->
  (forall r, In r (ip_addresses db) ->
     exists s, In s (subnets db) /\ Address.subnet_id r = Some (Subnet.id s)) ->
  total (get_statistics db) = sum_of total_ips (get_subnets_with_stats db)
  /\ forall st,
       global_count st (get_statistics db)
       = sum_of (subnet_count st) (get_subnets_with_stats db).
Proof.
  intros Hnd Hown.
  destruct (get_statistics_counts db) as (Ht & Hu & Hf & Hr).
  unfold get_subnets_with_stats.
  assert (Hsum : forall (col : SubnetStats -> Z) (p : Address.row -> bool),
            (forall s, col (subnet_stats db true s)
                       = Z.of_nat (List.length
                                     (filter p (rows_of_subnet db (Subnet.id s))))) ->
            sum_of col (map (subnet_stats db true)
                          (Py.sort Py.str_leb Subnet.subnet_cidr (subnets db)))
            = Z.of_nat (List.length (filter p (ip_addresses db)))).
  { intros col p Hcol. rewrite sum_of_map.
    rewrite <- (sum_of_perm _ _ _
                  (sort_perm Py.str_leb Subnet.subnet_cidr (subnets db))).
    rewrite (sum_of_ext _ _ _ (fun s _ => Hcol s)).
    now apply groups_partition. }
  split.
  - rewrite Ht. rewrite (Hsum total_ips (fun _ => true)).
    + rewrite filter_all; [reflexivity | reflexivity].
    + intros s. destruct (subnet_stats_spec db true s) as (_ & H & _).
      rewrite H, filter_all; [reflexivity | reflexivity].
  - intros st.
    rewrite (Hsum (subnet_count st)
               (fun r => Status_eqb (Address.status r) st)).
    + destruct st; cbn [global_count]; [rewrite Hf | rewrite Hu | rewrite Hr];
        reflexivity.
    + intros s.
      destruct (subnet_stats_spec db true s) as (_ & _ & H1 & H2 & H3 & _).
      destruct st; cbn [subnet_count]; [rewrite H2 | rewrite H1 | rewrite H3];
        reflexivity.
Qed.

(** Two subnets with an allocated and a reserved address. *)
Lemma statistics_add_up_witness :
  let clk := mkClock "2024-01-01 00:00:00" "2024-01-01 08:00:00" in
  let db := run_all [(clk, CreateSubnet "10.0.0.0/30" "" "" "");
                     (clk, CreateSubnet "10.0.1.0/29" "" "" "");
                     (clk, AllocateIp "10.0.1.2" "srv01" "" "" "");
                     (clk, ReserveIp "10.0.0.1" "")] empty_database in
  (total (get_statistics db) = sum_of total_ips (get_subnets_with_stats db)
   /\ forall st,
        global_count st (get_statistics db)
        = sum_of (subnet_count st) (get_subnets_with_stats db))
  /\ map total_ips (get_subnets_with_stats db) = [4; 8]
  /\ total (get_statistics db) = 12.
Proof.
  split; [|vm_compute; split; reflexivity].
  apply statistics_add_up.
  - vm_compute. repeat constructor; simpl; intuition discriminate.
  - vm_compute. intros r Hr.
    repeat (destruct Hr as [Hr|Hr];
            [subst r;
             first [ eexists; split; [left; reflexivity | reflexivity]
                   | eexists; split; [right; left; reflexivity | reflexivity] ]
            |]).
    destruct Hr.
Defined.

(** ** The sort key on well-formed addresses *)

Lemma octets_int_round_trip :
  forallb octet_int_round_trip (ipaddress.range 0 256) = true.
Proof. vm_compute. reflexivity. Qed.

Lemma octet_int_reads_back (o : Z) :
  0 <= o < 256 -> Py.int (ipaddress.str_int o) = Some o.
Proof.
  intros Ho.
  assert (Hin : In o (ipaddress.range 0 256)).
  { unfold ipaddress.range. apply in_map_iff. exists (Z.to_nat o).
    split; [lia|]. apply in_seq. lia. }
  pose proof (proj1 (forallb_forall _ _) octets_int_round_trip o Hin) as H.
  unfold octet_int_round_trip in H.
  destruct (Py.int (ipaddress.str_int o)) as [v|]; [|discriminate].
  apply Z.eqb_eq in H. now subst.
Qed.

(** The key of a dotted quad is its four octets. *)
Lemma key_of_str (a : Z) :
  ip_to_sortable_key (ipaddress.str a) = ipaddress.to_bytes a.
Proof.
  pose proof (to_bytes_range a) as Hr.
  unfold ip_to_sortable_key, ipaddress.str.
  destruct (ipaddress.to_bytes a) as [|b3 [|b2 [|b1 [|b0 [|]]]]] eqn:E;
    try discriminate.
  apply Forall_cons_iff in Hr as [H3 Hr]. apply Forall_cons_iff in Hr as [H2 Hr].
  apply Forall_cons_iff in Hr as [H1 Hr]. apply Forall_cons_iff in Hr as [H0 _].
  cbn [map String.concat String.append].
  rewrite !split_app_sep by (apply octet_reads_back; assumption).
  rewrite split_no_sep by (apply octet_reads_back; assumption).
  cbn [ints_of_parts].
  now rewrite !octet_int_reads_back by assumption.
Qed.

Lemma to_bytes_order (a b : Z) :
  0 <= a < 2 ^ 32 -> 0 <= b < 2 ^ 32 ->
  Py.tuple_leb (ipaddress.to_bytes a) (ipaddress.to_bytes b) = (a <=? b).
Proof.
  intros Ha Hb.
  pose proof (from_to_bytes a Ha) as Fa. pose proof (from_to_bytes b Hb) as Fb.
  pose proof (to_bytes_range a) as Ra. pose proof (to_bytes_range b) as Rb.
  destruct (ipaddress.to_bytes a) as [|a3 [|a2 [|a1 [|a0 [|]]]]] eqn:Ea;
    try discriminate.
  destruct (ipaddress.to_bytes b) as [|b3 [|b2 [|b1 [|b0 [|]]]]] eqn:Eb;
    try discriminate.
  apply Forall_cons_iff in Ra as [A3 Ra]. apply Forall_cons_iff in Ra as [A2 Ra].
  apply Forall_cons_iff in Ra as [A1 Ra]. apply Forall_cons_iff in Ra as [A0 _].
  apply Forall_cons_iff in Rb as [B3 Rb]. apply Forall_cons_iff in Rb as [B2 Rb].
  apply Forall_cons_iff in Rb as [B1 Rb]. apply Forall_cons_iff in Rb as [B0 _].
  unfold ipaddress.from_bytes in Fa, Fb. cbn [fold_left] in Fa, Fb.
  cbn [Py.tuple_leb].
  destruct (Z.leb_spec a b);
    repeat match goal with
           | |- context [?x <? ?y] => destruct (Z.ltb_spec x y)
           end; try reflexivity; lia.
Qed.

Lemma sorted_later {A} (R : A -> A -> Prop) (pre mid post : list A) (x y : A) :
  StronglySorted R (pre ++ x :: mid ++ y :: post) -> R x y.
Proof.
  induction pre as [|p pre IH]; cbn [app]; intros Hs.
  - apply StronglySorted_inv in Hs as [_ Hall].
    apply (proj1 (Forall_forall _ _) Hall). apply in_or_app. right. now left.
  - apply StronglySorted_inv in Hs as [Hs _]. now apply IH.
Qed.

Lemma ascending_numeric {A} (ip_of : A -> string) (l pre mid post : list A)
    (x y : A) (a b : Z) :
  ascending ip_of l -> l = pre ++ x :: mid ++ y :: post ->
  ip_of x = ipaddress.str a -> ip_of y = ipaddress.str b ->
  0 <= a < 2 ^ 32 -> 0 <= b < 2 ^ 32 -> a <= b.
Proof.
  intros Hasc -> Hx Hy Ha Hb. unfold ascending in Hasc.
  apply sorted_later in Hasc. rewrite Hx, Hy, !key_of_str in Hasc.
  rewrite (to_bytes_order a b Ha Hb) in Hasc. now apply Z.leb_le.
Qed.

(** X14.  On well-formed addresses the sort key orders by value.  For
    32-bit addresses [a] and [b] the key of the dotted quad of [a] is its
    four octets, the key of [a] is at most the key of [b] exactly when
    [a <= b], and so in each of the three sorted listings an entry for the
    dotted quad of [a] that stands before an entry for the dotted quad of
    [b] has [a <= b]: 10.0.0.9 before 10.0.0.10. *)
Theorem sort_key_orders_by_value (a b : Z) :
  0 <= a < 2 ^ 32 -> 0 <= b < 2 ^ 32 ->
  ip_to_sortable_key (ipaddress.str a) = ipaddress.to_bytes a
  /\ Py.tuple_leb (ip_to_sortable_key (ipaddress.str a))
       (ip_to_sortable_key (ipaddress.str b)) = (a <=? b)
  /\ (forall db cidr pre mid post,
        get_free_ips db cidr
        = pre ++ ipaddress.str a :: mid ++ ipaddress.str b :: post ->
        a <= b)
  /\ (forall db cidr f pre mid post x y,
        get_ips_by_subnet db cidr f = pre ++ x :: mid ++ y :: post ->
        t_ip_address x = ipaddress.str a -> t_ip_address y = ipaddress.str b ->
        a <= b)
  /\ (forall db subnet status keyword pre mid post x y,
        search_ips db subnet status keyword = pre ++ x :: mid ++ y :: post ->
        t_ip_address (s_ip x) = ipaddress.str a ->
        t_ip_address (s_ip y) = ipaddress.str b ->
        a <= b).
Proof.
  intros Ha Hb. split; [apply key_of_str|].
  split; [rewrite !key_of_str; now apply to_bytes_order|].
  split; [|split].
  - intros db cidr pre mid post E.
    apply (ascending_numeric (fun ip => ip) (get_free_ips db cidr) pre mid
             post (ipaddress.str a) (ipaddress.str b) a b); auto.
    unfold get_free_ips. apply (sort_ascending (fun ip => ip)).
  - intros db cidr f pre mid post x y E Hx Hy.
    apply (ascending_numeric t_ip_address (get_ips_by_subnet db cidr f) pre
             mid post x y a b); auto.
    unfold get_ips_by_subnet. apply (sort_ascending t_ip_address).
  - intros db subnet status keyword pre mid post x y E Hx Hy.
    apply (ascending_numeric (fun t => t_ip_address (s_ip t))
             (search_ips db subnet status keyword) pre mid post x y a b); auto.
    unfold search_ips. apply (sort_ascending (fun t => t_ip_address (s_ip t))).
Qed.

(** 10.0.0.9 and 10.0.0.10: as texts the second is the smaller one. *)
Lemma sort_key_orders_by_value_witness :
  (ip_to_sortable_key (ipaddress.str 167772169) = ipaddress.to_bytes 167772169
   /\ Py.tuple_leb (ip_to_sortable_key (ipaddress.str 167772169))
        (ip_to_sortable_key (ipaddress.str 167772170))
      = (167772169 <=? 167772170)
   /\ (forall db cidr pre mid post,
         get_free_ips db cidr
         = pre ++ ipaddress.str 167772169 :: mid
               ++ ipaddress.str 167772170 :: post ->
         167772169 <= 167772170)
   /\ (forall db cidr f pre mid post x y,
         get_ips_by_subnet db cidr f = pre ++ x :: mid ++ y :: post ->
         t_ip_address x = ipaddress.str 167772169 ->
         t_ip_address y = ipaddress.str 167772170 ->
         167772169 <= 167772170)
   /\ (forall db subnet status keyword pre mid post x y,
         search_ips db subnet status keyword = pre ++ x :: mid ++ y :: post ->
         t_ip_address (s_ip x) = ipaddress.str 167772169 ->
         t_ip_address (s_ip y) = ipaddress.str 167772170 ->
         167772169 <= 167772170))
  /\ ipaddress.str 167772169 = "10.0.0.9"
  /\ ipaddress.str 167772170 = "10.0.0.10"
  /\ Py.str_leb "10.0.0.9" "10.0.0.10" = false.
Proof.
  split; [|vm_compute; repeat split].
  apply (sort_key_orders_by_value 167772169 167772170); lia.
Defined.

(** ** The address import *)









(** An import of four rows into 10.0.0.0/30: one row is too short, one
    names an address that is not stored, and 10.0.0.1 is mentioned twice. *)
Example import_ips_report_example :
  let clk := mkClock "2024-01-01 00:00:00" "2024-01-01 08:00:00" in
  let db := snd (create_subnet clk "10.0.0.0/30" "" "" "" empty_database) in
  let csv := [["10.0.0.1"; " USED "]; ["10.0.0.9"; "free"]; ["10.0.0.2"];
              [" 10.0.0.1"; "reserved"]] in
  fst (import_ips_from_csv clk csv None db)
  = (0, 2, [IpNotExistSkipped "10.0.0.9"])
  /\ option_map Address.status
       (select_ip "10.0.0.1" (snd (import_ips_from_csv clk csv None db)))
     = Some reserved
  /\ option_map Address.status
       (select_ip "10.0.0.2" (snd (import_ips_from_csv clk csv None db)))
     = Some free.
Proof. vm_compute. repeat split. Qed.

(** ** Bulk allocation: the report *)

Lemma allocate_ip_result clk ip to mac dev notes db :
  allocate_ip clk ip to mac dev notes db
  = if is_free db ip
    then ((true, IpAllocated ip),
          insert_history clk ip allocate free used to notes
            (update_ip ip (set_allocated clk to mac dev notes) db))
    else ((false,
           match select_ip ip db with
           | Some r => IpCannotAllocate ip (Address.status r)
           | None => IpNotExist ip
           end), db).
Proof.
  unfold allocate_ip, call, allocate_ip_body, bind, query, get_connection,
    is_free.
  cbn [pending].
  destruct (select_ip ip db) as [r|]; [|reflexivity].
  destruct (Address.status r); reflexivity.
Qed.

Lemma is_free_after_allocate clk ip to mac dev notes db y :
  is_free (insert_history clk ip allocate free used to notes
             (update_ip ip (set_allocated clk to mac dev notes) db)) y
  = is_free db y && negb (String.eqb y ip).
Proof.
  unfold is_free. rewrite select_after_update by reflexivity.
  destruct (String.eqb_spec y ip) as [->|_]; cbn [negb].
  - rewrite andb_false_r. now destruct (select_ip ip db).
  - now rewrite andb_true_r.
Qed.

Lemma filter_filter_comm {A} (p q : A -> bool) (l : list A) :
  filter p (filter q l) = filter (fun x => q x && p x) l.
Proof. symmetry. apply filter_andb. Qed.

Lemma bulk_loop clk to mac dev notes sel cnt errs db :
  exists errs' hs,
    fold_left (bulk_allocate_item clk to mac dev notes) sel ((cnt, errs), db)
    = ((cnt + Z.of_nat (List.length (filter (is_free db) (distinct sel))),
        errs ++ errs'),
       snd (fold_left (bulk_allocate_item clk to mac dev notes) sel
              ((cnt, errs), db)))
    /\ (List.length (filter (is_free db) (distinct sel))
        + List.length errs')%nat = List.length sel
    /\ ip_history
         (snd (fold_left (bulk_allocate_item clk to mac dev notes) sel
                 ((cnt, errs), db)))
       = ip_history db ++ hs
    /\ List.length hs = List.length (filter (is_free db) (distinct sel))
    /\ Forall (fun h => History.action h = allocate
                        /\ History.old_status h = free
                        /\ History.new_status h = used) hs
    /\ Forall (fun e => In (fst e) sel) errs'.
Proof.
  revert cnt errs db. induction sel as [|x sel IH]; intros cnt errs db.
  - exists [], []. cbn. rewrite Z.add_0_r, !app_nil_r.
    repeat split; constructor.
  - cbn [fold_left distinct filter]. unfold bulk_allocate_item at 2 4 6.
    rewrite allocate_ip_result.
    destruct (is_free db x) eqn:Hx.
    + set (db1 := insert_history clk x allocate free used to notes
                    (update_ip x (set_allocated clk to mac dev notes) db)).
      destruct (IH (cnt + 1) errs db1) as (errs' & hs & Hrun & Hlen & Hh & Hhl
                                            & Hact & Herr).
      assert (Hf : filter (is_free db) (filter (fun y => negb (String.eqb y x))
                                          (distinct sel))
                   = filter (is_free db1) (distinct sel)).
      { rewrite filter_filter_comm. apply filter_ext. intros y.
        subst db1. rewrite is_free_after_allocate. apply andb_comm. }
      rewrite Hf. cbn [List.length].
      exists errs', (History.mk (seq_ip_history db + 1) x allocate free used to
                       notes (CURRENT_TIMESTAMP clk) :: hs).
      split; [|split; [|split; [|split; [|split]]]].
      * rewrite Hrun at 1. do 2 f_equal. lia.
      * lia.
      * rewrite Hh. subst db1. cbn. now rewrite <- app_assoc.
      * cbn [List.length]. now rewrite Hhl.
      * constructor; [now repeat split | exact Hact].
      * eapply Forall_impl; [|exact Herr]. intros e He. now right.
    + set (msg := match select_ip x db with
                  | Some r => IpCannotAllocate x (Address.status r)
                  | None => IpNotExist x
                  end).
      destruct (IH cnt (errs ++ [(x, msg)]) db)
        as (errs' & hs & Hrun & Hlen & Hh & Hhl & Hact & Herr).
      assert (Hf : filter (is_free db) (filter (fun y => negb (String.eqb y x))
                                          (distinct sel))
                   = filter (is_free db) (distinct sel)).
      { rewrite filter_filter_comm. apply filter_ext. intros y.
        destruct (String.eqb_spec y x) as [->|_]; cbn [negb andb];
          [now rewrite Hx | reflexivity]. }
      rewrite Hf.
      exists ((x, msg) :: errs'), hs.
      split; [|split; [|split; [|split; [|split]]]].
      * rewrite Hrun at 1. now rewrite <- app_assoc.
      * cbn [List.length]. lia.
      * exact Hh.
      * exact Hhl.
      * exact Hact.
      * constructor; [now left|].
        eapply Forall_impl; [|exact Herr]. intros e He. now right.
Qed.

(** X16.  The report of the bulk allocation.  The number of successes is
    the number of distinct selected addresses that were stored and free
    before the call: an address selected twice is allocated once, and a
    reserved, used or unknown address never.  Successes and messages
    together account for every selected item, every message is about a
    selected address, and the history grows by exactly one allocate row,
    from free to used, per success. *)
Theorem bulk_allocate_report (clk : Clock) (selected : list string)
    (allocated_to mac device_type notes : string) (db : Database) :
  let res := bulk_allocate clk selected allocated_to mac device_type notes db in
  let success_count := fst (fst res) in
  let error_messages := snd (fst res) in
  success_count
  = Z.of_nat (List.length (filter (is_free db) (distinct selected)))
  /\ success_count + Z.of_nat (List.length error_messages)
     = Z.of_nat (List.length selected)
  /\ Forall (fun e => In (fst e) selected) error_messages
  /\ exists hs,
       ip_history (snd res) = ip_history db ++ hs
       /\ Z.of_nat (List.length hs) = success_count
       /\ Forall (fun h => History.action h = allocate
                           /\ History.old_status h = free
                           /\ History.new_status h = used) hs.
Proof.
  cbv zeta. unfold bulk_allocate.
  destruct (bulk_loop clk allocated_to mac device_type notes selected 0 [] db)
    as (errs' & hs & Hrun & Hlen & Hh & Hhl & Hact & Herr).
  rewrite Hh. rewrite Hrun. cbn [fst snd app Z.add].
  split; [reflexivity|]. split; [lia|]. split; [exact Herr|].
  exists hs. split; [reflexivity|]. split; [now rewrite Hhl | exact Hact].
Qed.

(** 10.0.0.1 selected twice, the reserved network address and an address
    that is not stored: one success, three messages. *)
Example bulk_allocate_report_example :
  let clk := mkClock "2024-01-01 00:00:00" "2024-01-01 08:00:00" in
  let db := snd (create_subnet clk "10.0.0.0/30" "" "" "" empty_database) in
  fst (bulk_allocate clk ["10.0.0.1"; "10.0.0.1"; "10.0.0.0"; "10.0.0.9"]
         "srv01" "" "" "" db)
  = (1, [("10.0.0.1", IpCannotAllocate "10.0.0.1" used);
         ("10.0.0.0", IpCannotAllocate "10.0.0.0" reserved);
         ("10.0.0.9", IpNotExist "10.0.0.9")]).
Proof. vm_compute. reflexivity. Qed.

(** ** The subnet import *)



(** A file with a padded CIDR text, a repeated one, an empty row and a
    text that is no network. *)
Example import_subnets_report_example :
  let clk := mkClock "2024-01-01 00:00:00" "2024-01-01 08:00:00" in
  let res := import_subnet_from_csv clk
               [[" 10.0.0.0/30 "; " lab "]; ["10.0.0.0/30"]; [];
                ["10.0.0.0/33"]] empty_database in
  fst res = (1, [SubnetExists "10.0.0.0/30"; InvalidSubnetFormat ValueError])
  /\ map (fun s => (Subnet.subnet_cidr s, Subnet.description s))
       (subnets (snd res))
     = [("10.0.0.0/30", Some "lab")].
Proof. vm_compute. split; reflexivity. Qed.

(** ** A new subnet in the listings *)

Lemma insert_map {A B K} (leb : K -> K -> bool) (key : B -> K) (f : A -> B)
    (x : A) (l : list A) :
  map f (Py.insert leb (fun a => key (f a)) x l)
  = Py.insert leb key (f x) (map f l).
Proof.
  induction l as [|y l IH]; cbn [Py.insert map]; [reflexivity|].
  destruct (leb (key (f x)) (key (f y))); cbn [map]; [reflexivity|].
  now rewrite IH.
Qed.

Lemma sort_map {A B K} (leb : K -> K -> bool) (key : B -> K) (f : A -> B)
    (l : list A) :
  map f (Py.sort leb (fun a => key (f a)) l) = Py.sort leb key (map f l).
Proof.
  induction l as [|x l IH]; cbn [Py.sort map]; [reflexivity|].
  now rewrite insert_map, IH.
Qed.

Lemma range_cons (lo hi : Z) :
  lo < hi -> ipaddress.range lo hi = lo :: ipaddress.range (lo + 1) hi.
Proof.
  intros H. unfold ipaddress.range.
  replace (Z.to_nat (hi - lo)) with (S (Z.to_nat (hi - (lo + 1)))) by lia.
  cbn [seq map]. f_equal; [lia|].
  rewrite <- seq_shift, map_map. apply map_ext. intros i. lia.
Qed.

Lemma range_snoc (lo hi : Z) :
  lo <= hi -> ipaddress.range lo (hi + 1) = ipaddress.range lo hi ++ [hi].
Proof.
  intros H. unfold ipaddress.range.
  replace (Z.to_nat (hi + 1 - lo)) with (Z.to_nat (hi - lo) + 1)%nat by lia.
  rewrite seq_app, map_app. cbn [seq map]. do 2 f_equal. lia.
Qed.

Lemma range_sorted (lo hi : Z) : StronglySorted Z.lt (ipaddress.range lo hi).
Proof.
  unfold ipaddress.range. generalize (Z.to_nat (hi - lo)) as k.
  generalize 0%nat as start. intros start k. revert start.
  induction k as [|k IH]; intros start; cbn [seq map]; constructor.
  - apply IH.
  - apply Forall_forall. intros x Hx. apply in_map_iff in Hx as (i & <- & Hi).
    apply in_seq in Hi. lia.
Qed.

(** A list of dotted quads sorted by the key is the list in the order of
    the values. *)
Lemma sorted_strs (vs : list Z) (m : list string) :
  Forall (fun a => 0 <= a < 2 ^ 32) vs -> StronglySorted Z.lt vs ->
  StronglySorted (key_le Py.tuple_leb ip_to_sortable_key) m ->
  Permutation m (map ipaddress.str vs) ->
  m = map ipaddress.str vs.
Proof.
  intros Hr Hs. revert m. induction Hs as [|v vs Hs IH Hlt]; intros m Hm Hp.
  - cbn [map] in *. now apply Permutation_nil, Permutation_sym.
  - apply Forall_cons_iff in Hr as [Hv Hr]. cbn [map] in *.
    destruct m as [|x m];
      [apply Permutation_nil in Hp; discriminate Hp|].
    apply StronglySorted_inv in Hm as [Hm Hall].
    assert (Hx : x = ipaddress.str v).
    { assert (Hin : In x (ipaddress.str v :: map ipaddress.str vs))
        by (apply (Permutation_in _ Hp); now left).
      destruct Hin as [->|Hin]; [reflexivity|].
      apply in_map_iff in Hin as (w & <- & Hw).
      assert (Hvw : v < w) by exact (proj1 (Forall_forall _ _) Hlt w Hw).
      assert (Hw32 : 0 <= w < 2 ^ 32) by exact (proj1 (Forall_forall _ _) Hr w Hw).
      assert (Hvin : In (ipaddress.str v) (ipaddress.str w :: m))
        by (apply (Permutation_in _ (Permutation_sym Hp)); now left).
      destruct Hvin as [E|Hvin].
      - apply str_injective in E; [lia | assumption | assumption].
      - exfalso.
        pose proof (proj1 (Forall_forall _ _) Hall _ Hvin) as Hle.
        unfold key_le in Hle.
        rewrite !key_of_str, (to_bytes_order w v Hw32 Hv) in Hle.
        apply Z.leb_le in Hle. lia. }
    subst x. f_equal. apply IH; [exact Hr | exact Hm|].
    now apply Permutation_cons_inv in Hp.
Qed.

Lemma sort_strs (vs : list Z) (l : list string) :
  Forall (fun a => 0 <= a < 2 ^ 32) vs -> StronglySorted Z.lt vs ->
  Permutation l (map ipaddress.str vs) ->
  Py.sort Py.tuple_leb ip_to_sortable_key l = map ipaddress.str vs.
Proof.
  intros Hr Hs Hp. apply sorted_strs; [exact Hr | exact Hs | |].
  - apply (sort_sorted Py.tuple_leb ip_to_sortable_key tuple_leb_total
             tuple_leb_trans).
  - rewrite <- Hp. apply Permutation_sym, sort_perm.
Qed.

Lemma hosts_range (s : string) (net : ipaddress.IPv4Network) :
  ipaddress.ip_network s = Some net -> ipaddress.prefixlen net <= 30 ->
  let a := ipaddress.network_address net in
  let size := 2 ^ (32 - ipaddress.prefixlen net) in
  ipaddress.hosts net = ipaddress.range (a + 1) (a + size - 1)
  /\ ipaddress.broadcast_address net = a + size - 1
  /\ 0 <= a /\ a + size <= 2 ^ 32 /\ 4 <= size.
Proof.
  intros Hnet Hp a size.
  destruct (ip_network_block s net Hnet) as (Hp0 & Ha & Hsz & Hb).
  fold a in Ha, Hsz, Hb. fold size in Hsz, Hb.
  assert (Hsize : 4 <= size).
  { change 4 with (2 ^ 2). apply Z.pow_le_mono_r; lia. }
  repeat split; try assumption.
  unfold ipaddress.hosts, ipaddress.max_prefixlen.
  destruct (Z.eqb_spec (ipaddress.prefixlen net) (32 - 1)); [lia|].
  destruct (Z.eqb_spec (ipaddress.prefixlen net) 32); [lia|].
  fold a. now rewrite Hb.
Qed.

Lemma new_rows_app clk sid start specs specs' :
  new_rows clk sid start (specs ++ specs')
  = new_rows clk sid start specs
    ++ new_rows clk sid (start + Z.of_nat (List.length specs)) specs'.
Proof.
  revert start. induction specs as [|[[ip st] notes] rest IH]; intros start.
  - cbn [app new_rows List.length]. f_equal. cbn. lia.
  - cbn [app new_rows List.length]. rewrite IH. do 3 f_equal. lia.
Qed.

Lemma new_rows_filter_ips clk sid start st specs :
  map Address.ip_address
    (filter (fun r => Status_eqb (Address.status r) st)
       (new_rows clk sid start specs))
  = map spec_ip
      (filter (fun x : row_spec => Status_eqb (snd (fst x)) st) specs).
Proof.
  revert start. induction specs as [|[[ip s] notes] rest IH]; intros start;
    cbn [new_rows filter map Address.status fst snd]; [reflexivity|].
  destruct (Status_eqb s st); cbn [map Address.ip_address]; now rewrite IH.
Qed.

Lemma host_specs_filter st hosts :
  filter (fun x : row_spec => Status_eqb (snd (fst x)) st) (host_specs hosts)
  = if Status_eqb free st then host_specs hosts else [].
Proof.
  unfold host_specs.
  destruct st; cbn [Status_eqb].
  - apply filter_all. intros x Hx. apply in_map_iff in Hx as (a & <- & _).
    reflexivity.
  - apply filter_none. intros x Hx. apply in_map_iff in Hx as (a & <- & _).
    reflexivity.
  - apply filter_none. intros x Hx. apply in_map_iff in Hx as (a & <- & _).
    reflexivity.
Qed.

Lemma find_app_Some {A} (p : A -> bool) (l l' : list A) (x : A) :
  find p l = Some x -> find p (l ++ l') = Some x.
Proof.
  induction l as [|a l IH]; cbn [find app]; [discriminate|].
  destruct (p a); [trivial | exact IH].
Qed.

(** The rows that the listings select for the CIDR text of a subnet that
    has just been created are the rows that the call inserted. *)
Lemma created_rows_owned clk cidr d g n db specs (q : Address.row -> bool) :
  well_formed db -> select_subnet_id cidr db = None ->
  let db' := append_rows clk (seq_subnets db + 1) specs
               (with_new_subnet clk cidr d g n db) in
  filter (fun r => owned_by db' cidr r && q r) (ip_addresses db')
  = filter q (new_rows clk (seq_subnets db + 1) (seq_ip_addresses db) specs).
Proof.
  intros (_ & _ & _ & Hle & Hown) Hsel db'.
  assert (Hsub : subnets db'
                 = subnets db
                   ++ [Subnet.mk (seq_subnets db + 1) cidr (Some d) (Some g)
                         (Some n) (CURRENT_TIMESTAMP clk)]) by reflexivity.
  assert (Hrows : ip_addresses db'
                  = ip_addresses db
                    ++ new_rows clk (seq_subnets db + 1) (seq_ip_addresses db)
                         specs) by reflexivity.
  rewrite Hrows, filter_app.
  assert (Hold : filter (fun r => owned_by db' cidr r && q r) (ip_addresses db)
                 = []).
  { apply filter_none. intros r Hr.
    destruct (proj1 (Forall_forall _ _) Hown r Hr) as (s & Hs & Hid).
    unfold owned_by, owner. rewrite Hid, Hsub.
    destruct (find (fun x => Subnet.id x =? Subnet.id s) (subnets db))
      as [s'|] eqn:E.
    - rewrite (find_app_Some _ _ _ _ E).
      apply find_some in E as [Hin' _].
      assert (Hc : has_cidr cidr s' = false).
      { destruct (has_cidr cidr s') eqn:Hc; [|reflexivity].
        exfalso. apply (select_subnet_id_absent cidr db Hsel).
        unfold has_cidr in Hc. apply String.eqb_eq in Hc. rewrite <- Hc.
        now apply in_map. }
      now rewrite Hc.
    - exfalso. pose proof (find_none _ _ E s Hs) as H. cbv beta in H.
      now rewrite Z.eqb_refl in H. }
  rewrite Hold. cbn [app]. apply filter_ext_in. intros r Hr.
  apply new_rows_owner in Hr. unfold owned_by, owner. rewrite Hr, Hsub.
  rewrite find_app_None.
  - cbn [find Subnet.id]. rewrite Z.eqb_refl. unfold has_cidr.
    cbn [Subnet.subnet_cidr]. now rewrite String.eqb_refl.
  - destruct (find (fun x => Subnet.id x =? seq_subnets db + 1) (subnets db))
      as [s'|] eqn:E; [|reflexivity].
    apply find_some in E as [Hin' Hid]. apply Z.eqb_eq in Hid.
    pose proof (proj1 (Forall_forall _ _) Hle s' Hin') as Hs'.
    cbv beta in Hs'. lia.
Qed.

Lemma block_permutation (a size : Z) :
  4 <= size ->
  Permutation
    (ipaddress.range (a + 1) (a + size - 1) ++ [a; a + size - 1])
    (ipaddress.range a (a + size)).
Proof.
  intros Hs. rewrite (range_cons a (a + size)) by lia.
  assert (E : ipaddress.range (a + 1) (a + size)
              = ipaddress.range (a + 1) (a + size - 1) ++ [a + size - 1]).
  { rewrite <- range_snoc by lia. f_equal. lia. }
  rewrite E. rewrite <- Permutation_middle. apply perm_skip. reflexivity.
Qed.

Lemma range_bounds (lo hi : Z) :
  0 <= lo -> hi <= 2 ^ 32 ->
  Forall (fun a => 0 <= a < 2 ^ 32) (ipaddress.range lo hi).
Proof.
  intros Hlo Hhi. apply Forall_forall. intros x Hx. apply range_In in Hx. lia.
Qed.

Lemma get_ips_by_subnet_status db cidr label st :
  status_map label = Some st ->
  get_ips_by_subnet db cidr (Some label)
  = Py.sort Py.tuple_leb (fun x => ip_to_sortable_key (t_ip_address x))
      (map ip_tuple
         (filter (fun r => owned_by db cidr r
                           && Status_eqb (Address.status r) st)
            (ip_addresses db))).
Proof.
  intros Hl. unfold get_ips_by_subnet.
  assert (Hg : given (Some label) = Some label)
    by (destruct label; [discriminate Hl | reflexivity]).
  assert (Hall : String.eqb label "all" = false).
  { destruct (String.eqb_spec label "all") as [->|]; [discriminate Hl|].
    reflexivity. }
  now rewrite Hg, Hall, Hl.
Qed.

(** X18.  A new subnet in the listings.  On a database that satisfies the
    schema constraints, right after a successful [create_subnet] the
    export of the subnet lists every address of the block, from the
    network address to the broadcast address, in increasing order;
    [get_free_ips] offers exactly the addresses strictly between the two;
    the reserved ones are the network and the broadcast address; and none
    is used. *)
Theorem created_subnet_listing (clk : Clock) (cidr d g n : string)
    (db db' : Database) (msg : Message) (net : ipaddress.IPv4Network) :
  well_formed db ->
  ipaddress.ip_network cidr = Some net ->
  create_subnet clk cidr d g n db = ((true, msg), db') ->
  let a := ipaddress.network_address net in
  let size := 2 ^ (32 - ipaddress.prefixlen net) in
  map t_ip_address (export_subnet_data db' cidr)
  = map ipaddress.str (ipaddress.range a (a + size))
  /\ get_free_ips db' cidr
     = map ipaddress.str (ipaddress.range (a + 1) (a + size - 1))
  /\ map t_ip_address (get_ips_by_subnet db' cidr (Some "保留"))
     = [ipaddress.str a; ipaddress.str (a + size - 1)]
  /\ get_ips_by_subnet db' cidr (Some "已用") = [].
Proof.
  intros Hwf Hnet Hc a size.
  pose proof (create_subnet_created _ _ _ _ _ _ _ _ Hc)
    as (net0 & Hnet0 & Hp & _).
  assert (net0 = net) by congruence. subst net0.
  apply create_subnet_committed in Hc as (net0 & Hnet1 & Hsel & _ & _ & ->).
  assert (net0 = net) by congruence. subst net0.
  destruct (hosts_range cidr net Hnet (proj2 Hp))
    as (Hhosts & Hb & Ha & Hsz & Hsize).
  fold a in Hhosts, Hb, Ha, Hsz. fold size in Hhosts, Hb, Hsz, Hsize.
  assert (Hspecs : forall st,
             map spec_ip
               (filter (fun x : row_spec => Status_eqb (snd (fst x)) st)
                  (address_specs net))
             = match st with
               | free => map ipaddress.str
                           (ipaddress.range (a + 1) (a + size - 1))
               | used => []
               | reserved => [ipaddress.str a; ipaddress.str (a + size - 1)]
               end).
  { intros st. unfold address_specs. rewrite filter_app, host_specs_filter.
    fold a. rewrite Hb, Hhosts.
    destruct st; cbn [Status_eqb filter fst snd app map spec_ip];
      rewrite ?app_nil_r; try reflexivity.
    apply spec_ip_host_specs. }
  split; [|split; [|split]].
  - unfold export_subnet_data, get_ips_by_subnet. cbn [given].
    rewrite (sort_map Py.tuple_leb ip_to_sortable_key t_ip_address).
    rewrite (created_rows_owned clk cidr d g n db (address_specs net)
               (fun _ => true) Hwf Hsel).
    rewrite filter_all by reflexivity.
    rewrite map_map. change (fun x => t_ip_address (ip_tuple x))
      with Address.ip_address.
    rewrite new_rows_ips, address_specs_ips. fold a. rewrite Hb, Hhosts.
    apply sort_strs.
    + apply range_bounds; lia.
    + apply range_sorted.
    + apply Permutation_map. now apply block_permutation.
  - unfold get_free_ips.
    rewrite (created_rows_owned clk cidr d g n db (address_specs net)
               (fun r => Status_eqb (Address.status r) free) Hwf Hsel).
    rewrite new_rows_filter_ips, (Hspecs free).
    apply sort_strs.
    + apply range_bounds; lia.
    + apply range_sorted.
    + reflexivity.
  - rewrite (get_ips_by_subnet_status _ _ "保留" reserved eq_refl).
    rewrite (sort_map Py.tuple_leb ip_to_sortable_key t_ip_address).
    rewrite (created_rows_owned clk cidr d g n db (address_specs net)
               (fun r => Status_eqb (Address.status r) reserved) Hwf Hsel).
    rewrite map_map. change (fun x => t_ip_address (ip_tuple x))
      with Address.ip_address.
    rewrite new_rows_filter_ips, (Hspecs reserved).
    change [ipaddress.str a; ipaddress.str (a + size - 1)]
      with (map ipaddress.str [a; a + size - 1]).
    apply sort_strs.
    + repeat constructor; lia.
    + repeat constructor; lia.
    + reflexivity.
  - rewrite (get_ips_by_subnet_status _ _ "已用" used eq_refl).
    rewrite (created_rows_owned clk cidr d g n db (address_specs net)
               (fun r => Status_eqb (Address.status r) used) Hwf Hsel).
    assert (Hnone : filter (fun r => Status_eqb (Address.status r) used)
                      (new_rows clk (seq_subnets db + 1) (seq_ip_addresses db)
                         (address_specs net)) = []).
    { apply map_eq_nil with (f := Address.ip_address).
      now rewrite new_rows_filter_ips, (Hspecs used). }
    now rewrite Hnone.
Qed.

(** 192.168.1.0/29 created beside an existing subnet: 8 rows exported,
    6 offered. *)
Lemma created_subnet_listing_witness :
  let clk := mkClock "2024-01-01 00:00:00" "2024-01-01 08:00:00" in
  let db := snd (create_subnet clk "10.0.0.0/30" "" "" "" empty_database) in
  let db' := snd (create_subnet clk "192.168.1.0/29" "lab" "" "" db) in
  well_formed db
  /\ map t_ip_address (export_subnet_data db' "192.168.1.0/29")
     = map ipaddress.str (ipaddress.range 3232235776 (3232235776 + 8))
  /\ get_free_ips db' "192.168.1.0/29"
     = map ipaddress.str (ipaddress.range (3232235776 + 1) (3232235776 + 8 - 1))
  /\ map t_ip_address (get_ips_by_subnet db' "192.168.1.0/29" (Some "保留"))
     = [ipaddress.str 3232235776; ipaddress.str (3232235776 + 8 - 1)]
  /\ get_ips_by_subnet db' "192.168.1.0/29" (Some "已用") = [].
Proof.
  intros clk db db'.
  assert (Hwf : well_formed db)
    by (apply create_subnet_well_formed, empty_well_formed).
  split; [exact Hwf|].
  assert (Hnet : ipaddress.ip_network "192.168.1.0/29"
                 = Some (ipaddress.mkNetwork 3232235776 29))
    by (vm_compute; reflexivity).
  assert (Hc : create_subnet clk "192.168.1.0/29" "lab" "" "" db
               = ((true, SubnetCreated "192.168.1.0/29" 8), db'))
    by (vm_compute; reflexivity).
  exact (created_subnet_listing clk "192.168.1.0/29" "lab" "" "" db db'
           (SubnetCreated "192.168.1.0/29" 8)
           (ipaddress.mkNetwork 3232235776 29) Hwf Hnet Hc).
Defined.

(** ** The export of all data *)

Lemma str_leb_refl (a : string) : Py.str_leb a a = true.
Proof. destruct (str_leb_total a a); assumption. Qed.

Lemma order_by_leb_total (x y : string * option string) :
  order_by_leb x y = true \/ order_by_leb y x = true.
Proof.
  destruct x as [a oa], y as [b ob]. unfold order_by_leb. cbn [fst snd].
  destruct (Py.str_leb a b) eqn:E1, (Py.str_leb b a) eqn:E2; cbn [negb]; auto.
  destruct oa as [u|], ob as [v|]; auto. apply str_leb_total.
Qed.

Lemma order_by_leb_trans (x y z : string * option string) :
  order_by_leb x y = true -> order_by_leb y z = true ->
  order_by_leb x z = true.
Proof.
  destruct x as [a oa], y as [b ob], z as [c oc]. unfold order_by_leb.
  cbn [fst snd].
  pose proof (str_leb_trans a b c) as Tabc.
  pose proof (str_leb_trans a c b) as Tacb.
  pose proof (str_leb_trans b a c) as Tbac.
  pose proof (str_leb_trans b c a) as Tbca.
  pose proof (str_leb_trans c a b) as Tcab.
  pose proof (str_leb_trans c b a) as Tcba.
  destruct (Py.str_leb a b) eqn:Eab, (Py.str_leb b a) eqn:Eba,
    (Py.str_leb b c) eqn:Ebc, (Py.str_leb c b) eqn:Ecb,
    (Py.str_leb a c) eqn:Eac, (Py.str_leb c a) eqn:Eca;
    cbn [negb]; intros H1 H2; try reflexivity; try discriminate;
    try (specialize (Tabc eq_refl eq_refl); discriminate);
    try (specialize (Tacb eq_refl eq_refl); discriminate);
    try (specialize (Tbac eq_refl eq_refl); discriminate);
    try (specialize (Tbca eq_refl eq_refl); discriminate);
    try (specialize (Tcab eq_refl eq_refl); discriminate);
    try (specialize (Tcba eq_refl eq_refl); discriminate).
  all: destruct oa as [u|], ob as [v|], oc as [w|]; try reflexivity;
    try discriminate; try (now apply (str_leb_trans u v w)).
  all: try (destruct (str_leb_total a b); congruence).
  all: try (destruct (str_leb_total b c); congruence).
  all: destruct (str_leb_total a c); congruence.
Qed.

Lemma left_join_group_length db s :
  Z.of_nat (List.length (left_join_group db s))
  = Z.max 1 (Z.of_nat (List.length (rows_of_subnet db (Subnet.id s)))).
Proof.
  unfold left_join_group. fold (rows_of_subnet db (Subnet.id s)).
  destruct (rows_of_subnet db (Subnet.id s)) as [|r rows]; [reflexivity|].
  rewrite length_map. cbn [List.length]. lia.
Qed.

Lemma left_join_group_In db s o :
  In o (left_join_group db s)
  <-> (o = None /\ rows_of_subnet db (Subnet.id s) = [])
      \/ exists r, o = Some r /\ In r (ip_addresses db)
                   /\ Address.subnet_id r = Some (Subnet.id s).
Proof.
  assert (Hrows : forall r, In r (rows_of_subnet db (Subnet.id s))
                            <-> In r (ip_addresses db)
                                /\ Address.subnet_id r = Some (Subnet.id s)).
  { intros r. unfold rows_of_subnet. rewrite filter_In.
    destruct (Address.subnet_id r) as [i|].
    - rewrite Z.eqb_eq. split; intros [H1 H2]; split; congruence.
    - split; intros [H1 H2]; discriminate. }
  unfold left_join_group. fold (rows_of_subnet db (Subnet.id s)).
  destruct (rows_of_subnet db (Subnet.id s)) as [|r0 rows] eqn:E.
  - split.
    + intros [<-|[]]. now left.
    + intros [[-> _]|(r & _ & Hr)]; [now left|].
      apply Hrows in Hr. destruct Hr.
  - rewrite in_map_iff. split.
    + intros (r & <- & Hr). right. exists r.
      split; [reflexivity | now apply Hrows].
    + intros [[_ H]|(r & -> & Hr)]; [discriminate|].
      exists r. split; [reflexivity | now apply Hrows].
Qed.

Lemma flat_map_length_sum {A B} (f : A -> list B) (l : list A) :
  Z.of_nat (List.length (flat_map f l))
  = sum_of (fun x => Z.of_nat (List.length (f x))) l.
Proof.
  induction l as [|a l IH]; [reflexivity|].
  cbn [flat_map]. rewrite length_app, sum_of_cons. lia.
Qed.

(** X19.  The export of all data.  [export_all_data] returns, for every
    stored subnet, one row per address row of the subnet, or a single row
    with NULL address columns when the subnet has none, and nothing else:
    an address row whose subnet is not stored is not exported.  The rows
    are ordered by CIDR text and then by address text, both as texts, so
    that 10.0.0.10 is exported before 10.0.0.2, unlike in the listings. *)
Theorem export_all_data_rows (db : Database) :
  Z.of_nat (List.length (export_all_data db))
  = sum_of (fun e => Z.max 1 (total_ips e)) (get_subnets_with_stats db)
  /\ (forall t,
        In t (export_all_data db)
        <-> exists s,
              In s (subnets db)
              /\ ((t = export_tuple s None
                   /\ rows_of_subnet db (Subnet.id s) = [])
                  \/ exists r,
                       t = export_tuple s (Some r)
                       /\ In r (ip_addresses db)
                       /\ Address.subnet_id r = Some (Subnet.id s)))
  /\ StronglySorted
       (fun t t' =>
          order_by_leb (e_subnet_cidr t, e_ip_address t)
            (e_subnet_cidr t', e_ip_address t') = true)
       (export_all_data db).
Proof.
  unfold export_all_data. split; [|split].
  - rewrite sort_length, flat_map_length_sum.
    unfold get_subnets_with_stats. rewrite sum_of_map.
    rewrite <- (sum_of_perm _ _ _
                  (sort_perm Py.str_leb Subnet.subnet_cidr (subnets db))).
    apply sum_of_ext. intros s _. rewrite length_map, left_join_group_length.
    now destruct (subnet_stats_spec db true s) as (_ & -> & _).
  - intros t. split.
    + intros Hin.
      apply (Permutation_in _ (Permutation_sym (sort_perm _ _ _))) in Hin.
      apply in_flat_map in Hin as (s & Hs & Hin).
      apply in_map_iff in Hin as (o & <- & Ho).
      exists s. split; [exact Hs|].
      apply left_join_group_In in Ho as [[-> Hnone]|(r & -> & Hr)].
      * now left.
      * right. now exists r.
    + intros (s & Hs & H). apply (Permutation_in _ (sort_perm _ _ _)).
      apply in_flat_map. exists s. split; [exact Hs|]. apply in_map_iff.
      destruct H as [[-> Hnone]|(r & -> & Hr)].
      * exists None. split; [reflexivity|]. apply left_join_group_In. now left.
      * exists (Some r). split; [reflexivity|]. apply left_join_group_In.
        right. now exists r.
  - apply (sort_sorted order_by_leb
             (fun t => (e_subnet_cidr t, e_ip_address t))
             order_by_leb_total order_by_leb_trans).
Qed.

(** A /28: the export follows the text of the addresses, the listing of
    the subnet their value. *)
Example export_all_data_text_order :
  let clk := mkClock "2024-01-01 00:00:00" "2024-01-01 08:00:00" in
  let db := snd (create_subnet clk "10.0.0.0/28" "" "" "" empty_database) in
  firstn 4 (map e_ip_address (export_all_data db))
  = [Some "10.0.0.0"; Some "10.0.0.1"; Some "10.0.0.10"; Some "10.0.0.11"]
  /\ firstn 4 (map t_ip_address (export_subnet_data db "10.0.0.0/28"))
     = ["10.0.0.0"; "10.0.0.1"; "10.0.0.2"; "10.0.0.3"].
Proof. vm_compute. split; reflexivity. Qed.

(** ** Bulk allocation from the list of free addresses *)

Lemma free_list_is_free db cidr ip :
  unique_ips db -> In ip (get_free_ips db cidr) -> is_free db ip = true.
Proof.
  intros Hu Hin. apply get_free_ips_In in Hin as (r & Hr & <- & Hs & _).
  unfold is_free, select_ip. rewrite (unique_select _ r Hu Hr), Hs.
  reflexivity.
Qed.

Lemma distinct_NoDup (l : list string) : NoDup l -> distinct l = l.
Proof.
  induction 1 as [|x l Hnotin Hnd IH]; cbn [distinct]; [reflexivity|].
  rewrite IH. f_equal. apply filter_all. intros y Hy.
  destruct (String.eqb_spec y x) as [->|_]; [contradiction | reflexivity].
Qed.

Lemma allocate_free_list clk x to mac dev notes db cidr ip :
  unique_ips db ->
  In ip (get_free_ips (snd (allocate_ip clk x to mac dev notes db)) cidr)
  <-> In ip (get_free_ips db cidr) /\ ip <> x.
Proof.
  intros Hu. rewrite allocate_ip_result.
  destruct (is_free db x) eqn:Hx; cbn [snd].
  - rewrite free_after_update by reflexivity. split.
    + intros [[Hne Hin]|(_ & r & _ & _ & Hs & _)]; [now split|].
      discriminate Hs.
    + intros [Hin Hne]. left. now split.
  - split; [|tauto]. intros Hin. split; [exact Hin|]. intros ->.
    rewrite (free_list_is_free db cidr x Hu Hin) in Hx. discriminate.
Qed.

Lemma allocate_keeps_unique clk x to mac dev notes db :
  unique_ips db -> unique_ips (snd (allocate_ip clk x to mac dev notes db)).
Proof.
  intros Hu. rewrite allocate_ip_result.
  destruct (is_free db x); cbn [snd]; [|exact Hu].
  unfold unique_ips. now rewrite transition_frame.
Qed.

Lemma bulk_free_list clk to mac dev notes sel acc cidr ip :
  unique_ips (snd acc) ->
  In ip (get_free_ips
           (snd (fold_left (bulk_allocate_item clk to mac dev notes) sel acc))
           cidr)
  <-> In ip (get_free_ips (snd acc) cidr) /\ ~ In ip sel.
Proof.
  revert acc. induction sel as [|x sel IH]; intros acc Hu; cbn [fold_left In].
  - tauto.
  - rewrite IH by (rewrite bulk_item_db; now apply allocate_keeps_unique).
    rewrite bulk_item_db, allocate_free_list by exact Hu.
    split.
    + intros [[Hin Hne] Hsel]. split; [exact Hin|]. intros [E|E]; auto.
    + intros [Hin Hsel]. repeat split; auto.
Qed.

(** X20.  Bulk allocation of addresses picked from the list of free
    addresses.  When address texts are unique and the selection consists
    of distinct entries of [get_free_ips] for some subnet, every selected
    address is allocated: the success count is the size of the selection
    and there is no error message.  Whatever is selected, afterwards no
    selected address is offered by any list of free addresses, and every
    other entry of every such list is still offered. *)
Theorem bulk_allocate_free_selection (clk : Clock) (selected : list string)
    (allocated_to mac device_type notes : string) (db : Database)
    (cidr : string) :
  unique_ips db ->
  let res := bulk_allocate clk selected allocated_to mac device_type notes db in
  (NoDup selected -> incl selected (get_free_ips db cidr) ->
   fst res = (Z.of_nat (List.length selected), []))
  /\ forall cidr' ip,
       In ip (get_free_ips (snd res) cidr')
       <-> In ip (get_free_ips db cidr') /\ ~ In ip selected.
Proof.
  intros Hu res. split.
  - intros Hnd Hincl. subst res. unfold bulk_allocate.
    destruct (bulk_loop clk allocated_to mac device_type notes selected 0 [] db)
      as (errs' & hs & Hrun & Hlen & _).
    rewrite Hrun. cbn [fst app Z.add].
    assert (Hall : filter (is_free db) (distinct selected) = selected).
    { rewrite (distinct_NoDup _ Hnd). apply filter_all. intros ip Hip.
      apply (free_list_is_free db cidr ip Hu). now apply Hincl. }
    rewrite Hall in *.
    assert (errs' = []) by (destruct errs'; [reflexivity | cbn in Hlen; lia]).
    now subst errs'.
  - intros cidr' ip. subst res. unfold bulk_allocate.
    now rewrite bulk_free_list.
Qed.

(** Both addresses offered for 10.0.0.0/30 are selected. *)
Lemma bulk_allocate_free_selection_witness :
  let clk := mkClock "2024-01-01 00:00:00" "2024-01-01 08:00:00" in
  let db := snd (create_subnet clk "10.0.0.0/30" "" "" "" empty_database) in
  let selected := ["10.0.0.1"; "10.0.0.2"] in
  let res := bulk_allocate clk selected "srv01" "" "" "" db in
  unique_ips db
  /\ fst res = (Z.of_nat (List.length selected), [])
  /\ get_free_ips db "10.0.0.0/30" = selected
  /\ get_free_ips (snd res) "10.0.0.0/30" = [].
Proof.
  intros clk db selected res.
  assert (Hu : unique_ips db)
    by (apply create_subnet_unique; constructor).
  assert (Hfree : get_free_ips db "10.0.0.0/30" = selected)
    by (vm_compute; reflexivity).
  split; [exact Hu|]. split; [|split; [exact Hfree | vm_compute; reflexivity]].
  apply (proj1 (bulk_allocate_free_selection clk selected "srv01" "" "" "" db
                  "10.0.0.0/30" Hu)).
  - subst selected. repeat constructor; simpl; intuition discriminate.
  - rewrite Hfree. apply incl_refl.
Defined.
